(** * ClipKeep 2.251208: the clipboard capture and persistence pipeline

    A shallow embedding of [clipkeep_V2.251208.py]: the content store
    ([ClipboardDatabase]), the background workers ([DBWorker],
    [ImageProcessWorker]) and the handlers of [ClipKeepApp] that classify a
    clipboard snapshot, guard against duplicates, trim the history and
    debounce edits.  The Python and Qt primitives the handlers call are
    modelled first. *)

From Stdlib Require Import String Ascii ZArith Bool List Permutation Sorted Lia.
From Stdlib Require Import SpecFloat.
From Stdlib.Strings Require Import Byte.
Import ListNotations.
Local Open Scope Z_scope.

(** ** Python runtime: exceptions, [str], [bytes] *)

Module Py.

(** The exceptions the modelled code can meet. *)
Inductive exn : Type :=
| UnicodeEncodeError
| ZeroDivisionError
| TypeError
| sqlite3_Error.

(** A computation either returns or raises. *)
Inductive result (A : Type) : Type :=
| Ok (a : A)
| Raise (e : exn).
Arguments Ok {A} a.
Arguments Raise {A} e.

Definition bind {A B : Type} (m : result A) (k : A -> result B) : result B :=
  match m with
  | Ok a => k a
  | Raise e => Raise e
  end.

(** [try: body / except Exception: handler]. *)
Definition try_except {A : Type} (body : result A) (handler : exn -> A) : A :=
  match body with
  | Ok a => a
  | Raise e => handler e
  end.

Definition raises {A : Type} (m : result A) : bool :=
  match m with
  | Ok _ => false
  | Raise _ => true
  end.

(** A [str] is a sequence of Unicode code points; [bytes] a sequence of
    octets. *)
Definition str : Type := list Z.
Definition bytes : Type := list byte.

Definition byte_of_Z (z : Z) : byte :=
  match Byte.of_N (Z.to_N (z mod 256)) with
  | Some b => b
  | None => x00
  end.

Definition Z_of_byte (b : byte) : Z := Z.of_N (Byte.to_N b).

(** A [str] literal of ASCII characters. *)
Fixpoint lit (s : string) : str :=
  match s with
  | EmptyString => []
  | String c r => Z.of_N (N_of_ascii c) :: lit r
  end.

(** [str.isspace] on one code point (CPython's [_PyUnicode_IsWhitespace]). *)
Definition isspace (c : Z) : bool :=
  ((0x09 <=? c) && (c <=? 0x0D))
  || ((0x1C <=? c) && (c <=? 0x20))
  || (c =? 0x85) || (c =? 0xA0) || (c =? 0x1680)
  || ((0x2000 <=? c) && (c <=? 0x200A))
  || (c =? 0x2028) || (c =? 0x2029) || (c =? 0x202F)
  || (c =? 0x205F) || (c =? 0x3000).

Fixpoint lstrip (s : str) : str :=
  match s with
  | [] => []
  | c :: r => if isspace c then lstrip r else s
  end.

Definition rstrip (s : str) : str := rev (lstrip (rev s)).

(** [s.strip()]. *)
Definition strip (s : str) : str := rstrip (lstrip s).

(** A string that neither starts nor ends with whitespace. *)
Definition no_outer_whitespace (s : str) : Prop :=
  (forall c r, s = c :: r -> isspace c = false)
  /\ (forall r c, s = r ++ [c] -> isspace c = false).

Definition whitespace (s : str) : Prop := Forall (fun c => isspace c = true) s.

(** UTF-8 for one code point; a surrogate cannot be encoded. *)
Definition encode_cp (c : Z) : result bytes :=
  if c <? 0x80 then Ok [byte_of_Z c]
  else if c <? 0x800 then
    Ok [byte_of_Z (Z.lor 0xC0 (Z.shiftr c 6));
        byte_of_Z (Z.lor 0x80 (Z.land c 0x3F))]
  else if (0xD800 <=? c) && (c <=? 0xDFFF) then Raise UnicodeEncodeError
  else if c <? 0x10000 then
    Ok [byte_of_Z (Z.lor 0xE0 (Z.shiftr c 12));
        byte_of_Z (Z.lor 0x80 (Z.land (Z.shiftr c 6) 0x3F));
        byte_of_Z (Z.lor 0x80 (Z.land c 0x3F))]
  else
    Ok [byte_of_Z (Z.lor 0xF0 (Z.shiftr c 18));
        byte_of_Z (Z.lor 0x80 (Z.land (Z.shiftr c 12) 0x3F));
        byte_of_Z (Z.lor 0x80 (Z.land (Z.shiftr c 6) 0x3F));
        byte_of_Z (Z.lor 0x80 (Z.land c 0x3F))].

(** [s.encode()]: UTF-8, strict. *)
Fixpoint encode (s : str) : result bytes :=
  match s with
  | [] => Ok []
  | c :: r =>
      bind (encode_cp c) (fun b =>
      bind (encode r) (fun bs => Ok (b ++ bs)))
  end.

(** [sep.join(parts)]. *)
Fixpoint join (sep : str) (parts : list str) : str :=
  match parts with
  | [] => []
  | [p] => p
  | p :: rest => p ++ sep ++ join sep rest
  end.

End Py.

Notation "x <- m ;; k" := (Py.bind m (fun x => k))
  (at level 61, m at next level, right associativity).

(** ** [hashlib.md5] *)

Module hashlib.

Definition w32 (x : Z) : Z := x mod 2 ^ 32.

Definition rotl (x n : Z) : Z :=
  w32 (Z.lor (Z.shiftl x n) (Z.shiftr x (32 - n))).

Definition shifts : list Z :=
  [7; 12; 17; 22; 7; 12; 17; 22; 7; 12; 17; 22; 7; 12; 17; 22;
   5; 9; 14; 20; 5; 9; 14; 20; 5; 9; 14; 20; 5; 9; 14; 20;
   4; 11; 16; 23; 4; 11; 16; 23; 4; 11; 16; 23; 4; 11; 16; 23;
   6; 10; 15; 21; 6; 10; 15; 21; 6; 10; 15; 21; 6; 10; 15; 21].

Definition sines : list Z :=
  [0xd76aa478; 0xe8c7b756; 0x242070db; 0xc1bdceee;
   0xf57c0faf; 0x4787c62a; 0xa8304613; 0xfd469501;
   0x698098d8; 0x8b44f7af; 0xffff5bb1; 0x895cd7be;
   0x6b901122; 0xfd987193; 0xa679438e; 0x49b40821;
   0xf61e2562; 0xc040b340; 0x265e5a51; 0xe9b6c7aa;
   0xd62f105d; 0x02441453; 0xd8a1e681; 0xe7d3fbc8;
   0x21e1cde6; 0xc33707d6; 0xf4d50d87; 0x455a14ed;
   0xa9e3e905; 0xfcefa3f8; 0x676f02d9; 0x8d2a4c8a;
   0xfffa3942; 0x8771f681; 0x6d9d6122; 0xfde5380c;
   0xa4beea44; 0x4bdecfa9; 0xf6bb4b60; 0xbebfbc70;
   0x289b7ec6; 0xeaa127fa; 0xd4ef3085; 0x04881d05;
   0xd9d4d039; 0xe6db99e5; 0x1fa27cf8; 0xc4ac5665;
   0xf4292244; 0x432aff97; 0xab9423a7; 0xfc93a039;
   0x655b59c3; 0x8f0ccc92; 0xffeff47d; 0x85845dd1;
   0x6fa87e4f; 0xfe2ce6e0; 0xa3014314; 0x4e0811a1;
   0xf7537e82; 0xbd3af235; 0x2ad7d2bb; 0xeb86d391].

(** The message, a 1 bit, zeros up to 56 mod 64, then the bit length as a
    little-endian 64-bit word. *)
Definition le_bytes (n : nat) (x : Z) : list Z :=
  map (fun i => Z.land (Z.shiftr x (8 * Z.of_nat i)) 0xFF) (seq 0 n).

Definition pad (msg : list Z) : list Z :=
  let len := Z.of_nat (length msg) in
  let zeros := Z.to_nat ((55 - len) mod 64) in
  msg ++ [0x80] ++ repeat 0 zeros ++ le_bytes 8 ((8 * len) mod 2 ^ 64).

Fixpoint le_word (bs : list Z) : Z :=
  match bs with
  | [] => 0
  | b :: r => b + 256 * le_word r
  end.

(** The sixteen little-endian words of a 64-byte block. *)
Fixpoint words (n : nat) (block : list Z) : list Z :=
  match n with
  | O => []
  | S n' => le_word (firstn 4 block) :: words n' (skipn 4 block)
  end.

Definition round (M : list Z) (st : Z * Z * Z * Z) (i : nat) : Z * Z * Z * Z :=
  let '(a, b, c, d) := st in
  let iz := Z.of_nat i in
  let '(f, g) :=
    if iz <? 16 then (Z.lor (Z.land b c) (Z.land (Z.lxor b 0xFFFFFFFF) d), iz)
    else if iz <? 32 then
      (Z.lor (Z.land d b) (Z.land (Z.lxor d 0xFFFFFFFF) c), (5 * iz + 1) mod 16)
    else if iz <? 48 then (Z.lxor (Z.lxor b c) d, (3 * iz + 5) mod 16)
    else (Z.lxor c (Z.lor b (Z.lxor d 0xFFFFFFFF)), (7 * iz) mod 16) in
  let f' := w32 (f + a + nth i sines 0 + nth (Z.to_nat g) M 0) in
  (d, w32 (b + rotl f' (nth i shifts 0)), b, c).

Definition compress (st : Z * Z * Z * Z) (block : list Z) : Z * Z * Z * Z :=
  let '(a0, b0, c0, d0) := st in
  let '(a, b, c, d) := fold_left (round (words 16 block)) (seq 0 64) st in
  (w32 (a0 + a), w32 (b0 + b), w32 (c0 + c), w32 (d0 + d)).

Fixpoint blocks (n : nat) (st : Z * Z * Z * Z) (data : list Z) : Z * Z * Z * Z :=
  match n with
  | O => st
  | S n' => blocks n' (compress st (firstn 64 data)) (skipn 64 data)
  end.

(** [hashlib.md5(data).digest()]. *)
Definition digest (data : Py.bytes) : list Z :=
  let p := pad (map Py.Z_of_byte data) in
  let '(a, b, c, d) :=
    blocks (length p / 64) (0x67452301, 0xefcdab89, 0x98badcfe, 0x10325476) p in
  le_bytes 4 a ++ le_bytes 4 b ++ le_bytes 4 c ++ le_bytes 4 d.

Definition hexchar (n : Z) : ascii :=
  if n <? 10 then ascii_of_N (Z.to_N (48 + n)) else ascii_of_N (Z.to_N (87 + n)).

Fixpoint hex (bs : list Z) : string :=
  match bs with
  | [] => EmptyString
  | b :: r => String (hexchar (b / 16)) (String (hexchar (b mod 16)) (hex r))
  end.

(** [hashlib.md5(data).hexdigest()]. *)
Definition md5 (data : Py.bytes) : string := hex (digest data).

End hashlib.

(** ** Qt: images, URLs and the clipboard as the handlers read it *)

Module Qt.

(** Pixel data is kept symbolic: what was captured, or the smooth
    resampling of other pixel data to a new size. *)
Inductive Pixels : Type :=
| Captured (data : list Z)
| Resampled (src : Pixels) (w h : Z).

Record QImage : Type := {
  width : Z;
  height : Z;
  hasAlphaChannel : bool;
  bits : Pixels
}.

(** [QImage()]: the null image has no size, no alpha and no data. *)
Definition null : QImage :=
  {| width := 0; height := 0; hasAlphaChannel := false; bits := Captured [] |}.

(** An image without pixels (a width or height of 0) is null. *)
Definition isNull (img : QImage) : bool :=
  (width img <=? 0) || (height img <=? 0).

(** [QSize::scaled(s, Qt::KeepAspectRatio)]: the largest size of the same
    aspect ratio inside [s]. *)
Definition QSize_scaled (wd ht : Z) (s_wd s_ht : Z) : Z * Z :=
  if (wd =? 0) || (ht =? 0) then (s_wd, s_ht)
  else
    let rw := s_ht * wd / ht in
    if rw <=? s_wd then (rw, s_ht) else (s_wd, s_wd * ht / wd).

(** [img.scaled(w, h, KeepAspectRatio, SmoothTransformation)]: a null
    image for a null source or an empty target size; otherwise the image
    resampled to the fitted size, each side at least 1, with the alpha
    channel of the source. *)
Definition scaled (img : QImage) (w h : Z) : QImage :=
  if isNull img then null
  else if (w <? 1) || (h <? 1) then null
  else
    let '(nw, nh) := QSize_scaled (width img) (height img) w h in
    let nw := Z.max nw 1 in
    let nh := Z.max nh 1 in
    if (nw =? width img) && (nh =? height img) then img
    else {| width := nw; height := nh;
            hasAlphaChannel := hasAlphaChannel img;
            bits := Resampled (bits img) nw nh |}.

(** The image writers (PNG, JPEG) are outside the program: a writer maps a
    format name, a quality and a non-null image to the encoded bytes. *)
Class ImageWriter : Type :=
  write : string -> Z -> QImage -> Py.bytes.

(** [img.save(buffer, fmt, quality)] followed by [byte_array.data()]:
    nothing is written for a null image. *)
Definition save {W : ImageWriter} (img : QImage) (fmt : string) (quality : Z)
  : Py.bytes :=
  if isNull img then [] else write fmt quality img.

(** A URL, as the three accessors read here answer for it:
    [toDisplayString()] is the URL written out with its scheme. *)
Record QUrl : Type := {
  isLocalFile : bool;
  toLocalFile : Py.str;
  toDisplayString : Py.str
}.

(** What [QApplication.clipboard()] answers when the handler asks:
    [mimeData().hasImage()], [image()], [mimeData().hasUrls()],
    [mimeData().urls()], [mimeData().hasHtml()], [mimeData().html()],
    [mimeData().hasText()] and [text()]. *)
Record QClipboard : Type := {
  hasImage : bool;
  image : QImage;
  hasUrls : bool;
  urls : list QUrl;
  hasHtml : bool;
  html : Py.str;
  hasText : bool;
  text : Py.str
}.

(** What the system clipboard holds: the data of each format it offers,
    [application/x-qt-image], [text/uri-list], [text/html] and
    [text/plain]. *)
Record QMimeData : Type := {
  imageData : option QImage;
  uriList : option (list QUrl);
  textHtml : option Py.str;
  textPlain : option Py.str
}.

(** The text Qt makes of a URL list that comes without [text/plain]: the
    display string of a single URL, or every display string followed by
    a newline. *)
Definition url_list_text (us : list QUrl) : Py.str :=
  match us with
  | [u] => toDisplayString u
  | _ => concat (map (fun u => toDisplayString u ++ [10]) us)
  end.

(** [hasFormat]: the format is on offer. *)
Definition hasFormat {A : Type} (data : option A) : bool :=
  match data with
  | Some _ => true
  | None => false
  end.

(** The answers of the accessors for the formats on offer, as Qt's
    [QMimeData] gives them: [hasImage], [hasUrls] and [hasHtml] hold when
    the format is there, [hasText()] is [hasFormat("text/plain") ||
    hasUrls()], and [text()] falls back on the URL list when there is no
    [text/plain]. *)
Definition clipboard (m : QMimeData) : QClipboard :=
  {| hasImage := hasFormat (imageData m);
     image := match imageData m with Some img => img | None => null end;
     hasUrls := hasFormat (uriList m);
     urls := match uriList m with Some us => us | None => [] end;
     hasHtml := hasFormat (textHtml m);
     html := match textHtml m with Some h => h | None => [] end;
     hasText := hasFormat (textPlain m) || hasFormat (uriList m);
     text := match textPlain m, uriList m with
             | Some t, _ => t
             | None, Some us => url_list_text us
             | None, None => []
             end |}.

End Qt.

(** ** Constants *)

Definition MAX_IMAGE_AREA_PIXELS : Z := 4 * 1024 * 1024.
Definition SAVE_DEBOUNCE_MS : Z := 700.
Definition DEFAULT_MAX_HISTORY : Z := 100.
Definition THUMBNAIL_SIZE : Z := 64.

(** ** The [records] table and [sqlite3] *)

Module records.

(** One row; a column that an INSERT leaves out is NULL ([None]). *)
Record row : Type := {
  id : Z;
  type : string;
  content : option Py.str;
  content_blob : option Py.bytes;
  timestamp : Z;
  thumbnail : option Py.bytes;
  format : option string;
  width : option Z;
  height : option Z;
  content_hash : option string
}.

End records.

Module sqlite3.

(** The statements that change the table. *)
Inductive statement : Type :=
| INSERT (r : records.row)
| UPDATE_content (record_id : Z) (new_text : Py.str)
| DELETE_id (record_id : Z)
| DELETE_all
| DELETE_not_in_top (max_count : Z).

(** The database file: the rows in rowid order, the AUTOINCREMENT
    counter, the statements committed so far (latest first), and whether
    the storage layer currently fails ([sqlite3.Error] on every
    statement). *)
Record database : Type := {
  rows : list records.row;
  sequence : Z;
  committed : list statement;
  failing : bool
}.

Definition empty : database :=
  {| rows := []; sequence := 0; committed := []; failing := false |}.

(** [conn.cursor()], [sqlite3.connect]: raise when the storage fails. *)
Definition cursor (db : database) : Py.result unit :=
  if failing db then Py.Raise Py.sqlite3_Error else Py.Ok tt.

(** A [str] parameter is bound as UTF-8. *)
Definition bind_text (s : Py.str) : Py.result unit :=
  _ <- Py.encode s ;; Py.Ok tt.

(** INSERT with AUTOINCREMENT, and commit: the new row gets the next id
    and goes last; returns [cursor.lastrowid]. *)
Definition insert (db : database) (r : records.row) : database * Z :=
  let new_id := sequence db + 1 in
  let r' := {| records.id := new_id;
               records.type := records.type r;
               records.content := records.content r;
               records.content_blob := records.content_blob r;
               records.timestamp := records.timestamp r;
               records.thumbnail := records.thumbnail r;
               records.format := records.format r;
               records.width := records.width r;
               records.height := records.height r;
               records.content_hash := records.content_hash r |} in
  ({| rows := rows db ++ [r'];
      sequence := new_id;
      committed := INSERT r' :: committed db;
      failing := failing db |}, new_id).

Definition set_content (new_text : Py.str) (r : records.row) : records.row :=
  {| records.id := records.id r;
     records.type := records.type r;
     records.content := Some new_text;
     records.content_blob := records.content_blob r;
     records.timestamp := records.timestamp r;
     records.thumbnail := records.thumbnail r;
     records.format := records.format r;
     records.width := records.width r;
     records.height := records.height r;
     records.content_hash := records.content_hash r |}.

(** [UPDATE records SET content = ? WHERE id = ?]. *)
Definition update_content (db : database) (record_id : Z) (new_text : Py.str)
  : database :=
  {| rows := map (fun r => if records.id r =? record_id
                           then set_content new_text r else r) (rows db);
     sequence := sequence db;
     committed := UPDATE_content record_id new_text :: committed db;
     failing := failing db |}.

(** [DELETE FROM records WHERE id = ?]. *)
Definition delete_id (db : database) (record_id : Z) : database :=
  {| rows := filter (fun r => negb (records.id r =? record_id)) (rows db);
     sequence := sequence db;
     committed := DELETE_id record_id :: committed db;
     failing := failing db |}.

(** [DELETE FROM records]. *)
Definition delete_all (db : database) : database :=
  {| rows := [];
     sequence := sequence db;
     committed := DELETE_all :: committed db;
     failing := failing db |}.

(** [ORDER BY timestamp DESC]: the query names no second key, so rows of
    equal timestamp come out as the engine walks them, in rowid order
    (the index [idx_timestamp] holds (timestamp DESC, rowid)). *)
Fixpoint insert_desc (r : records.row) (l : list records.row) : list records.row :=
  match l with
  | [] => [r]
  | y :: l' =>
      if records.timestamp y <=? records.timestamp r then r :: l
      else y :: insert_desc r l'
  end.

Fixpoint order_by_timestamp_desc (l : list records.row) : list records.row :=
  match l with
  | [] => []
  | r :: l' => insert_desc r (order_by_timestamp_desc l')
  end.

(** [LIMIT ?]: a negative limit is no limit. *)
Definition limit {A : Type} (n : Z) (l : list A) : list A :=
  if n <? 0 then l else firstn (Z.to_nat n) l.

(** [SELECT id FROM records ORDER BY timestamp DESC LIMIT ?]. *)
Definition select_top_ids (db : database) (max_count : Z) : list Z :=
  map records.id (limit max_count (order_by_timestamp_desc (rows db))).

Definition mem (x : Z) (l : list Z) : bool := existsb (Z.eqb x) l.

(** [DELETE FROM records WHERE id NOT IN (SELECT id FROM records ORDER BY
    timestamp DESC LIMIT ?)]. *)
Definition delete_not_in_top (db : database) (max_count : Z) : database :=
  let keep := select_top_ids db max_count in
  {| rows := filter (fun r => mem (records.id r) keep) (rows db);
     sequence := sequence db;
     committed := DELETE_not_in_top max_count :: committed db;
     failing := failing db |}.

(** The table as AUTOINCREMENT leaves it: ids grow with the position,
    and none is above the counter. *)
Definition ascending_ids (l : list records.row) : Prop :=
  StronglySorted (fun x y => records.id x < records.id y) l.

Definition well_formed (db : database) : Prop :=
  ascending_ids (rows db)
  /\ Forall (fun r => records.id r <= sequence db) (rows db).

(** The order in which the query walks the rows: newer first, and among
    equal timestamps the smaller id first. *)
Definition walked_before (x y : records.row) : Prop :=
  records.timestamp y < records.timestamp x
  \/ (records.timestamp x = records.timestamp y /\ records.id x < records.id y).

(** The order of the specification: timestamp descending, ties by id
    descending.  [spec_top] is the part of the table it would keep. *)
Definition spec_before (x y : records.row) : bool :=
  (records.timestamp y <? records.timestamp x)
  || ((records.timestamp x =? records.timestamp y)
      && (records.id y <? records.id x)).

Fixpoint spec_insert (r : records.row) (l : list records.row) : list records.row :=
  match l with
  | [] => [r]
  | y :: l' => if spec_before r y then r :: l else y :: spec_insert r l'
  end.

Definition spec_top (l : list records.row) (max_count : Z) : list records.row :=
  limit max_count (fold_right spec_insert [] l).

(** [WHERE content_hash = ?]: NULL equals nothing. *)
Definition hash_is (h : string) (r : records.row) : bool :=
  match records.content_hash r with
  | Some h' => String.eqb h' h
  | None => false
  end.

End sqlite3.

(** ** [ClipboardRecord] *)

Module ClipboardRecord.

(** The [content] of a record object: text, a decoded image (kept as the
    stored bytes it was loaded from), or [None]. *)
Inductive payload : Type :=
| Text (s : option Py.str)
| Image (blob : option Py.bytes)
| NoContent.

Record t : Type := {
  id : Z;
  type : string;
  content : payload;
  timestamp : Z;
  thumbnail : option Py.bytes;
  format : option string;
  content_hash : string
}.

End ClipboardRecord.

(** ** [ClipboardDatabase]: the synchronous store

    Every method takes the database and the clock reading it uses for
    [datetime.now().timestamp()] (in microseconds), and returns the database
    it leaves with what the method returns. *)

Module ClipboardDatabase.
Import sqlite3.

(** The row a text capture appends when the store is healthy and the
    history has room. *)
Definition new_text_row (db : database) (now : Z) (text : Py.str)
    (fmt : string) (data : Py.bytes) : records.row :=
  {| records.id := sequence db + 1;
     records.type := "text";
     records.content := Some text;
     records.content_blob := None;
     records.timestamp := now;
     records.thumbnail := None;
     records.format := Some fmt;
     records.width := None;
     records.height := None;
     records.content_hash := Some (hashlib.md5 data) |}.

Definition add_text_record (db : database) (now : Z) (text : Py.str)
    (record_format : string) : database * Z :=
  Py.try_except
    (data <- Py.encode text ;;
     let content_hash := hashlib.md5 data in
     _ <- cursor db ;;
     Py.Ok (insert db
              {| records.id := 0;
                 records.type := "text";
                 records.content := Some text;
                 records.content_blob := None;
                 records.timestamp := now;
                 records.thumbnail := None;
                 records.format := Some record_format;
                 records.width := None;
                 records.height := None;
                 records.content_hash := Some content_hash |}))
    (fun _ => (db, 0)).

Definition add_image_record (db : database) (now : Z) (image_data : Py.bytes)
    (thumbnail : Py.bytes) (fmt : string) (width height : Z)
    (content_hash : string) : database * Z :=
  Py.try_except
    (_ <- cursor db ;;
     Py.Ok (insert db
              {| records.id := 0;
                 records.type := "image";
                 records.content := None;
                 records.content_blob := Some image_data;
                 records.timestamp := now;
                 records.thumbnail := Some thumbnail;
                 records.format := Some fmt;
                 records.width := Some width;
                 records.height := Some height;
                 records.content_hash := Some content_hash |}))
    (fun _ => (db, 0)).

Definition check_duplicate_hash (db : database) (content_hash : string) : bool :=
  Py.try_except
    (_ <- cursor db ;;
     Py.Ok (existsb (hash_is content_hash) (rows db)))
    (fun _ => false).

Definition update_text_content (db : database) (record_id : Z)
    (new_text : Py.str) : database :=
  Py.try_except
    (_ <- cursor db ;;
     _ <- bind_text new_text ;;
     Py.Ok (update_content db record_id new_text))
    (fun _ => db).

Definition delete_record (db : database) (record_id : Z) : database :=
  Py.try_except
    (_ <- cursor db ;;
     Py.Ok (delete_id db record_id))
    (fun _ => db).

Definition clear_all (db : database) : database :=
  Py.try_except
    (_ <- cursor db ;;
     Py.Ok (delete_all db))
    (fun _ => db).

Definition get_count (db : database) : Z :=
  Py.try_except
    (_ <- cursor db ;;
     Py.Ok (Z.of_nat (length (rows db))))
    (fun _ => 0).

Definition trim_to_limit (db : database) (max_count : Z) : database :=
  Py.try_except
    (_ <- cursor db ;;
     Py.Ok (delete_not_in_top db max_count))
    (fun _ => db).

(** [test_write] probes the storage: it inserts a text row without hash
    and deletes it again. *)
Definition test_write (db : database) (now : Z) : database * bool :=
  Py.try_except
    (_ <- cursor db ;;
     let '(db1, test_id) :=
       insert db
         {| records.id := 0;
            records.type := "text";
            records.content := Some (Py.lit "_test_");
            records.content_blob := None;
            records.timestamp := now;
            records.thumbnail := None;
            records.format := Some "plain"%string;
            records.width := None;
            records.height := None;
            records.content_hash := None |} in
     Py.Ok (delete_id db1 test_id, true))
    (fun _ => (db, false)).

End ClipboardDatabase.

(** ** The background workers *)

(** What a worker emits through [WorkerSignals]. *)
Inductive signal (A : Type) : Type :=
| result (output : A)
| error (e : Py.exn)
| finished.
Arguments result {A} output.
Arguments error {A} e.
Arguments finished {A}.

Module DBWorker.
Import sqlite3.

Inductive mode : Type :=
| load_all (limit : Z)
| get_detail (record_id : Z)
| other.

(** What [result] carries: a list of records, one record or [None]. *)
Inductive output : Type :=
| Records (l : list ClipboardRecord.t)
| Record_ (r : ClipboardRecord.t)
| None_.

Definition or_empty (h : option string) : string :=
  match h with
  | Some s => s
  | None => EmptyString
  end.

(** A row of [load_all]: text rows carry their text, image rows no
    content. *)
Definition summary (r : records.row) : ClipboardRecord.t :=
  {| ClipboardRecord.id := records.id r;
     ClipboardRecord.type := records.type r;
     ClipboardRecord.content :=
       if String.eqb (records.type r) "text"
       then ClipboardRecord.Text (records.content r)
       else ClipboardRecord.NoContent;
     ClipboardRecord.timestamp := records.timestamp r;
     ClipboardRecord.thumbnail := records.thumbnail r;
     ClipboardRecord.format := records.format r;
     ClipboardRecord.content_hash := or_empty (records.content_hash r) |}.

(** The row of [get_detail]: the text, or the image loaded from the
    stored bytes. *)
Definition detail (r : records.row) : ClipboardRecord.t :=
  {| ClipboardRecord.id := records.id r;
     ClipboardRecord.type := records.type r;
     ClipboardRecord.content :=
       if String.eqb (records.type r) "text"
       then ClipboardRecord.Text (records.content r)
       else ClipboardRecord.Image (records.content_blob r);
     ClipboardRecord.timestamp := records.timestamp r;
     ClipboardRecord.thumbnail := records.thumbnail r;
     ClipboardRecord.format := records.format r;
     ClipboardRecord.content_hash := or_empty (records.content_hash r) |}.

Definition body (db : database) (m : mode) : Py.result output :=
  _ <- cursor db ;;
  match m with
  | load_all lim =>
      Py.Ok (Records (map summary (limit lim (order_by_timestamp_desc (rows db)))))
  | get_detail rec_id =>
      match find (fun r => records.id r =? rec_id) (rows db) with
      | Some r => Py.Ok (Record_ (detail r))
      | None => Py.Ok None_
      end
  | other => Py.Ok None_
  end.

(** [run]: the signals emitted, in order. *)
Definition run (db : database) (m : mode) : list (signal output) :=
  match body db m with
  | Py.Ok out => [result out; finished]
  | Py.Raise e => [error e; finished]
  end.

End DBWorker.

Module ImageProcessWorker.
Import sqlite3.

Record t : Type := {
  image : Qt.QImage;
  max_area : Z;
  save_original : bool
}.

(** Python floats are IEEE binary64: 53 bits of precision, rounding to the
    nearest, ties to even. *)
Definition exact (z : Z) : spec_float :=
  match z with
  | Z0 => S754_zero false
  | Zpos m => S754_finite false m 0
  | Zneg m => S754_finite true m 0
  end.

(** [a / b] on two ints: the double nearest to the quotient. *)
Definition truediv (a b : Z) : spec_float := SFdiv 53 1024 (exact a) (exact b).

(** [float(z)], as [int * float] converts its left operand. *)
Definition float_of_int (z : Z) : spec_float := binary_normalize 53 1024 z 0 false.

(** [int(f)]: the integer part, towards zero.  An infinity or a NaN, which
    [int] refuses, does not arise here: the factor is the root of a
    quotient of two ints of the same sign and, for an area above a limit
    that is not negative, at most 1, so the product is at most the side. *)
Definition int_of_float (f : spec_float) : Z :=
  match f with
  | S754_finite s m e =>
      let magnitude := if 0 <=? e then Z.shiftl (Zpos m) e
                       else Z.shiftr (Zpos m) (- e) in
      if s then - magnitude else magnitude
  | _ => 0
  end.

(** [(max_area / area) ** 0.5], with the power [0.5] taken as the
    correctly rounded square root. *)
Definition scale_factor (max_area area : Z) : spec_float :=
  SFsqrt 53 1024 (truediv max_area area).

(** [int(dim * (max_area / area) ** 0.5)] in double precision.  Dividing
    by 0 raises, and the root of a negative quotient is complex, which
    [int] refuses. *)
Definition scale_dim (dim max_area area : Z) : Py.result Z :=
  if area =? 0 then Py.Raise Py.ZeroDivisionError
  else if max_area * area <? 0 then Py.Raise Py.TypeError
  else Py.Ok (int_of_float
                (SFmul 53 1024 (float_of_int dim) (scale_factor max_area area))).

(** The image that is persisted: the capture, or its downscaled copy. *)
Definition persist_image (w : t) : Py.result Qt.QImage :=
  if negb (save_original w) then
    let area := Qt.width (image w) * Qt.height (image w) in
    if area >? max_area w then
      new_width <- scale_dim (Qt.width (image w)) (max_area w) area ;;
      new_height <- scale_dim (Qt.height (image w)) (max_area w) area ;;
      Py.Ok (Qt.scaled (image w) new_width new_height)
    else Py.Ok (image w)
  else Py.Ok (image w).

Definition fmt_of (persist : Qt.QImage) : string :=
  if Qt.hasAlphaChannel persist then "PNG" else "JPEG".

Definition quality_of (fmt : string) : Z :=
  if String.eqb fmt "PNG" then -1 else 90.

(** The encoded bytes of the persisted image. *)
Definition img_array {W : Qt.ImageWriter} (persist : Qt.QImage) : Py.bytes :=
  let fmt := fmt_of persist in
  Qt.save persist fmt (quality_of fmt).

(** The row the worker inserts for a persisted image. *)
Definition row_of {W : Qt.ImageWriter} (persist : Qt.QImage) (now : Z) : records.row :=
  let thumb := Qt.scaled persist THUMBNAIL_SIZE THUMBNAIL_SIZE in
  let thumb_array := Qt.save thumb "PNG" (-1) in
  let content_hash := hashlib.md5 (img_array persist) in
  {| records.id := 0;
     records.type := "image";
     records.content := None;
     records.content_blob := Some (img_array persist);
     records.timestamp := now;
     records.thumbnail := Some thumb_array;
     records.format := Some (fmt_of persist);
     records.width := Some (Qt.width persist);
     records.height := Some (Qt.height persist);
     records.content_hash := Some content_hash |}.

(** The [try] block of [run]: the database after the INSERT and the hash
    handed to [result]. *)
Definition body {W : Qt.ImageWriter} (w : t) (db : database) (now : Z)
  : Py.result (database * string) :=
  persist <- persist_image w ;;
  _ <- cursor db ;;
  Py.Ok (fst (insert db (row_of persist now)), hashlib.md5 (img_array persist)).

(** [run]: the database it leaves and the signals emitted, in order. *)
Definition run {W : Qt.ImageWriter} (w : t) (db : database) (now : Z)
  : database * list (signal string) :=
  match body w db now with
  | Py.Ok (db', content_hash) => (db', [result content_hash; finished])
  | Py.Raise e => (db, [error e; finished])
  end.

End ImageProcessWorker.

(** ** [ClipKeepApp]: the handlers on the interactive thread *)

Module ClipKeepApp.
Import sqlite3.

(** The entries of [self.settings] the pipeline reads, by truth value. *)
Record settings_t : Type := {
  save_original_image : bool;
  enable_rich_text : bool;
  enable_file_paths : bool
}.

(** A runnable handed to [self.threadpool]. *)
Inductive runnable : Type :=
| DBWorker_ (m : DBWorker.mode)
| ImageProcessWorker_ (w : ImageProcessWorker.t).

(** The attributes of the application object the pipeline uses.  The
    single-shot [_save_timer] is its deadline while it runs. *)
Record t : Type := {
  db : database;
  settings : settings_t;
  max_history : Z;
  is_internal_copy : bool;
  current_record : option ClipboardRecord.t;
  last_clipboard_hash : string;
  threadpool : list runnable;
  _save_timer : option Z;
  _pending_save_id : option Z;
  _pending_save_text : option Py.str
}.

Definition set_db (d : database) (a : t) : t :=
  {| db := d; settings := settings a; max_history := max_history a;
     is_internal_copy := is_internal_copy a;
     current_record := current_record a;
     last_clipboard_hash := last_clipboard_hash a;
     threadpool := threadpool a; _save_timer := _save_timer a;
     _pending_save_id := _pending_save_id a;
     _pending_save_text := _pending_save_text a |}.

Definition set_is_internal_copy (b : bool) (a : t) : t :=
  {| db := db a; settings := settings a; max_history := max_history a;
     is_internal_copy := b;
     current_record := current_record a;
     last_clipboard_hash := last_clipboard_hash a;
     threadpool := threadpool a; _save_timer := _save_timer a;
     _pending_save_id := _pending_save_id a;
     _pending_save_text := _pending_save_text a |}.

Definition set_current_record (r : option ClipboardRecord.t) (a : t) : t :=
  {| db := db a; settings := settings a; max_history := max_history a;
     is_internal_copy := is_internal_copy a;
     current_record := r;
     last_clipboard_hash := last_clipboard_hash a;
     threadpool := threadpool a; _save_timer := _save_timer a;
     _pending_save_id := _pending_save_id a;
     _pending_save_text := _pending_save_text a |}.

Definition set_last_clipboard_hash (h : string) (a : t) : t :=
  {| db := db a; settings := settings a; max_history := max_history a;
     is_internal_copy := is_internal_copy a;
     current_record := current_record a;
     last_clipboard_hash := h;
     threadpool := threadpool a; _save_timer := _save_timer a;
     _pending_save_id := _pending_save_id a;
     _pending_save_text := _pending_save_text a |}.

Definition set_threadpool (p : list runnable) (a : t) : t :=
  {| db := db a; settings := settings a; max_history := max_history a;
     is_internal_copy := is_internal_copy a;
     current_record := current_record a;
     last_clipboard_hash := last_clipboard_hash a;
     threadpool := p; _save_timer := _save_timer a;
     _pending_save_id := _pending_save_id a;
     _pending_save_text := _pending_save_text a |}.

Definition set_save_timer (d : option Z) (a : t) : t :=
  {| db := db a; settings := settings a; max_history := max_history a;
     is_internal_copy := is_internal_copy a;
     current_record := current_record a;
     last_clipboard_hash := last_clipboard_hash a;
     threadpool := threadpool a; _save_timer := d;
     _pending_save_id := _pending_save_id a;
     _pending_save_text := _pending_save_text a |}.

Definition set_pending (i : option Z) (s : option Py.str) (a : t) : t :=
  {| db := db a; settings := settings a; max_history := max_history a;
     is_internal_copy := is_internal_copy a;
     current_record := current_record a;
     last_clipboard_hash := last_clipboard_hash a;
     threadpool := threadpool a; _save_timer := _save_timer a;
     _pending_save_id := i;
     _pending_save_text := s |}.

(** The application after [__init__] on an empty database with the
    default settings. *)
Definition init : t :=
  {| db := empty;
     settings := {| save_original_image := false;
                    enable_rich_text := true;
                    enable_file_paths := true |};
     max_history := DEFAULT_MAX_HISTORY;
     is_internal_copy := false;
     current_record := None;
     last_clipboard_hash := EmptyString;
     threadpool := [];
     _save_timer := None;
     _pending_save_id := None;
     _pending_save_text := None |}.

(** [self.threadpool.start(worker)]. *)
Definition start (r : runnable) (a : t) : t :=
  set_threadpool (threadpool a ++ [r]) a.

Definition refresh_history_async (a : t) : t :=
  start (DBWorker_ (DBWorker.load_all (max_history a))) a.

Definition add_text_record (a : t) (now : Z) (text : Py.str) (fmt : string) : t :=
  let db1 := fst (ClipboardDatabase.add_text_record (db a) now text fmt) in
  let db2 := ClipboardDatabase.trim_to_limit db1 (max_history a) in
  refresh_history_async (set_db db2 a).

Definition add_image_record_async (a : t) (image : Qt.QImage) : t :=
  start (ImageProcessWorker_
           {| ImageProcessWorker.image := image;
              ImageProcessWorker.max_area := MAX_IMAGE_AREA_PIXELS;
              ImageProcessWorker.save_original := save_original_image (settings a) |})
        a.

(** The Dedup Guard as each tier writes it: [current_hash !=
    self.last_clipboard_hash and not
    self.db.check_duplicate_hash(current_hash)]. *)
Definition is_new (a : t) (current_hash : string) : bool :=
  negb (String.eqb current_hash (last_clipboard_hash a))
  && negb (ClipboardDatabase.check_duplicate_hash (db a) current_hash).

(** Priority 4: text. *)
Definition tier_text (a : t) (now : Z) (clip : Qt.QClipboard) : Py.result t :=
  if Qt.hasText clip then
    let text := Py.strip (Qt.text clip) in
    match text with
    | [] => Py.Ok a
    | _ :: _ =>
        data <- Py.encode text ;;
        let current_hash := hashlib.md5 data in
        if is_new a current_hash
        then Py.Ok (add_text_record (set_last_clipboard_hash current_hash a)
                      now text "plain")
        else Py.Ok a
    end
  else Py.Ok a.

(** Priority 3: HTML. *)
Definition tier_html (a : t) (now : Z) (clip : Qt.QClipboard) : Py.result t :=
  if enable_rich_text (settings a) && Qt.hasHtml clip then
    let html_content := Qt.html clip in
    if 20 <? Z.of_nat (length html_content) then
      data <- Py.encode html_content ;;
      let current_hash := hashlib.md5 data in
      if is_new a current_hash
      then Py.Ok (add_text_record (set_last_clipboard_hash current_hash a)
                    now html_content "html")
      else Py.Ok a
    else tier_text a now clip
  else tier_text a now clip.

Definition local_files (urls : list Qt.QUrl) : list Py.str :=
  map Qt.toLocalFile (filter Qt.isLocalFile urls).

(** Priority 2: files. *)
Definition tier_files (a : t) (now : Z) (clip : Qt.QClipboard) : Py.result t :=
  if enable_file_paths (settings a) && Qt.hasUrls clip then
    match local_files (Qt.urls clip) with
    | [] => tier_html a now clip
    | files =>
        let content := Py.join [10] files in
        data <- Py.encode content ;;
        let current_hash := hashlib.md5 data in
        if is_new a current_hash
        then Py.Ok (add_text_record (set_last_clipboard_hash current_hash a)
                      now content "file")
        else Py.Ok a
    end
  else tier_html a now clip.

(** Priority 1: images. *)
Definition tier_image {W : Qt.ImageWriter} (a : t) (now : Z) (clip : Qt.QClipboard)
  : Py.result t :=
  if Qt.hasImage clip then
    let image := Qt.image clip in
    if negb (Qt.isNull image) then
      let byte_array := Qt.save image "PNG" (-1) in
      let current_hash := hashlib.md5 byte_array in
      if is_new a current_hash
      then Py.Ok (add_image_record_async
                    (set_last_clipboard_hash current_hash a) image)
      else Py.Ok a
    else tier_files a now clip
  else tier_files a now clip.

(** The slot of [clipboard.dataChanged]; [now] is the clock reading of
    the insert it may make. *)
Definition on_clipboard_change {W : Qt.ImageWriter} (a : t) (now : Z)
    (clip : Qt.QClipboard) : Py.result t :=
  if is_internal_copy a then Py.Ok (set_is_internal_copy false a)
  else tier_image a now clip.

(** [copy_selected_to_system] marks the clipboard write as its own. *)
Definition copy_selected_to_system (a : t) : t :=
  match current_record a with
  | None => a
  | Some _ => set_is_internal_copy true a
  end.

Definition on_image_saved (a : t) (content_hash : string) : t :=
  refresh_history_async a.

Definition on_detail_loaded (a : t) (record : option ClipboardRecord.t) : t :=
  match record with
  | None => a
  | Some r => set_current_record (Some r) a
  end.

Definition clear_detail_view (a : t) : t := set_current_record None a.

(** The text an edit of record [r] saves: [toHtml()] for an HTML record,
    [toPlainText()] otherwise. *)
Definition new_text (r : ClipboardRecord.t) (toPlainText toHtml : Py.str)
  : Py.str :=
  match ClipboardRecord.format r with
  | Some f => if String.eqb f "html" then toHtml else toPlainText
  | None => toPlainText
  end.

(** The slot of [text_editor.textChanged]; the editor holds [toPlainText]
    and [toHtml], and [now] is the time of the event in milliseconds. *)
Definition on_text_edited (a : t) (now : Z) (toPlainText toHtml : Py.str) : t :=
  match current_record a with
  | None => a
  | Some r =>
      if negb (String.eqb (ClipboardRecord.type r) "text") then a
      else
        set_save_timer (Some (now + SAVE_DEBOUNCE_MS))
          (set_pending (Some (ClipboardRecord.id r))
             (Some (new_text r toPlainText toHtml)) a)
  end.

(** The slot of [_save_timer.timeout]. *)
Definition _do_save_pending (a : t) : t :=
  match _pending_save_id a, _pending_save_text a with
  | Some i, Some s =>
      if i =? 0 then a
      else
        set_pending None None
          (set_db (ClipboardDatabase.update_text_content (db a) i s) a)
  | _, _ => a
  end.

(** The single-shot timer fires once its deadline is reached. *)
Definition fire_save_timer (a : t) (now : Z) : t :=
  match _save_timer a with
  | Some deadline =>
      if deadline <=? now then _do_save_pending (set_save_timer None a) else a
  | None => a
  end.

(** A finished worker's signals reach their slots: [result] of an image
    worker goes to [on_image_saved], its [finished] trims the history;
    [result] of [get_detail] goes to [on_detail_loaded]; [result] of
    [load_all] only fills the list widget. *)
Definition run_worker {W : Qt.ImageWriter} (a : t) (now : Z) : t :=
  match threadpool a with
  | [] => a
  | ImageProcessWorker_ w :: rest =>
      let a1 := set_threadpool rest a in
      let '(db', signals) := ImageProcessWorker.run w (db a1) now in
      let a2 := set_db db' a1 in
      let a3 := match signals with
                | result h :: _ => on_image_saved a2 h
                | _ => a2
                end in
      set_db (ClipboardDatabase.trim_to_limit (db a3) (max_history a3)) a3
  | DBWorker_ m :: rest =>
      let a1 := set_threadpool rest a in
      match DBWorker.run (db a1) m with
      | result (DBWorker.Record_ r) :: _ => on_detail_loaded a1 (Some r)
      | _ => a1
      end
  end.

(** Run queued workers until the pool is empty ([fuel] bounds the number
    of runs; every run takes one worker and an image worker queues one
    list refresh). *)
Fixpoint drain {W : Qt.ImageWriter} (fuel : nat) (a : t) (now : Z) : t :=
  match fuel with
  | O => a
  | S fuel' =>
      match threadpool a with
      | [] => a
      | _ :: _ => drain fuel' (run_worker a now) now
      end
  end.

(** [delete_selected]: [item] is the record id of the current list item,
    if there is one. *)
Definition delete_selected (a : t) (item : option Z) : t :=
  match item with
  | None => a
  | Some record_id =>
      clear_detail_view
        (set_db (ClipboardDatabase.delete_record (db a) record_id) a)
  end.

(** [clear_history]: [reply_yes] is the answer to the confirmation box. *)
Definition clear_history (a : t) (reply_yes : bool) : t :=
  if ClipboardDatabase.get_count (db a) =? 0 then a
  else if reply_yes
       then clear_detail_view (set_db (ClipboardDatabase.clear_all (db a)) a)
       else a.

(** What the event loop hands to the detail view: an edit in the text
    editor, a loaded detail record (the selection changed), or the
    selection going away. *)
Inductive event : Type :=
| textChanged (toPlainText toHtml : Py.str)
| detail_loaded (record : option ClipboardRecord.t)
| selection_cleared.

Definition handle (a : t) (now : Z) (ev : event) : t :=
  match ev with
  | textChanged p h => on_text_edited a now p h
  | detail_loaded r => on_detail_loaded a r
  | selection_cleared => clear_detail_view a
  end.

(** An event at time [now] is handled after a timer that was due. *)
Definition deliver (a : t) (timed : Z * event) : t :=
  let '(now, ev) := timed in
  handle (fire_save_timer a now) now ev.

Definition event_loop (a : t) (evs : list (Z * event)) : t :=
  fold_left deliver evs a.

(** No further event: a running timer reaches its deadline. *)
Definition idle (a : t) : t :=
  match _save_timer a with
  | Some deadline => fire_save_timer a deadline
  | None => a
  end.

(** A save is pending for record [i] with text [s], on the database [d]. *)
Definition armed (d : database) (i : Z) (s : Py.str) (a : t) : Prop :=
  (exists deadline, _save_timer a = Some deadline)
  /\ _pending_save_id a = Some i
  /\ _pending_save_text a = Some s
  /\ db a = d.

(** The pending save for record [i] with text [s] went through the store's
    [update_text_content], once, and nothing is pending. *)
Definition saved (d : database) (i : Z) (s : Py.str) (a : t) : Prop :=
  _save_timer a = None
  /\ _pending_save_id a = None
  /\ _pending_save_text a = None
  /\ db a = ClipboardDatabase.update_text_content d i s.

(** An edit of the text editor at a time, as an event. *)
Definition edit (e : Z * Py.str * Py.str) : Z * event :=
  let '(now, toPlainText, toHtml) := e in (now, textChanged toPlainText toHtml).

(** Every edit comes less than [SAVE_DEBOUNCE_MS] after the one before;
    [t] is the time of the edit before the first of [edits]. *)
Fixpoint within_debounce (t : Z) (edits : list (Z * Py.str * Py.str)) : Prop :=
  match edits with
  | [] => True
  | (t', p, h) :: rest => t' < t + SAVE_DEBOUNCE_MS /\ within_debounce t' rest
  end.

Definition is_selection_change (ev : event) : bool :=
  match ev with
  | textChanged _ _ => false
  | detail_loaded _ => true
  | selection_cleared => true
  end.

Definition is_image_worker (r : runnable) : bool :=
  match r with
  | ImageProcessWorker_ _ => true
  | DBWorker_ _ => false
  end.

End ClipKeepApp.

(** ** Sample data for the examples *)

Module Sample.

(** A stand-in for the image writers: the file signature of the format,
    then the quality and the size of the image. *)
Definition signature (fmt : string) : list Z :=
  if String.eqb fmt "PNG" then [0x89; 0x50; 0x4E; 0x47; 0x0D; 0x0A; 0x1A; 0x0A]
  else if String.eqb fmt "JPEG" then [0xFF; 0xD8; 0xFF]
  else [].

Definition writer : Qt.ImageWriter :=
  fun fmt quality img =>
    map Py.byte_of_Z
        (signature fmt ++ [quality; Qt.width img; Qt.height img]).

Definition opaque_image : Qt.QImage :=
  {| Qt.width := 2; Qt.height := 2; Qt.hasAlphaChannel := false;
     Qt.bits := Qt.Captured [1; 2; 3; 4] |}.

(** A strip of one pixel by five million, with an alpha channel. *)
Definition thin_alpha_image : Qt.QImage :=
  {| Qt.width := 1; Qt.height := 5000000; Qt.hasAlphaChannel := true;
     Qt.bits := Qt.Captured [] |}.


Definition empty_image : Qt.QImage :=
  {| Qt.width := 0; Qt.height := 7; Qt.hasAlphaChannel := false;
     Qt.bits := Qt.Captured [] |}.

Definition no_clip : Qt.QClipboard :=
  {| Qt.hasImage := false; Qt.image := Qt.null;
     Qt.hasUrls := false; Qt.urls := [];
     Qt.hasHtml := false; Qt.html := [];
     Qt.hasText := false; Qt.text := [] |}.

Definition text_clip (s : Py.str) : Qt.QClipboard :=
  {| Qt.hasImage := false; Qt.image := Qt.null;
     Qt.hasUrls := false; Qt.urls := [];
     Qt.hasHtml := false; Qt.html := [];
     Qt.hasText := true; Qt.text := s |}.

Definition image_clip (img : Qt.QImage) : Qt.QClipboard :=
  {| Qt.hasImage := true; Qt.image := img;
     Qt.hasUrls := false; Qt.urls := [];
     Qt.hasHtml := false; Qt.html := [];
     Qt.hasText := false; Qt.text := [] |}.

(** An image together with a text, as a browser copies a picture. *)
Definition image_and_text_clip (img : Qt.QImage) (s : Py.str) : Qt.QClipboard :=
  {| Qt.hasImage := true; Qt.image := img;
     Qt.hasUrls := false; Qt.urls := [];
     Qt.hasHtml := false; Qt.html := [];
     Qt.hasText := true; Qt.text := s |}.

(** A clipboard that offers a URL list and nothing else, as a file
    manager without a text rendering fills it. *)
Definition urls_mime (us : list Qt.QUrl) : Qt.QMimeData :=
  {| Qt.imageData := None; Qt.uriList := Some us;
     Qt.textHtml := None; Qt.textPlain := None |}.

Definition urls_clip (us : list Qt.QUrl) : Qt.QClipboard :=
  Qt.clipboard (urls_mime us).

(** [QUrl.fromLocalFile(path)] for an absolute path of plain letters,
    digits, dots and slashes. *)
Definition local_url (path : string) : Qt.QUrl :=
  {| Qt.isLocalFile := true; Qt.toLocalFile := Py.lit path;
     Qt.toDisplayString := Py.lit (String.append "file://" path) |}.

(** The application with the file tier switched off in the settings. *)
Definition without_file_paths (a : ClipKeepApp.t) : ClipKeepApp.t :=
  {| ClipKeepApp.db := ClipKeepApp.db a;
     ClipKeepApp.settings :=
       {| ClipKeepApp.save_original_image :=
            ClipKeepApp.save_original_image (ClipKeepApp.settings a);
          ClipKeepApp.enable_rich_text :=
            ClipKeepApp.enable_rich_text (ClipKeepApp.settings a);
          ClipKeepApp.enable_file_paths := false |};
     ClipKeepApp.max_history := ClipKeepApp.max_history a;
     ClipKeepApp.is_internal_copy := ClipKeepApp.is_internal_copy a;
     ClipKeepApp.current_record := ClipKeepApp.current_record a;
     ClipKeepApp.last_clipboard_hash := ClipKeepApp.last_clipboard_hash a;
     ClipKeepApp.threadpool := ClipKeepApp.threadpool a;
     ClipKeepApp._save_timer := ClipKeepApp._save_timer a;
     ClipKeepApp._pending_save_id := ClipKeepApp._pending_save_id a;
     ClipKeepApp._pending_save_text := ClipKeepApp._pending_save_text a |}.

Definition text_row (i ts : Z) (s : string) : records.row :=
  {| records.id := i; records.type := "text";
     records.content := Some (Py.lit s); records.content_blob := None;
     records.timestamp := ts; records.thumbnail := None;
     records.format := Some "plain"%string;
     records.width := None; records.height := None;
     records.content_hash := None |}.


Definition text_record (i : Z) (fmt : string) : ClipboardRecord.t :=
  {| ClipboardRecord.id := i; ClipboardRecord.type := "text";
     ClipboardRecord.content := ClipboardRecord.Text (Some []);
     ClipboardRecord.timestamp := 0; ClipboardRecord.thumbnail := None;
     ClipboardRecord.format := Some fmt;
     ClipboardRecord.content_hash := EmptyString |}.

Definition store (l : list records.row) (last_id : Z) : sqlite3.database :=
  {| sqlite3.rows := l; sqlite3.sequence := last_id;
     sqlite3.committed := []; sqlite3.failing := false |}.

Definition failing_store (l : list records.row) : sqlite3.database :=
  {| sqlite3.rows := l; sqlite3.sequence := 0;
     sqlite3.committed := []; sqlite3.failing := true |}.

(** An application on store [d] with history limit [limit], otherwise as
    after [__init__]. *)
Definition app (d : sqlite3.database) (limit : Z) : ClipKeepApp.t :=
  {| ClipKeepApp.db := d;
     ClipKeepApp.settings := ClipKeepApp.settings ClipKeepApp.init;
     ClipKeepApp.max_history := limit;
     ClipKeepApp.is_internal_copy := false;
     ClipKeepApp.current_record := None;
     ClipKeepApp.last_clipboard_hash := EmptyString;
     ClipKeepApp.threadpool := [];
     ClipKeepApp._save_timer := None;
     ClipKeepApp._pending_save_id := None;
     ClipKeepApp._pending_save_text := None |}.

End Sample.

(** * Properties *)

(** ** [hashlib.md5] against the digests CPython prints *)

Example md5_empty :
  Py.bind (Py.encode (Py.lit "")) (fun b => Py.Ok (hashlib.md5 b))
  = Py.Ok "d41d8cd98f00b204e9800998ecf8427e"%string.
Proof. vm_compute. reflexivity. Qed.

Example md5_abc :
  Py.bind (Py.encode (Py.lit "abc")) (fun b => Py.Ok (hashlib.md5 b))
  = Py.Ok "900150983cd24fb0d6963f7d28e17f72"%string.
Proof. vm_compute. reflexivity. Qed.

Example md5_hello :
  Py.bind (Py.encode (Py.lit "hello world")) (fun b => Py.Ok (hashlib.md5 b))
  = Py.Ok "5eb63bbbe01eeed093cb22bb8f5acdc3"%string.
Proof. vm_compute. reflexivity. Qed.

Example md5_two_blocks :
  Py.bind (Py.encode (repeat 120 70)) (fun b => Py.Ok (hashlib.md5 b))
  = Py.Ok "7d56c0f83fd1e320d60ea2f13dfdeedd"%string.
Proof. vm_compute. reflexivity. Qed.

(** ** The store *)

Section StoreFacts.
Import sqlite3.

Lemma cursor_ok db : failing db = false -> cursor db = Py.Ok tt.
Proof. unfold cursor. intros ->. reflexivity. Qed.

Lemma cursor_raises db : failing db = true -> cursor db = Py.Raise Py.sqlite3_Error.
Proof. unfold cursor. intros ->. reflexivity. Qed.

Lemma In_insert db r x :
  In x (rows (fst (insert db r))) ->
  In x (rows db) \/
  (records.type x = records.type r /\ records.content x = records.content r
   /\ records.format x = records.format r
   /\ records.content_hash x = records.content_hash r).
Proof.
  simpl. intros H. apply in_app_or in H.
  destruct H as [H | [<- | []]]; simpl; auto.
Qed.

Lemma In_trim db n x :
  In x (rows (ClipboardDatabase.trim_to_limit db n)) -> In x (rows db).
Proof.
  unfold ClipboardDatabase.trim_to_limit, cursor.
  destruct (failing db); simpl; auto.
  intros H. apply filter_In in H. tauto.
Qed.

(** A text insert adds at most one row, of type text. *)
Lemma In_add_text_record db now text fmt x :
  In x (rows (fst (ClipboardDatabase.add_text_record db now text fmt))) ->
  In x (rows db) \/
  (records.type x = "text"%string /\ records.content x = Some text
   /\ records.format x = Some fmt
   /\ exists data, Py.encode text = Py.Ok data
                   /\ records.content_hash x = Some (hashlib.md5 data)).
Proof.
  unfold ClipboardDatabase.add_text_record, cursor.
  destruct (Py.encode text) as [data | e]; simpl; auto.
  destruct (failing db); simpl; auto.
  intros H. apply in_app_or in H. destruct H as [H | [<- | []]]; auto.
  right. simpl. repeat split. exists data. auto.
Qed.

End StoreFacts.

(** C9, as the code has it: on a storage error no store operation raises.
    The inserts return id 0, the other writes return leaving the store as
    it was, [get_count] returns 0 and [check_duplicate_hash] returns False;
    the two asynchronous reads of [DBWorker] catch the error and emit
    [error] and [finished], delivering no result at all. *)
Theorem C9_storage_errors_stay_in_the_store
    (db : sqlite3.database) (now : Z) (text : Py.str) (fmt : string)
    (image_data thumb : Py.bytes) (w h : Z) (content_hash : string)
    (record_id max_count lim : Z) :
  sqlite3.failing db = true ->
  ClipboardDatabase.add_text_record db now text fmt = (db, 0)
  /\ ClipboardDatabase.add_image_record db now image_data thumb fmt w h content_hash
     = (db, 0)
  /\ ClipboardDatabase.update_text_content db record_id text = db
  /\ ClipboardDatabase.delete_record db record_id = db
  /\ ClipboardDatabase.clear_all db = db
  /\ ClipboardDatabase.trim_to_limit db max_count = db
  /\ ClipboardDatabase.get_count db = 0
  /\ ClipboardDatabase.check_duplicate_hash db content_hash = false
  /\ DBWorker.run db (DBWorker.load_all lim) = [error Py.sqlite3_Error; finished]
  /\ DBWorker.run db (DBWorker.get_detail record_id)
     = [error Py.sqlite3_Error; finished].
Proof.
  intros Hf.
  unfold ClipboardDatabase.add_text_record, ClipboardDatabase.add_image_record,
    ClipboardDatabase.update_text_content, ClipboardDatabase.delete_record,
    ClipboardDatabase.clear_all, ClipboardDatabase.trim_to_limit,
    ClipboardDatabase.get_count, ClipboardDatabase.check_duplicate_hash,
    DBWorker.run, DBWorker.body.
  rewrite (cursor_raises db Hf). simpl.
  repeat split.
  destruct (Py.encode text); reflexivity.
Qed.

Lemma C9_storage_errors_witness :
  let db := Sample.failing_store [Sample.text_row 1 5 "A"] in
  sqlite3.failing db = true
  /\ ClipboardDatabase.add_text_record db 9 (Py.lit "B") "plain" = (db, 0).
Proof.
  intros db. split; [reflexivity |].
  exact (proj1 (C9_storage_errors_stay_in_the_store db 9 (Py.lit "B")
                  "plain" [] [] 0 0 "" 1 1 100 eq_refl)).
Defined.

(** C9, as stated, fails for [loadSummaries]: on a storage error the
    [load_all] worker delivers no result, so the caller is not handed an
    empty list (a healthy store with no rows does deliver one). *)
Lemma C9_load_all_error_is_not_an_empty_result :
  let db := Sample.failing_store [Sample.text_row 1 5 "A"] in
  sqlite3.failing db = true
  /\ (forall out, ~ In (result out) (DBWorker.run db (DBWorker.load_all 100)))
  /\ DBWorker.run sqlite3.empty (DBWorker.load_all 100)
     = [result (DBWorker.Records []); finished].
Proof.
  split; [reflexivity | split].
  - intros out [H | [H | []]]; discriminate H.
  - reflexivity.
Qed.

(** ** The classifier and the Dedup Guard *)

Section Classifier.
Import sqlite3 ClipKeepApp.
Context {W : Qt.ImageWriter}.

Lemma db_add_image_record_async a img : db (add_image_record_async a img) = db a.
Proof. reflexivity. Qed.

(** What a text capture leaves in the table: old rows, and at most the
    one new text row. *)
Lemma In_app_add_text_record a now text fmt x :
  In x (rows (db (add_text_record a now text fmt))) ->
  In x (rows (db a)) \/
  (records.type x = "text"%string /\ records.content x = Some text
   /\ records.format x = Some fmt
   /\ exists data, Py.encode text = Py.Ok data
                   /\ records.content_hash x = Some (hashlib.md5 data)).
Proof.
  unfold add_text_record. simpl. intros H.
  apply In_trim in H. apply In_add_text_record in H. exact H.
Qed.

Lemma image_workers_add_text_record a now text fmt :
  filter is_image_worker (threadpool (add_text_record a now text fmt))
  = filter is_image_worker (threadpool a).
Proof.
  unfold add_text_record, refresh_history_async, start. simpl.
  rewrite filter_app. simpl. apply app_nil_r.
Qed.

(** The three lower tiers never start an image worker, and the rows they
    add are text rows. *)
Lemma tier_text_no_image a now clip a' :
  tier_text a now clip = Py.Ok a' ->
  filter is_image_worker (threadpool a') = filter is_image_worker (threadpool a)
  /\ forall x, In x (rows (db a')) ->
               In x (rows (db a)) \/ records.type x = "text"%string.
Proof.
  unfold tier_text.
  destruct (Qt.hasText clip); [| intros [= <-]; auto].
  destruct (Py.strip (Qt.text clip)) as [| c s]; [intros [= <-]; auto |].
  destruct (Py.encode (c :: s)) as [data | e]; simpl; [| discriminate].
  destruct (is_new a (hashlib.md5 data)); intros [= <-]; auto.
  split; [rewrite image_workers_add_text_record; reflexivity |].
  intros x H. apply In_app_add_text_record in H. simpl in H. tauto.
Qed.

Lemma tier_html_no_image a now clip a' :
  tier_html a now clip = Py.Ok a' ->
  filter is_image_worker (threadpool a') = filter is_image_worker (threadpool a)
  /\ forall x, In x (rows (db a')) ->
               In x (rows (db a)) \/ records.type x = "text"%string.
Proof.
  unfold tier_html.
  destruct (enable_rich_text (settings a) && Qt.hasHtml clip);
    [| apply tier_text_no_image].
  destruct (20 <? Z.of_nat (length (Qt.html clip)));
    [| apply tier_text_no_image].
  destruct (Py.encode (Qt.html clip)) as [data | e]; simpl; [| discriminate].
  destruct (is_new a (hashlib.md5 data)); intros [= <-]; auto.
  split; [rewrite image_workers_add_text_record; reflexivity |].
  intros x H. apply In_app_add_text_record in H. simpl in H. tauto.
Qed.

Lemma tier_files_no_image a now clip a' :
  tier_files a now clip = Py.Ok a' ->
  filter is_image_worker (threadpool a') = filter is_image_worker (threadpool a)
  /\ forall x, In x (rows (db a')) ->
               In x (rows (db a)) \/ records.type x = "text"%string.
Proof.
  unfold tier_files.
  destruct (enable_file_paths (settings a) && Qt.hasUrls clip);
    [| apply tier_html_no_image].
  destruct (local_files (Qt.urls clip)) as [| f fs];
    [apply tier_html_no_image |].
  destruct (Py.encode (Py.join [10] (f :: fs))) as [data | e]; simpl;
    [| discriminate].
  destruct (is_new a (hashlib.md5 data)); intros [= <-]; auto.
  split; [rewrite image_workers_add_text_record; reflexivity |].
  intros x H. apply In_app_add_text_record in H. simpl in H. tauto.
Qed.

(** The resize step of the worker never raises when the area limit is
    not negative: the quotient is only taken for an area above it. *)
Lemma persist_image_returns w :
  0 <= ImageProcessWorker.max_area w ->
  exists p, ImageProcessWorker.persist_image w = Py.Ok p.
Proof.
  intros Hmax. unfold ImageProcessWorker.persist_image.
  destruct (ImageProcessWorker.save_original w); simpl; [eauto |].
  set (area := Qt.width (ImageProcessWorker.image w)
               * Qt.height (ImageProcessWorker.image w)).
  destruct (area >? ImageProcessWorker.max_area w) eqn:Hgt; [| eauto].
  apply Z.gtb_lt in Hgt.
  unfold ImageProcessWorker.scale_dim.
  replace (area =? 0) with false by (symmetry; apply Z.eqb_neq; lia).
  replace (ImageProcessWorker.max_area w * area <? 0) with false
    by (symmetry; apply Z.ltb_ge; nia).
  cbn [Py.bind]. eauto.
Qed.

(** With a healthy store the worker of the application inserts exactly
    one row, an image row. *)
Lemma image_worker_inserts_one_image_row w d now :
  0 <= ImageProcessWorker.max_area w ->
  failing d = false ->
  exists r, rows (fst (ImageProcessWorker.run w d now)) = rows d ++ [r]
            /\ records.type r = "image"%string.
Proof.
  intros Hmax Hd. unfold ImageProcessWorker.run, ImageProcessWorker.body.
  destruct (persist_image_returns w Hmax) as [p ->]. simpl.
  rewrite (cursor_ok d Hd). simpl. eexists. split; reflexivity.
Qed.

End Classifier.

(** C2: a clipboard that offers a non-null image is captured as an image
    and as nothing else.  The handler leaves the table alone and, when the
    Dedup Guard accepts, queues exactly one image worker, which inserts
    exactly one image row; when the guard rejects, the state is unchanged.
    Whatever the lower tiers offer is never looked at: the outcome is the
    same for every clipboard with that image.  Likewise a selected file
    tier does not depend on the HTML or the text, and a selected HTML tier
    does not depend on the text, accepted or rejected. *)
Theorem C2_first_matching_tier_only {W : Qt.ImageWriter}
    (a : ClipKeepApp.t) (now : Z) (clip : Qt.QClipboard) :
  ClipKeepApp.is_internal_copy a = false ->
  Qt.hasImage clip = true ->
  Qt.isNull (Qt.image clip) = false ->
  let h := hashlib.md5 (Qt.save (Qt.image clip) "PNG" (-1)) in
  let w := {| ImageProcessWorker.image := Qt.image clip;
              ImageProcessWorker.max_area := MAX_IMAGE_AREA_PIXELS;
              ImageProcessWorker.save_original :=
                ClipKeepApp.save_original_image (ClipKeepApp.settings a) |} in
  (exists a',
      ClipKeepApp.on_clipboard_change a now clip = Py.Ok a'
      /\ ClipKeepApp.db a' = ClipKeepApp.db a
      /\ (if ClipKeepApp.is_new a h
          then ClipKeepApp.threadpool a'
               = ClipKeepApp.threadpool a ++ [ClipKeepApp.ImageProcessWorker_ w]
          else a' = a))
  /\ (forall d now',
         sqlite3.failing d = false ->
         exists r, sqlite3.rows (fst (ImageProcessWorker.run w d now'))
                   = sqlite3.rows d ++ [r]
                   /\ records.type r = "image"%string)
  /\ (forall clip',
         Qt.hasImage clip' = true -> Qt.image clip' = Qt.image clip ->
         ClipKeepApp.on_clipboard_change a now clip'
         = ClipKeepApp.on_clipboard_change a now clip)
  /\ (forall b c c',
         ClipKeepApp.enable_file_paths (ClipKeepApp.settings b) = true ->
         Qt.hasUrls c = true ->
         ClipKeepApp.local_files (Qt.urls c) <> [] ->
         Qt.hasUrls c' = true -> Qt.urls c' = Qt.urls c ->
         ClipKeepApp.tier_files b now c' = ClipKeepApp.tier_files b now c)
  /\ (forall b c c',
         ClipKeepApp.enable_rich_text (ClipKeepApp.settings b) = true ->
         Qt.hasHtml c = true ->
         20 < Z.of_nat (length (Qt.html c)) ->
         Qt.hasHtml c' = true -> Qt.html c' = Qt.html c ->
         ClipKeepApp.tier_html b now c' = ClipKeepApp.tier_html b now c).
Proof.
  intros Hflag Himg Hnull h w.
  repeat apply conj.
  - unfold ClipKeepApp.on_clipboard_change, ClipKeepApp.tier_image.
    rewrite Hflag, Himg, Hnull. simpl. fold h.
    destruct (ClipKeepApp.is_new a h); eexists; (split; [reflexivity |]);
      split; reflexivity.
  - intros d now' Hd.
    apply image_worker_inserts_one_image_row; [discriminate | exact Hd].
  - intros clip' Himg' Heq.
    unfold ClipKeepApp.on_clipboard_change, ClipKeepApp.tier_image.
    rewrite Hflag, Himg, Himg', Heq, Hnull. reflexivity.
  - intros b c c' Hen Hu Hl Hu' Heq. unfold ClipKeepApp.tier_files.
    rewrite Hen, Hu, Hu', Heq. simpl.
    destruct (ClipKeepApp.local_files (Qt.urls c)); [congruence | reflexivity].
  - intros b c c' Hen Hh Hlen Hh' Heq. unfold ClipKeepApp.tier_html.
    rewrite Hen, Hh, Hh', Heq. simpl.
    apply Z.ltb_lt in Hlen. rewrite Hlen. reflexivity.
Qed.

Lemma C2_first_matching_tier_only_witness :
  let clip := Sample.image_and_text_clip Sample.opaque_image (Py.lit "caption") in
  (ClipKeepApp.is_internal_copy ClipKeepApp.init = false
   /\ Qt.hasImage clip = true /\ Qt.isNull (Qt.image clip) = false)
  /\ exists a',
       ClipKeepApp.on_clipboard_change (W := Sample.writer) ClipKeepApp.init 1 clip
       = Py.Ok a'
       /\ ClipKeepApp.db a' = ClipKeepApp.db ClipKeepApp.init.
Proof.
  intros clip. split; [repeat split |].
  destruct (C2_first_matching_tier_only (W := Sample.writer) ClipKeepApp.init 1
              clip eq_refl eq_refl eq_refl) as [[a' [H1 [H2 _]]] _].
  exists a'. split; [exact H1 | exact H2].
Defined.

(** C3, as the code has it: with [enable_file_paths] off, a clipboard that
    offers a URL list and nothing else skips the file tier and falls
    through to the text tier.  Qt reports text for such a clipboard, the
    URL list written out, so the handler does what it does for that text:
    a blank text changes nothing, and any other is stored, stripped, as a
    plain record when the Dedup Guard accepts it.  No row of format
    ["file"] is added, the rows added hold that text, and no image worker
    is started. *)
Theorem C3_disabled_file_tier_falls_through_to_text {W : Qt.ImageWriter}
    (a : ClipKeepApp.t) (now : Z) (m : Qt.QMimeData) (us : list Qt.QUrl) :
  ClipKeepApp.is_internal_copy a = false ->
  ClipKeepApp.enable_file_paths (ClipKeepApp.settings a) = false ->
  Qt.imageData m = None ->
  Qt.textHtml m = None ->
  Qt.textPlain m = None ->
  Qt.uriList m = Some us ->
  let clip := Qt.clipboard m in
  let text := Py.strip (Qt.url_list_text us) in
  (text = [] -> ClipKeepApp.on_clipboard_change a now clip = Py.Ok a)
  /\ (forall data,
         text <> [] ->
         Py.encode text = Py.Ok data ->
         ClipKeepApp.on_clipboard_change a now clip
         = Py.Ok (if ClipKeepApp.is_new a (hashlib.md5 data)
                  then ClipKeepApp.add_text_record
                         (ClipKeepApp.set_last_clipboard_hash
                            (hashlib.md5 data) a)
                         now text "plain"
                  else a))
  /\ (forall a' x,
         ClipKeepApp.on_clipboard_change a now clip = Py.Ok a' ->
         In x (sqlite3.rows (ClipKeepApp.db a')) ->
         In x (sqlite3.rows (ClipKeepApp.db a))
         \/ (records.format x = Some "plain"%string
             /\ records.content x = Some text))
  /\ (forall a',
         ClipKeepApp.on_clipboard_change a now clip = Py.Ok a' ->
         filter ClipKeepApp.is_image_worker (ClipKeepApp.threadpool a')
         = filter ClipKeepApp.is_image_worker (ClipKeepApp.threadpool a)).
Proof.
  intros Hint Hen Hi Hh Hp Hu clip text.
  assert (Hstep : ClipKeepApp.on_clipboard_change a now clip
                  = ClipKeepApp.tier_text a now clip).
  { unfold ClipKeepApp.on_clipboard_change, ClipKeepApp.tier_image,
      ClipKeepApp.tier_files, ClipKeepApp.tier_html, clip, Qt.clipboard.
    cbn [Qt.hasImage Qt.hasHtml Qt.hasUrls].
    rewrite Hint, Hen, Hi, Hh, andb_false_r. reflexivity. }
  assert (Htext : ClipKeepApp.tier_text a now clip
                  = match text with
                    | [] => Py.Ok a
                    | _ :: _ =>
                        data <- Py.encode text ;;
                        if ClipKeepApp.is_new a (hashlib.md5 data)
                        then Py.Ok (ClipKeepApp.add_text_record
                                      (ClipKeepApp.set_last_clipboard_hash
                                         (hashlib.md5 data) a)
                                      now text "plain")
                        else Py.Ok a
                    end).
  { unfold ClipKeepApp.tier_text, clip, Qt.clipboard.
    cbn [Qt.hasText Qt.text]. rewrite Hp, Hu. reflexivity. }
  rewrite Hstep, Htext. clear Hstep Htext.
  repeat apply conj.
  - intros ->. reflexivity.
  - intros data Hne Henc. destruct text as [| c s]; [congruence |].
    rewrite Henc. cbn [Py.bind].
    destruct (ClipKeepApp.is_new a (hashlib.md5 data)); reflexivity.
  - intros a' x. destruct text as [| c s]; [intros [= <-]; auto |].
    destruct (Py.encode (c :: s)) as [data | e]; cbn [Py.bind];
      [| discriminate].
    destruct (ClipKeepApp.is_new a (hashlib.md5 data)); intros [= <-];
      [| auto].
    intros H. apply In_app_add_text_record in H.
    destruct H as [H | [_ [Hc [Hf _]]]]; [left; exact H | right].
    split; [exact Hf | exact Hc].
  - intros a'. destruct text as [| c s]; [intros [= <-]; reflexivity |].
    destruct (Py.encode (c :: s)) as [data | e]; cbn [Py.bind];
      [| discriminate].
    destruct (ClipKeepApp.is_new a (hashlib.md5 data)); intros [= <-];
      [| reflexivity].
    rewrite image_workers_add_text_record. reflexivity.
Qed.

Lemma C3_disabled_file_tier_witness :
  let a := Sample.without_file_paths
             (Sample.app (Sample.store [Sample.text_row 1 5 "kept"] 1) 100) in
  let us := [Sample.local_url "/tmp/a.txt"; Sample.local_url "/tmp/b.txt"] in
  let m := Sample.urls_mime us in
  (ClipKeepApp.is_internal_copy a = false
   /\ ClipKeepApp.enable_file_paths (ClipKeepApp.settings a) = false
   /\ Qt.imageData m = None /\ Qt.textHtml m = None /\ Qt.textPlain m = None
   /\ Qt.uriList m = Some us)
  /\ (forall a',
         ClipKeepApp.on_clipboard_change (W := Sample.writer) a 7
           (Qt.clipboard m) = Py.Ok a' ->
         filter ClipKeepApp.is_image_worker (ClipKeepApp.threadpool a')
         = filter ClipKeepApp.is_image_worker (ClipKeepApp.threadpool a)).
Proof.
  intros a us m. split; [repeat split |].
  exact (proj2 (proj2 (proj2
           (C3_disabled_file_tier_falls_through_to_text (W := Sample.writer)
              a 7 m us eq_refl eq_refl eq_refl eq_refl eq_refl eq_refl)))).
Defined.

(** C3, as stated, fails: with [enable_file_paths] off, an empty history
    and one local file URL on the clipboard, which offers nothing else,
    a record is produced.  The text tier stores the URL as a plain
    record. *)
Lemma C3_file_url_is_stored_as_plain_text :
  let a := Sample.without_file_paths (Sample.app sqlite3.empty 100) in
  let clip := Sample.urls_clip [Sample.local_url "/tmp/a.txt"] in
  ClipKeepApp.enable_file_paths (ClipKeepApp.settings a) = false
  /\ map Qt.isLocalFile (Qt.urls clip) = [true]
  /\ sqlite3.rows (ClipKeepApp.db a) = []
  /\ exists a',
       ClipKeepApp.on_clipboard_change (W := Sample.writer) a 7 clip = Py.Ok a'
       /\ map (fun r => (records.type r, records.format r, records.content r))
              (sqlite3.rows (ClipKeepApp.db a'))
          = [("text"%string, Some "plain"%string,
              Some (Py.lit "file:///tmp/a.txt"))].
Proof.
  intros a clip. repeat split.
  eexists. split; [vm_compute; reflexivity |]. vm_compute. reflexivity.
Qed.

(** C7: an image with a width or height of 0 is not ingested.  The handler
    treats the clipboard as if it offered no image: it goes on to the
    file, HTML and text tiers, which start no image worker and add only
    text rows.  In the worker the quotient [max_area / area] is taken only
    for an area above [max_area], so with the area limit of the
    application the resize step returns and never divides by zero. *)
Theorem C7_empty_image_is_not_ingested {W : Qt.ImageWriter}
    (a : ClipKeepApp.t) (now : Z) (clip : Qt.QClipboard) :
  Qt.width (Qt.image clip) = 0 \/ Qt.height (Qt.image clip) = 0 ->
  ClipKeepApp.on_clipboard_change a now clip
  = (if ClipKeepApp.is_internal_copy a
     then Py.Ok (ClipKeepApp.set_is_internal_copy false a)
     else ClipKeepApp.tier_files a now clip)
  /\ (forall a',
         ClipKeepApp.on_clipboard_change a now clip = Py.Ok a' ->
         filter ClipKeepApp.is_image_worker (ClipKeepApp.threadpool a')
         = filter ClipKeepApp.is_image_worker (ClipKeepApp.threadpool a)
         /\ forall x, In x (sqlite3.rows (ClipKeepApp.db a')) ->
                      In x (sqlite3.rows (ClipKeepApp.db a))
                      \/ records.type x = "text"%string)
  /\ (forall img save_original,
         exists p,
           ImageProcessWorker.persist_image
             {| ImageProcessWorker.image := img;
                ImageProcessWorker.max_area := MAX_IMAGE_AREA_PIXELS;
                ImageProcessWorker.save_original := save_original |}
           = Py.Ok p).
Proof.
  intros Hdim.
  assert (Hnull : Qt.isNull (Qt.image clip) = true).
  { unfold Qt.isNull. destruct Hdim as [-> | ->]; simpl;
      [reflexivity | apply orb_true_r]. }
  assert (Heq : ClipKeepApp.on_clipboard_change a now clip
                = (if ClipKeepApp.is_internal_copy a
                   then Py.Ok (ClipKeepApp.set_is_internal_copy false a)
                   else ClipKeepApp.tier_files a now clip)).
  { unfold ClipKeepApp.on_clipboard_change, ClipKeepApp.tier_image.
    rewrite Hnull. simpl. destruct (Qt.hasImage clip); reflexivity. }
  split; [exact Heq | split].
  - intros a'. rewrite Heq.
    destruct (ClipKeepApp.is_internal_copy a).
    + intros [= <-]. simpl. auto.
    + apply tier_files_no_image.
  - intros img so. apply persist_image_returns. discriminate.
Qed.

Lemma C7_empty_image_witness :
  let clip := Sample.image_and_text_clip Sample.empty_image (Py.lit "x") in
  (Qt.width (Qt.image clip) = 0 \/ Qt.height (Qt.image clip) = 0)
  /\ ClipKeepApp.on_clipboard_change (W := Sample.writer) ClipKeepApp.init 3 clip
     = (if ClipKeepApp.is_internal_copy ClipKeepApp.init
        then Py.Ok (ClipKeepApp.set_is_internal_copy false ClipKeepApp.init)
        else ClipKeepApp.tier_files ClipKeepApp.init 3 clip).
Proof.
  intros clip. split; [left; reflexivity |].
  exact (proj1 (C7_empty_image_is_not_ingested (W := Sample.writer)
                  ClipKeepApp.init 3 clip (or_introl eq_refl))).
Defined.

(** ** [str.strip] *)

Section Strip.
Import Py.

Lemma lstrip_whitespace_app pre x :
  whitespace pre -> lstrip (pre ++ x) = lstrip x.
Proof.
  induction 1 as [| c pre Hc _ IH]; simpl; [reflexivity |].
  rewrite Hc. exact IH.
Qed.

Lemma lstrip_whitespace s : whitespace s -> lstrip s = [].
Proof.
  intros H. rewrite <- (app_nil_r s). rewrite lstrip_whitespace_app; auto.
Qed.

Lemma whitespace_rev s : whitespace s -> whitespace (rev s).
Proof. unfold whitespace. apply Forall_rev. Qed.

Lemma rstrip_app_whitespace x post :
  whitespace post -> rstrip (x ++ post) = rstrip x.
Proof.
  intros H. unfold rstrip. rewrite rev_app_distr.
  rewrite lstrip_whitespace_app; [reflexivity | apply whitespace_rev, H].
Qed.

Lemma strip_lstrip_app_whitespace t post :
  whitespace post -> rstrip (lstrip (t ++ post)) = rstrip (lstrip t).
Proof.
  intros H. induction t as [| c t IH]; simpl.
  - rewrite (lstrip_whitespace post H). reflexivity.
  - destruct (isspace c); [exact IH |].
    apply (rstrip_app_whitespace (c :: t) post H).
Qed.

(** Whitespace around a text does not change what [strip] returns. *)
Lemma strip_outer_whitespace pre core post :
  whitespace pre -> whitespace post ->
  strip (pre ++ core ++ post) = strip core.
Proof.
  intros Hpre Hpost. unfold strip.
  rewrite lstrip_whitespace_app by exact Hpre.
  apply strip_lstrip_app_whitespace, Hpost.
Qed.

Lemma lstrip_head s c r : lstrip s = c :: r -> isspace c = false.
Proof.
  induction s as [| x s IH]; simpl; [discriminate |].
  destruct (isspace x) eqn:Hx; [exact IH |].
  intros [= <- _]. exact Hx.
Qed.

Lemma lstrip_suffix s : exists ws, s = ws ++ lstrip s.
Proof.
  induction s as [| x s [ws IH]]; simpl; [exists []; reflexivity |].
  destruct (isspace x).
  - exists (x :: ws). simpl. f_equal. exact IH.
  - exists []. reflexivity.
Qed.

Lemma rstrip_prefix s : exists ws, s = rstrip s ++ ws.
Proof.
  unfold rstrip. destruct (lstrip_suffix (rev s)) as [ws H].
  exists (rev ws). rewrite <- rev_app_distr, <- H. symmetry. apply rev_involutive.
Qed.

Lemma rstrip_last s r c : rstrip s = r ++ [c] -> isspace c = false.
Proof.
  unfold rstrip. intros H.
  apply (f_equal (@rev Z)) in H. rewrite rev_involutive, rev_app_distr in H.
  simpl in H. exact (lstrip_head _ _ _ H).
Qed.

Lemma strip_no_outer_whitespace s : no_outer_whitespace (strip s).
Proof.
  unfold no_outer_whitespace, strip. split.
  - intros c r H. destruct (rstrip_prefix (lstrip s)) as [ws Hws].
    rewrite H in Hws. simpl in Hws. exact (lstrip_head _ _ _ Hws).
  - intros r c H. exact (rstrip_last _ _ _ H).
Qed.

End Strip.

(** ** Plain text and the Dedup Guard *)

Section PlainText.
Import sqlite3 ClipKeepApp.
Context {W : Qt.ImageWriter}.

(** A capture that the store already holds is dropped, whatever the
    last captured hash is. *)
Lemma tier_text_store_hit a now clip c s data :
  Qt.hasText clip = true ->
  Py.strip (Qt.text clip) = c :: s ->
  Py.encode (c :: s) = Py.Ok data ->
  ClipboardDatabase.check_duplicate_hash (db a) (hashlib.md5 data) = true ->
  tier_text a now clip = Py.Ok a.
Proof.
  intros Ht Hs He Hdup. unfold tier_text, is_new.
  rewrite Ht, Hs, He. simpl. rewrite Hdup, andb_false_r. reflexivity.
Qed.

(** The rows of format plain that the handler adds hold the stripped
    clipboard text and the hash of its UTF-8 bytes. *)
Lemma plain_rows_are_stripped a now clip a' x :
  on_clipboard_change a now clip = Py.Ok a' ->
  In x (rows (db a')) ->
  ~ In x (rows (db a)) ->
  records.format x = Some "plain"%string ->
  records.content x = Some (Py.strip (Qt.text clip))
  /\ exists data, Py.encode (Py.strip (Qt.text clip)) = Py.Ok data
                  /\ records.content_hash x = Some (hashlib.md5 data).
Proof.
  unfold on_clipboard_change, tier_image, tier_files, tier_html, tier_text.
  intros Hrun Hin Hold Hfmt.
  repeat match type of Hrun with
         | (if ?b then _ else _) = _ => destruct b
         | (match ?l with [] => _ | _ :: _ => _ end) = _ =>
             let E := fresh "E" in destruct l eqn:E
         | Py.bind ?m _ = _ =>
             let E := fresh "E" in destruct m eqn:E; simpl in Hrun
         end;
    try discriminate Hrun;
    injection Hrun as <-;
    try (exfalso; apply Hold; exact Hin);
    apply In_app_add_text_record in Hin;
    cbn [db set_last_clipboard_hash] in Hin;
    destruct Hin as [Hin | (_ & Hc & Hf & data & He & Hh)];
    try (exfalso; apply Hold; exact Hin);
    try (rewrite Hfmt in Hf; discriminate Hf).
  all: split; [exact Hc | exists data; split; [congruence | exact Hh]].
Qed.

(** A text-only clipboard seen twice in a row, up to outer whitespace:
    the second time nothing changes. *)
Lemma same_stripped_text_twice a now now2 clip clip2 a1 :
  is_internal_copy a = false ->
  Qt.hasImage clip = false -> Qt.hasUrls clip = false -> Qt.hasHtml clip = false ->
  Qt.hasImage clip2 = false -> Qt.hasUrls clip2 = false -> Qt.hasHtml clip2 = false ->
  Qt.hasText clip2 = Qt.hasText clip ->
  Py.strip (Qt.text clip2) = Py.strip (Qt.text clip) ->
  on_clipboard_change a now clip = Py.Ok a1 ->
  on_clipboard_change a1 now2 clip2 = Py.Ok a1.
Proof.
  intros Hflag Hi Hu Hh Hi2 Hu2 Hh2 Ht2 Hs.
  unfold on_clipboard_change, tier_image, tier_files, tier_html, tier_text.
  rewrite Hflag, Hi, Hu, Hh, Hi2, Hu2, Hh2, Ht2, Hs, !andb_false_r.
  destruct (Qt.hasText clip).
  2:{ intros [= <-]. rewrite Hflag. reflexivity. }
  destruct (Py.strip (Qt.text clip)) as [| c s].
  { intros [= <-]. rewrite Hflag. reflexivity. }
  destruct (Py.encode (c :: s)) as [data | e]; simpl; [| discriminate].
  destruct (is_new a (hashlib.md5 data)) eqn:Hnew; intros [= <-].
  - simpl. rewrite Hflag. unfold is_new. simpl.
    rewrite String.eqb_refl. reflexivity.
  - rewrite Hflag, Hnew. reflexivity.
Qed.

End PlainText.

(** C10: the plain-text tier stores and hashes the stripped text.  Every
    row of format plain that a clipboard change adds holds
    [clipboard.text().strip()], which neither starts nor ends with
    whitespace, with the MD5 of its UTF-8 bytes as content hash.  Two
    clipboard texts with the same core between outer whitespace strip to
    the same string, so they hash equal, and when they arrive one after
    the other the second changes nothing. *)
Theorem C10_plain_text_is_stripped {W : Qt.ImageWriter}
    (a : ClipKeepApp.t) (now : Z) (clip : Qt.QClipboard) :
  (forall a' x,
      ClipKeepApp.on_clipboard_change a now clip = Py.Ok a' ->
      In x (sqlite3.rows (ClipKeepApp.db a')) ->
      ~ In x (sqlite3.rows (ClipKeepApp.db a)) ->
      records.format x = Some "plain"%string ->
      records.content x = Some (Py.strip (Qt.text clip))
      /\ Py.no_outer_whitespace (Py.strip (Qt.text clip))
      /\ exists data, Py.encode (Py.strip (Qt.text clip)) = Py.Ok data
                      /\ records.content_hash x = Some (hashlib.md5 data))
  /\ (forall pre post pre2 post2 core clip2 a1 now2,
         Py.whitespace pre -> Py.whitespace post ->
         Py.whitespace pre2 -> Py.whitespace post2 ->
         ClipKeepApp.is_internal_copy a = false ->
         Qt.hasImage clip = false -> Qt.hasUrls clip = false ->
         Qt.hasHtml clip = false -> Qt.hasText clip = true ->
         Qt.hasImage clip2 = false -> Qt.hasUrls clip2 = false ->
         Qt.hasHtml clip2 = false -> Qt.hasText clip2 = true ->
         Qt.text clip = pre ++ core ++ post ->
         Qt.text clip2 = pre2 ++ core ++ post2 ->
         ClipKeepApp.on_clipboard_change a now clip = Py.Ok a1 ->
         Py.strip (Qt.text clip2) = Py.strip (Qt.text clip)
         /\ ClipKeepApp.on_clipboard_change a1 now2 clip2 = Py.Ok a1).
Proof.
  split.
  - intros a' x Hrun Hin Hold Hfmt.
    destruct (plain_rows_are_stripped a now clip a' x Hrun Hin Hold Hfmt)
      as [Hc Hh].
    split; [exact Hc | split; [apply strip_no_outer_whitespace | exact Hh]].
  - intros pre post pre2 post2 core clip2 a1 now2 Hpre Hpost Hpre2 Hpost2
      Hflag Hi Hu Hh Ht Hi2 Hu2 Hh2 Ht2 Htext Htext2 Hrun.
    assert (Hs : Py.strip (Qt.text clip2) = Py.strip (Qt.text clip)).
    { rewrite Htext, Htext2, !strip_outer_whitespace by assumption.
      reflexivity. }
    split; [exact Hs |].
    apply (same_stripped_text_twice a now now2 clip clip2 a1); try assumption.
    congruence.
Qed.

Lemma C10_plain_text_is_stripped_witness :
  let clip := Sample.text_clip (Py.lit " A") in
  let clip2 := Sample.text_clip (Py.lit "A" ++ [10]) in
  exists a1,
    ClipKeepApp.on_clipboard_change (W := Sample.writer) ClipKeepApp.init 1 clip
    = Py.Ok a1
    /\ Py.strip (Qt.text clip2) = Py.strip (Qt.text clip)
    /\ ClipKeepApp.on_clipboard_change (W := Sample.writer) a1 2 clip2 = Py.Ok a1.
Proof.
  intros clip clip2. eexists. split; [vm_compute; reflexivity |].
  apply (proj2 (C10_plain_text_is_stripped (W := Sample.writer)
                  ClipKeepApp.init 1 clip)
           [32] [] [] [10] [65] clip2 _ 2);
    try reflexivity; try (repeat constructor).
Defined.

(** ** Trimming the history *)

Section Trim.
Import sqlite3.

Lemma In_insert_desc r l x : In x (insert_desc r l) <-> x = r \/ In x l.
Proof.
  induction l as [| y l IH]; simpl; [intuition auto |].
  destruct (records.timestamp y <=? records.timestamp r); simpl;
    rewrite ?IH; intuition auto.
Qed.

Lemma insert_desc_perm r l : Permutation (insert_desc r l) (r :: l).
Proof.
  induction l as [| y l IH]; simpl; [apply Permutation_refl |].
  destruct (records.timestamp y <=? records.timestamp r);
    [apply Permutation_refl |].
  eapply Permutation_trans; [apply perm_skip, IH | apply perm_swap].
Qed.

Lemma order_by_timestamp_desc_perm l :
  Permutation (order_by_timestamp_desc l) l.
Proof.
  induction l as [| r l IH]; simpl; [apply Permutation_refl |].
  eapply Permutation_trans; [apply insert_desc_perm | apply perm_skip, IH].
Qed.

Lemma walked_before_trans x y z :
  walked_before x y -> walked_before y z -> walked_before x z.
Proof. unfold walked_before. lia. Qed.

Lemma insert_desc_sorted r s :
  StronglySorted walked_before s ->
  Forall (fun y => records.id r < records.id y) s ->
  StronglySorted walked_before (insert_desc r s).
Proof.
  induction 1 as [| y s Hs IH Hy]; intros Hr; simpl.
  - constructor; constructor.
  - apply Forall_cons_iff in Hr. destruct Hr as [Hry Hrs].
    destruct (records.timestamp y <=? records.timestamp r) eqn:Hle.
    + apply Z.leb_le in Hle.
      assert (Hb : walked_before r y) by (unfold walked_before; lia).
      constructor; [constructor; assumption |].
      constructor; [exact Hb |].
      rewrite Forall_forall in Hy |- *. intros z Hz.
      apply (walked_before_trans r y z Hb), Hy, Hz.
    + apply Z.leb_gt in Hle.
      constructor; [apply IH, Hrs |].
      rewrite Forall_forall in Hy |- *. intros z Hz.
      apply In_insert_desc in Hz. destruct Hz as [-> | Hz];
        [unfold walked_before; lia | apply Hy, Hz].
Qed.

(** The query walks a table in rowid order newest first, equal
    timestamps by ascending id. *)
Lemma order_by_timestamp_desc_sorted l :
  ascending_ids l -> StronglySorted walked_before (order_by_timestamp_desc l).
Proof.
  induction 1 as [| r l Hl IH Hr]; simpl; [constructor |].
  apply insert_desc_sorted; [exact IH |].
  rewrite Forall_forall in Hr |- *. intros y Hy. apply Hr.
  eapply Permutation_in; [apply order_by_timestamp_desc_perm | exact Hy].
Qed.

Lemma ascending_ids_NoDup l : ascending_ids l -> NoDup l.
Proof.
  induction 1 as [| r l Hl IH Hr]; constructor; [| exact IH].
  intros Hin. rewrite Forall_forall in Hr. specialize (Hr r Hin). lia.
Qed.

Lemma ascending_ids_inj l x y :
  ascending_ids l -> In x l -> In y l -> records.id x = records.id y -> x = y.
Proof.
  induction 1 as [| r l Hl IH Hr]; simpl; [tauto |].
  rewrite Forall_forall in Hr.
  intros [<- | Hx] [<- | Hy] Hid; auto.
  - specialize (Hr y Hy). lia.
  - specialize (Hr x Hx). lia.
Qed.

Lemma sorted_app_before (l1 l2 : list records.row) x y :
  StronglySorted walked_before (l1 ++ l2) ->
  In x l1 -> In y l2 -> walked_before x y.
Proof.
  induction l1 as [| z l1 IH]; simpl; [tauto |].
  intros Hs [<- | Hx] Hy.
  - apply StronglySorted_inv in Hs. destruct Hs as [_ Hz].
    rewrite Forall_forall in Hz. apply Hz, in_or_app. right. exact Hy.
  - apply StronglySorted_inv in Hs. apply IH; tauto.
Qed.

Lemma In_limit (n : Z) (l : list records.row) x : In x (limit n l) -> In x l.
Proof.
  unfold limit. destruct (n <? 0); [auto |].
  intros H. rewrite <- (firstn_skipn (Z.to_nat n) l).
  apply in_or_app. left. exact H.
Qed.

Lemma mem_In x l : mem x l = true <-> In x l.
Proof.
  unfold mem. rewrite existsb_exists. split.
  - intros [y [Hy Heq]]. apply Z.eqb_eq in Heq. subst. exact Hy.
  - intros H. exists x. split; [exact H | apply Z.eqb_refl].
Qed.

(** A row of the table survives the DELETE exactly when it is among the
    first [max_count] rows the query walks. *)
Lemma In_delete_not_in_top db max_count r :
  ascending_ids (rows db) ->
  In r (rows (delete_not_in_top db max_count)) <->
  In r (limit max_count (order_by_timestamp_desc (rows db))).
Proof.
  intros Hasc. unfold delete_not_in_top, select_top_ids. simpl.
  rewrite filter_In, mem_In, in_map_iff.
  assert (Hincl : forall x,
             In x (limit max_count (order_by_timestamp_desc (rows db))) ->
             In x (rows db)).
  { intros x Hx. eapply Permutation_in; [apply order_by_timestamp_desc_perm |].
    eapply In_limit, Hx. }
  split.
  - intros [Hr [x [Hid Hx]]].
    rewrite <- (ascending_ids_inj (rows db) x r Hasc (Hincl x Hx) Hr Hid).
    exact Hx.
  - intros Hr. split; [apply Hincl, Hr | exists r; auto].
Qed.

(** A trim that has room for every row deletes nothing. *)
Lemma delete_not_in_top_room db max_count :
  Z.of_nat (length (rows db)) <= max_count ->
  rows (delete_not_in_top db max_count) = rows db.
Proof.
  intros Hlen. unfold delete_not_in_top, select_top_ids, limit. simpl.
  replace (max_count <? 0) with false by (symmetry; apply Z.ltb_ge; lia).
  rewrite firstn_all2.
  2:{ rewrite (Permutation_length (order_by_timestamp_desc_perm (rows db))). lia. }
  apply forallb_filter_id. apply forallb_forall. intros r Hr.
  apply mem_In, in_map.
  eapply Permutation_in; [apply Permutation_sym, order_by_timestamp_desc_perm |].
  exact Hr.
Qed.

End Trim.

(** C5, as the code has it: on a healthy store with more than
    [max_count] rows, [trim_to_limit] keeps exactly [max_count] of them, and
    no deleted row is newer than a kept one, so the kept rows are
    [max_count] rows with the largest timestamps.  The query orders by
    timestamp alone: between a kept and a deleted row of equal timestamp it
    is the row with the smaller id that is kept. *)
Theorem C5_trim_keeps_the_most_recent (db : sqlite3.database) (max_count : Z) :
  sqlite3.failing db = false ->
  sqlite3.ascending_ids (sqlite3.rows db) ->
  0 <= max_count < Z.of_nat (length (sqlite3.rows db)) ->
  let kept := sqlite3.rows (ClipboardDatabase.trim_to_limit db max_count) in
  Z.of_nat (length kept) = max_count
  /\ incl kept (sqlite3.rows db)
  /\ forall k d,
       In k kept -> In d (sqlite3.rows db) -> ~ In d kept ->
       records.timestamp d <= records.timestamp k
       /\ (records.timestamp d = records.timestamp k ->
           records.id k < records.id d).
Proof.
  intros Hf Hasc Hmax kept.
  assert (Hkept : kept = sqlite3.rows (sqlite3.delete_not_in_top db max_count)).
  { unfold kept, ClipboardDatabase.trim_to_limit.
    rewrite (cursor_ok db Hf). reflexivity. }
  set (sorted := sqlite3.order_by_timestamp_desc (sqlite3.rows db)).
  set (n := Z.to_nat max_count).
  assert (Hperm : Permutation sorted (sqlite3.rows db))
    by apply order_by_timestamp_desc_perm.
  assert (Hlim : sqlite3.limit max_count sorted = firstn n sorted).
  { unfold sqlite3.limit.
    replace (max_count <? 0) with false by (symmetry; apply Z.ltb_ge; lia).
    reflexivity. }
  assert (Hin : forall r, In r kept <-> In r (firstn n sorted)).
  { intros r. rewrite Hkept, <- Hlim. apply In_delete_not_in_top, Hasc. }
  assert (Hnd : NoDup sorted).
  { eapply Permutation_NoDup; [apply Permutation_sym, Hperm |].
    apply ascending_ids_NoDup, Hasc. }
  assert (Hsplit : firstn n sorted ++ skipn n sorted = sorted)
    by apply firstn_skipn.
  repeat apply conj.
  - assert (Hp : Permutation kept (firstn n sorted)).
    { apply NoDup_Permutation; [| | exact Hin].
      - rewrite Hkept. apply NoDup_filter, ascending_ids_NoDup, Hasc.
      - rewrite <- Hsplit in Hnd. eapply NoDup_app_remove_r, Hnd. }
    rewrite (Permutation_length Hp), firstn_length_le.
    + unfold n. lia.
    + rewrite (Permutation_length Hperm). unfold n. lia.
  - intros r Hr. unfold kept in Hr. eapply In_trim, Hr.
  - intros k d Hk Hd Hnot.
    apply Hin in Hk.
    assert (Hd' : In d (skipn n sorted)).
    { apply (Permutation_in _ (Permutation_sym Hperm)) in Hd.
      rewrite <- Hsplit in Hd. apply in_app_or in Hd.
      destruct Hd as [Hd | Hd]; [| exact Hd].
      exfalso. apply Hnot, Hin, Hd. }
    assert (Hb : sqlite3.walked_before k d).
    { apply (sorted_app_before (firstn n sorted) (skipn n sorted));
        [| exact Hk | exact Hd'].
      rewrite Hsplit. apply order_by_timestamp_desc_sorted, Hasc. }
    unfold sqlite3.walked_before in Hb. lia.
Qed.

Lemma C5_trim_keeps_the_most_recent_witness :
  let db := Sample.store [Sample.text_row 1 5 "a"; Sample.text_row 2 9 "b";
                          Sample.text_row 3 7 "c"] 3 in
  (sqlite3.failing db = false /\ 0 <= 2 < Z.of_nat (length (sqlite3.rows db)))
  /\ Z.of_nat (length (sqlite3.rows (ClipboardDatabase.trim_to_limit db 2))) = 2.
Proof.
  intros db. split; [split; [reflexivity | split; [lia | reflexivity]] |].
  refine (proj1 (C5_trim_keeps_the_most_recent db 2 eq_refl _ _)).
  - unfold sqlite3.ascending_ids.
    repeat (constructor; [| repeat constructor; reflexivity]); constructor.
  - split; [lia | reflexivity].
Defined.

(** C5, as stated, fails: of two rows with the same timestamp the trim
    keeps the one with the smaller id, where the specification's order
    (ties by id descending) keeps the larger. *)
Lemma C5_equal_timestamps_keep_the_smaller_id :
  let db := Sample.store [Sample.text_row 1 5 "first";
                          Sample.text_row 2 5 "second"] 2 in
  map records.id (sqlite3.rows (ClipboardDatabase.trim_to_limit db 1)) = [1]
  /\ map records.id (sqlite3.spec_top (sqlite3.rows db) 1) = [2].
Proof. split; reflexivity. Qed.

(** ** Recapture of a text the store still holds *)

Section Recapture.
Import sqlite3 ClipKeepApp.

Lemma rows_add_text_record a now text fmt data :
  failing (db a) = false ->
  Py.encode text = Py.Ok data ->
  Z.of_nat (length (rows (db a))) < max_history a ->
  rows (db (add_text_record a now text fmt))
  = rows (db a) ++ [ClipboardDatabase.new_text_row (db a) now text fmt data].
Proof.
  intros Hf He Hlen.
  unfold add_text_record, ClipboardDatabase.add_text_record,
    ClipboardDatabase.trim_to_limit.
  rewrite He. simpl. rewrite (cursor_ok (db a) Hf). simpl.
  unfold cursor. simpl. rewrite Hf.
  cbn [Py.bind Py.try_except set_db db refresh_history_async start
       set_threadpool].
  rewrite delete_not_in_top_room; [reflexivity |].
  simpl. rewrite length_app. simpl. lia.
Qed.

Lemma failing_add_text_record a now text fmt :
  failing (db (add_text_record a now text fmt)) = failing (db a).
Proof.
  unfold add_text_record, ClipboardDatabase.add_text_record,
    ClipboardDatabase.trim_to_limit, cursor.
  destruct (Py.encode text); simpl; destruct (failing (db a)) eqn:Hf;
    simpl; rewrite ?Hf; simpl; auto.
Qed.

End Recapture.

(** C4: from the start state, with any clock readings, the clipboard
    shows "A", then "B", then "A" again.  After the second capture the
    table holds the two rows for "A" and "B", and the last captured hash is
    the hash of "B", not that of "A"; [check_duplicate_hash] finds the hash
    of "A" in the store, and the third change leaves the application as it
    was: no row is added. *)
Theorem C4_store_lookup_suppresses_recapture {W : Qt.ImageWriter} (t1 t2 t3 : Z) :
  exists a1 a2 rA rB hA hB,
    ClipKeepApp.on_clipboard_change ClipKeepApp.init t1
      (Sample.text_clip (Py.lit "A")) = Py.Ok a1
    /\ ClipKeepApp.on_clipboard_change a1 t2
         (Sample.text_clip (Py.lit "B")) = Py.Ok a2
    /\ Py.bind (Py.encode (Py.lit "A")) (fun d => Py.Ok (hashlib.md5 d)) = Py.Ok hA
    /\ Py.bind (Py.encode (Py.lit "B")) (fun d => Py.Ok (hashlib.md5 d)) = Py.Ok hB
    /\ sqlite3.rows (ClipKeepApp.db a2) = [rA; rB]
    /\ records.content rA = Some (Py.lit "A")
    /\ records.content_hash rA = Some hA
    /\ records.content rB = Some (Py.lit "B")
    /\ records.content_hash rB = Some hB
    /\ ClipKeepApp.last_clipboard_hash a2 = hB
    /\ hB <> hA
    /\ ClipboardDatabase.check_duplicate_hash (ClipKeepApp.db a2) hA = true
    /\ ClipKeepApp.on_clipboard_change a2 t3
         (Sample.text_clip (Py.lit "A")) = Py.Ok a2.
Proof.
  set (hA := "7fc56270e7a70fa81a5935b72eacbe29"%string).
  set (hB := "9d5ed678fe57bcca610140957afab571"%string).
  set (a1 := ClipKeepApp.add_text_record
               (ClipKeepApp.set_last_clipboard_hash hA ClipKeepApp.init)
               t1 (Py.lit "A") "plain").
  set (a2 := ClipKeepApp.add_text_record
               (ClipKeepApp.set_last_clipboard_hash hB a1)
               t2 (Py.lit "B") "plain").
  set (rA := ClipboardDatabase.new_text_row sqlite3.empty t1 (Py.lit "A")
               "plain" ["A"%byte]).
  set (rB := ClipboardDatabase.new_text_row (ClipKeepApp.db a1) t2 (Py.lit "B")
               "plain" ["B"%byte]).
  assert (HeA : Py.encode (Py.lit "A") = Py.Ok ["A"%byte]) by reflexivity.
  assert (HeB : Py.encode (Py.lit "B") = Py.Ok ["B"%byte]) by reflexivity.
  assert (HmA : hashlib.md5 ["A"%byte] = hA) by (vm_compute; reflexivity).
  assert (HmB : hashlib.md5 ["B"%byte] = hB) by (vm_compute; reflexivity).
  assert (Hrows1 : sqlite3.rows (ClipKeepApp.db a1) = [rA]).
  { unfold a1.
    rewrite (rows_add_text_record
               (ClipKeepApp.set_last_clipboard_hash hA ClipKeepApp.init)
               t1 _ _ _ eq_refl HeA); reflexivity. }
  assert (Hf1 : sqlite3.failing (ClipKeepApp.db a1) = false).
  { unfold a1. rewrite failing_add_text_record. reflexivity. }
  assert (Hrows2 : sqlite3.rows (ClipKeepApp.db a2) = [rA; rB]).
  { unfold a2.
    rewrite (rows_add_text_record (ClipKeepApp.set_last_clipboard_hash hB a1)
               t2 _ _ _ Hf1 HeB);
      cbn [ClipKeepApp.db ClipKeepApp.set_last_clipboard_hash];
      rewrite Hrows1; reflexivity. }
  assert (Hf2 : sqlite3.failing (ClipKeepApp.db a2) = false).
  { unfold a2. rewrite failing_add_text_record. exact Hf1. }
  assert (HhA : sqlite3.hash_is hA rA = true).
  { unfold sqlite3.hash_is, rA, ClipboardDatabase.new_text_row.
    cbn [records.content_hash]. rewrite HmA. reflexivity. }
  assert (Hdup : ClipboardDatabase.check_duplicate_hash (ClipKeepApp.db a2) hA
                 = true).
  { unfold ClipboardDatabase.check_duplicate_hash.
    rewrite (cursor_ok _ Hf2), Hrows2.
    cbn [Py.bind Py.try_except existsb]. rewrite HhA. reflexivity. }
  exists a1, a2, rA, rB, hA, hB.
  split; [vm_compute; reflexivity |].
  split.
  { unfold ClipKeepApp.on_clipboard_change, ClipKeepApp.tier_image,
      ClipKeepApp.tier_files, ClipKeepApp.tier_html, ClipKeepApp.tier_text.
    replace (ClipKeepApp.is_internal_copy a1) with false by reflexivity.
    cbn [Sample.text_clip Qt.hasImage Qt.hasUrls Qt.hasHtml Qt.hasText Qt.text
         andb].
    rewrite !andb_false_r.
    replace (Py.strip (Py.lit "B")) with (Py.lit "B") by reflexivity.
    change (Py.lit "B") with [66] at 1.
    change (Py.encode [66]) with (Py.encode (Py.lit "B")).
    rewrite HeB. cbn [Py.bind]. rewrite HmB.
    unfold ClipKeepApp.is_new, ClipboardDatabase.check_duplicate_hash.
    rewrite (cursor_ok _ Hf1), Hrows1.
    cbn [Py.bind Py.try_except existsb].
    unfold sqlite3.hash_is, rA, ClipboardDatabase.new_text_row.
    cbn [records.content_hash]. rewrite HmA.
    replace (ClipKeepApp.last_clipboard_hash a1) with hA by reflexivity.
    reflexivity. }
  split; [rewrite HeA; cbn [Py.bind]; rewrite HmA; reflexivity |].
  split; [rewrite HeB; cbn [Py.bind]; rewrite HmB; reflexivity |].
  split; [exact Hrows2 |].
  split; [reflexivity |].
  split; [unfold rA, ClipboardDatabase.new_text_row;
          cbn [records.content_hash]; rewrite HmA; reflexivity |].
  split; [reflexivity |].
  split; [unfold rB, ClipboardDatabase.new_text_row;
          cbn [records.content_hash]; rewrite HmB; reflexivity |].
  split; [reflexivity |].
  split; [discriminate |].
  split; [exact Hdup |].
  unfold ClipKeepApp.on_clipboard_change.
  replace (ClipKeepApp.is_internal_copy a2) with false by reflexivity.
  unfold ClipKeepApp.tier_image, ClipKeepApp.tier_files, ClipKeepApp.tier_html.
  cbn [Sample.text_clip Qt.hasImage Qt.hasUrls Qt.hasHtml andb].
  rewrite !andb_false_r.
  apply (tier_text_store_hit a2 t3 _ 65 [] ["A"%byte]);
    [reflexivity | reflexivity | exact HeA | rewrite HmA; exact Hdup].
Qed.

(** ** The debounced save of an edited text *)

Section Debounce.
Import sqlite3 ClipKeepApp.

Lemma last_cons {A : Type} (l : list A) (x d : A) :
  last (x :: l) d = last l x.
Proof.
  revert x d. induction l as [| y l IH]; intros x d; [reflexivity |].
  change (last (x :: y :: l) d) with (last (y :: l) d).
  rewrite (IH y d), (IH y x). reflexivity.
Qed.

Lemma fire_armed d i s a now :
  i <> 0 -> armed d i s a ->
  armed d i s (fire_save_timer a now) \/ saved d i s (fire_save_timer a now).
Proof.
  intros Hi ([deadline Ht] & Hid & Htx & Hdb). unfold fire_save_timer.
  rewrite Ht. destruct (deadline <=? now).
  - right. unfold _do_save_pending. simpl. rewrite Hid, Htx.
    replace (i =? 0) with false by (symmetry; apply Z.eqb_neq, Hi).
    unfold saved. simpl. rewrite Hdb. auto.
  - left. unfold armed. eauto.
Qed.

Lemma fire_saved d i s a now : saved d i s a -> fire_save_timer a now = a.
Proof. intros (Ht & _). unfold fire_save_timer. rewrite Ht. reflexivity. Qed.

Lemma handle_selection_change d i s a now ev :
  is_selection_change ev = true ->
  (armed d i s a -> armed d i s (handle a now ev))
  /\ (saved d i s a -> saved d i s (handle a now ev)).
Proof.
  destruct ev as [p h | [r |] |]; simpl; try discriminate; intros _;
    unfold armed, saved; simpl; auto.
Qed.

(** Selection changes neither cancel nor redirect a pending save. *)
Lemma selection_changes_keep_the_save d i s sels :
  i <> 0 ->
  Forall (fun e => is_selection_change (snd e) = true) sels ->
  forall a,
    armed d i s a \/ saved d i s a ->
    armed d i s (event_loop a sels) \/ saved d i s (event_loop a sels).
Proof.
  intros Hi. induction 1 as [| [now ev] sels Hev _ IH]; intros a Ha;
    [exact Ha |].
  unfold event_loop. simpl. apply IH. simpl in Hev.
  destruct (handle_selection_change d i s (fire_save_timer a now) now ev Hev)
    as [Harm Hsav].
  destruct Ha as [Ha | Ha].
  - destruct (fire_armed d i s a now Hi Ha); auto.
  - rewrite (fire_saved d i s a now Ha) in *. auto.
Qed.

Lemma idle_saves d i s a :
  i <> 0 -> armed d i s a \/ saved d i s a -> saved d i s (idle a).
Proof.
  intros Hi [Ha | Ha]; unfold idle.
  - pose proof Ha as ([deadline Ht] & Hid & Htx & Hdb). rewrite Ht.
    unfold fire_save_timer. rewrite Ht, Z.leb_refl.
    unfold _do_save_pending. simpl. rewrite Hid, Htx.
    replace (i =? 0) with false by (symmetry; apply Z.eqb_neq, Hi).
    unfold saved. simpl. rewrite Hdb. auto.
  - pose proof Ha as (Ht & _). rewrite Ht. exact Ha.
Qed.

(** While edits of record [r] keep coming within the debounce time, the
    timer never fires: the database is untouched and the buffer holds the
    text of the latest edit for the id of [r]. *)
Lemma edits_coalesce r edits :
  ClipboardRecord.type r = "text"%string ->
  forall a t p h,
    current_record a = Some r ->
    _save_timer a = Some (t + SAVE_DEBOUNCE_MS) ->
    _pending_save_id a = Some (ClipboardRecord.id r) ->
    _pending_save_text a = Some (new_text r p h) ->
    within_debounce t edits ->
    let '(_, pn, hn) := last edits (t, p, h) in
    let a' := event_loop a (map edit edits) in
    current_record a' = Some r
    /\ armed (db a) (ClipboardRecord.id r) (new_text r pn hn) a'.
Proof.
  intros Hty. induction edits as [| [[t' p'] h'] edits IH];
    intros a t p h Hcur Htm Hid Htx Hin.
  - simpl. split; [exact Hcur |]. unfold armed. eauto.
  - destruct Hin as [Hlt Hin].
    set (a1 := deliver a (t', textChanged p' h')).
    assert (Hfire : fire_save_timer a t' = a).
    { unfold fire_save_timer. rewrite Htm.
      replace (t + SAVE_DEBOUNCE_MS <=? t') with false
        by (symmetry; apply Z.leb_gt; lia).
      reflexivity. }
    assert (Ha1 : a1 = set_save_timer (Some (t' + SAVE_DEBOUNCE_MS))
                         (set_pending (Some (ClipboardRecord.id r))
                            (Some (new_text r p' h')) a)).
    { unfold a1, deliver, handle. rewrite Hfire. unfold on_text_edited.
      rewrite Hcur, Hty. reflexivity. }
    specialize (IH a1 t' p' h').
    rewrite Ha1 in IH. simpl in IH.
    specialize (IH Hcur eq_refl eq_refl eq_refl Hin).
    rewrite <- Ha1 in IH.
    rewrite last_cons. exact IH.
Qed.

End Debounce.

(** C8: record [r], a text record with a usable id, is the current record
    and no save is pending.  Edits arrive at [t0] and then at the times of
    [edits], each less than 700 ms after the one before; afterwards the
    selection changes any number of times, with no further edit.  During
    the edits the store is not written.  Once the timer has run out the
    store has gone through [update_text_content] exactly once, for the id
    of [r] and with the text of the last edit, whatever record is selected
    by then, and nothing is left pending; on a healthy store that is one
    committed UPDATE. *)
Theorem C8_debounced_edits_save_once
    (a : ClipKeepApp.t) (r : ClipboardRecord.t) (t0 : Z) (p0 h0 : Py.str)
    (edits : list (Z * Py.str * Py.str)) (sels : list (Z * ClipKeepApp.event)) :
  ClipKeepApp.current_record a = Some r ->
  ClipboardRecord.type r = "text"%string ->
  ClipboardRecord.id r <> 0 ->
  ClipKeepApp._save_timer a = None ->
  ClipKeepApp.within_debounce t0 edits ->
  Forall (fun e => ClipKeepApp.is_selection_change (snd e) = true) sels ->
  let '(_, pn, hn) := last edits (t0, p0, h0) in
  let text := ClipKeepApp.new_text r pn hn in
  let a_edited :=
    ClipKeepApp.event_loop a (map ClipKeepApp.edit ((t0, p0, h0) :: edits)) in
  let a_end := ClipKeepApp.idle (ClipKeepApp.event_loop a_edited sels) in
  ClipKeepApp.db a_edited = ClipKeepApp.db a
  /\ ClipKeepApp.db a_end
     = ClipboardDatabase.update_text_content (ClipKeepApp.db a)
         (ClipboardRecord.id r) text
  /\ ClipKeepApp._pending_save_id a_end = None
  /\ ClipKeepApp._pending_save_text a_end = None
  /\ ClipKeepApp._save_timer a_end = None
  /\ (sqlite3.failing (ClipKeepApp.db a) = false ->
      Py.raises (Py.encode text) = false ->
      sqlite3.committed (ClipKeepApp.db a_end)
      = sqlite3.UPDATE_content (ClipboardRecord.id r) text
          :: sqlite3.committed (ClipKeepApp.db a)).
Proof.
  intros Hcur Hty Hid Htm Hin Hsel.
  set (a1 := ClipKeepApp.deliver a (t0, ClipKeepApp.textChanged p0 h0)).
  assert (Ha1 : a1 = ClipKeepApp.set_save_timer (Some (t0 + SAVE_DEBOUNCE_MS))
                       (ClipKeepApp.set_pending (Some (ClipboardRecord.id r))
                          (Some (ClipKeepApp.new_text r p0 h0)) a)).
  { unfold a1, ClipKeepApp.deliver, ClipKeepApp.handle,
      ClipKeepApp.fire_save_timer.
    rewrite Htm. unfold ClipKeepApp.on_text_edited.
    rewrite Hcur, Hty. reflexivity. }
  pose proof (edits_coalesce r edits Hty a1 t0 p0 h0) as H.
  rewrite Ha1 in H. simpl in H.
  specialize (H Hcur eq_refl eq_refl eq_refl Hin).
  rewrite <- Ha1 in H.
  destruct (last edits (t0, p0, h0)) as [[tn pn] hn].
  cbv zeta.
  change (ClipKeepApp.event_loop a
            (map ClipKeepApp.edit ((t0, p0, h0) :: edits)))
    with (ClipKeepApp.event_loop a1 (map ClipKeepApp.edit edits)).
  destruct H as [_ Harm].
  replace (ClipKeepApp.db a1) with (ClipKeepApp.db a) in Harm
    by (rewrite Ha1; reflexivity).
  set (a2 := ClipKeepApp.event_loop a1 (map ClipKeepApp.edit edits)) in *.
  pose proof (idle_saves _ _ _ _ Hid
                (selection_changes_keep_the_save _ _ _ sels Hid Hsel a2
                   (or_introl Harm))) as (Ht & Hpi & Hpt & Hdb).
  split; [apply Harm |].
  split; [exact Hdb |].
  split; [exact Hpi |].
  split; [exact Hpt |].
  split; [exact Ht |].
  intros Hf He. rewrite Hdb.
  unfold ClipboardDatabase.update_text_content, sqlite3.bind_text.
  rewrite (cursor_ok _ Hf).
  destruct (Py.encode (ClipKeepApp.new_text r pn hn)); [reflexivity | discriminate].
Qed.

Lemma C8_debounced_edits_save_once_witness :
  let r := Sample.text_record 5 "plain" in
  let a := ClipKeepApp.set_current_record (Some r) ClipKeepApp.init in
  let edits := [(300, Py.lit "ab", []); (900, Py.lit "abc", [])] in
  let sels := [(1000, ClipKeepApp.detail_loaded
                        (Some (Sample.text_record 6 "plain")))] in
  (ClipKeepApp.within_debounce 0 edits /\ ClipboardRecord.id r <> 0)
  /\ ClipKeepApp.db
       (ClipKeepApp.idle
          (ClipKeepApp.event_loop
             (ClipKeepApp.event_loop a
                (map ClipKeepApp.edit ((0, Py.lit "a", []) :: edits)))
             sels))
     = ClipboardDatabase.update_text_content (ClipKeepApp.db a) 5 (Py.lit "abc").
Proof.
  intros r a edits sels.
  assert (Hin : ClipKeepApp.within_debounce 0 edits)
    by (simpl; unfold SAVE_DEBOUNCE_MS; lia).
  assert (Hid : ClipboardRecord.id r <> 0) by discriminate.
  assert (Hsel : Forall (fun e => ClipKeepApp.is_selection_change (snd e) = true)
                   sels)
    by (repeat constructor).
  split; [split; assumption |].
  exact (proj1 (proj2 (C8_debounced_edits_save_once a r 0 (Py.lit "a") [] edits
                         sels eq_refl eq_refl Hid eq_refl Hin Hsel))).
Defined.

(** ** Images: the hash of the Dedup Guard and the persisted image *)

Section ImageIngest.
Import sqlite3 ClipKeepApp.
Context {W : Qt.ImageWriter}.

(** The guard hashes the PNG bytes of the captured image, the worker the
    bytes it persists: for an image without alpha that is kept at its size,
    the JPEG bytes at quality 90. *)
Lemma image_hashes_by_writer (a : t) (now : Z) (clip : Qt.QClipboard) :
  is_internal_copy a = false ->
  Qt.hasImage clip = true ->
  Qt.isNull (Qt.image clip) = false ->
  Qt.hasAlphaChannel (Qt.image clip) = false ->
  Qt.width (Qt.image clip) * Qt.height (Qt.image clip) <= MAX_IMAGE_AREA_PIXELS ->
  is_new a (hashlib.md5 (Qt.write "PNG" (-1) (Qt.image clip))) = true ->
  exists a' w,
    on_clipboard_change a now clip = Py.Ok a'
    /\ last_clipboard_hash a' = hashlib.md5 (Qt.write "PNG" (-1) (Qt.image clip))
    /\ threadpool a' = threadpool a ++ [ImageProcessWorker_ w]
    /\ forall d now',
         failing d = false ->
         exists r,
           rows (fst (ImageProcessWorker.run w d now')) = rows d ++ [r]
           /\ records.content_hash r
              = Some (hashlib.md5 (Qt.write "JPEG" 90 (Qt.image clip))).
Proof.
  intros Hflag Himg Hnull Halpha Harea Hnew.
  unfold on_clipboard_change, tier_image. rewrite Hflag, Himg, Hnull. simpl.
  unfold Qt.save at 1. rewrite Hnull, Hnew.
  eexists. eexists. split; [reflexivity |].
  split; [simpl; unfold Qt.save; rewrite Hnull; reflexivity |].
  split; [reflexivity |].
  intros d now' Hd.
  unfold ImageProcessWorker.run, ImageProcessWorker.body,
    ImageProcessWorker.persist_image. simpl.
  replace (Qt.width (Qt.image clip) * Qt.height (Qt.image clip)
           >? MAX_IMAGE_AREA_PIXELS) with false
    by (symmetry; rewrite Z.gtb_ltb; apply Z.ltb_ge; exact Harea).
  destruct (save_original_image (settings a)); simpl;
    rewrite (cursor_ok d Hd); simpl;
    (eexists; split; [reflexivity |]); simpl;
    unfold ImageProcessWorker.img_array, ImageProcessWorker.fmt_of, Qt.save;
    rewrite Halpha, Hnull; reflexivity.
Qed.

End ImageIngest.

(** C1, on the code: an image without alpha is copied.  The Dedup Guard
    remembers the MD5 of its PNG bytes; the worker stores the MD5 of the
    JPEG bytes it persists.  The two differ, so the store never reports the
    guard's hash, and when the same image is copied again after another
    capture it is stored a second time, with the same content hash as the
    first row. *)
Theorem C1_dedup_hash_is_not_the_content_hash :
  let clip := Sample.image_clip Sample.opaque_image in
  exists a1 a4 r1 r2 r3 h,
    ClipKeepApp.on_clipboard_change (W := Sample.writer) ClipKeepApp.init 1 clip
    = Py.Ok a1
    /\ sqlite3.rows
         (ClipKeepApp.db (ClipKeepApp.drain (W := Sample.writer) 4 a1 2))
       = [r1]
    /\ records.content_hash r1 = Some h
    /\ ClipKeepApp.last_clipboard_hash a1 <> h
    /\ ClipboardDatabase.check_duplicate_hash
         (ClipKeepApp.db (ClipKeepApp.drain (W := Sample.writer) 4 a1 2))
         (ClipKeepApp.last_clipboard_hash a1) = false
    /\ Py.bind
         (ClipKeepApp.on_clipboard_change (W := Sample.writer)
            (ClipKeepApp.drain (W := Sample.writer) 4 a1 2) 3
            (Sample.text_clip (Py.lit "B")))
         (fun a3 => ClipKeepApp.on_clipboard_change (W := Sample.writer) a3 4 clip)
       = Py.Ok a4
    /\ sqlite3.rows
         (ClipKeepApp.db (ClipKeepApp.drain (W := Sample.writer) 4 a4 5))
       = [r1; r2; r3]
    /\ records.type r3 = "image"%string
    /\ records.content_hash r3 = Some h.
Proof.
  intros clip. do 6 eexists.
  split; [vm_compute; reflexivity |].
  split; [vm_compute; reflexivity |].
  split; [vm_compute; reflexivity |].
  split; [vm_compute; discriminate |].
  split; [vm_compute; reflexivity |].
  split; [vm_compute; reflexivity |].
  split; [vm_compute; reflexivity |].
  split; vm_compute; reflexivity.
Qed.

(** C6, on the code: a strip of one pixel by five million with an alpha
    channel is above the area limit; its scaled width is 0, so [scaled]
    returns the null image and the worker inserts a row of format JPEG with
    no bytes and size 0 by 0, whatever the image writer. *)
Theorem C6_thin_image_is_persisted_as_null {W : Qt.ImageWriter} (now : Z) :
  let w := {| ImageProcessWorker.image := Sample.thin_alpha_image;
              ImageProcessWorker.max_area := MAX_IMAGE_AREA_PIXELS;
              ImageProcessWorker.save_original := false |} in
  Qt.hasAlphaChannel Sample.thin_alpha_image = true
  /\ 0 < Qt.width Sample.thin_alpha_image
  /\ 0 < Qt.height Sample.thin_alpha_image
  /\ ImageProcessWorker.scale_dim 1 MAX_IMAGE_AREA_PIXELS 5000000 = Py.Ok 0
  /\ ImageProcessWorker.persist_image w = Py.Ok Qt.null
  /\ exists r,
       sqlite3.rows (fst (ImageProcessWorker.run w sqlite3.empty now)) = [r]
       /\ records.format r = Some "JPEG"%string
       /\ records.content_blob r = Some []
       /\ records.width r = Some 0
       /\ records.height r = Some 0.
Proof.
  intros w.
  split; [reflexivity |].
  split; [reflexivity |].
  split; [reflexivity |].
  split; [vm_compute; reflexivity |].
  split; [vm_compute; reflexivity |].
  eexists. split; [vm_compute; reflexivity |].
  repeat split.
Qed.

(** ** More on the store *)

Section StoreInvariant.
Import sqlite3.

Lemma ascending_ids_filter f l : ascending_ids l -> ascending_ids (filter f l).
Proof.
  induction 1 as [| r l Hl IH Hr]; simpl; [constructor |].
  destruct (f r); [| exact IH].
  constructor; [exact IH |].
  rewrite Forall_forall in Hr |- *. intros y Hy.
  apply filter_In in Hy. apply Hr, Hy.
Qed.

Lemma ascending_ids_snoc l r :
  ascending_ids l ->
  Forall (fun x => records.id x < records.id r) l ->
  ascending_ids (l ++ [r]).
Proof.
  induction 1 as [| x l Hl IH Hx]; intros Hlt; simpl.
  - constructor; constructor.
  - apply Forall_cons_iff in Hlt. destruct Hlt as [Hxr Hlt].
    constructor; [apply IH, Hlt |].
    apply Forall_app. split; [exact Hx |]. constructor; [exact Hxr | constructor].
Qed.

Lemma ascending_ids_set_content s l :
  ascending_ids l ->
  forall i, ascending_ids
              (map (fun r => if records.id r =? i then set_content s r else r) l).
Proof.
  intros H i. induction H as [| r l Hl IH Hr]; simpl; [constructor |].
  constructor; [exact IH |].
  rewrite Forall_forall in Hr |- *. intros y Hy.
  apply in_map_iff in Hy. destruct Hy as [x [<- Hx]].
  specialize (Hr x Hx).
  destruct (records.id r =? i), (records.id x =? i); simpl; exact Hr.
Qed.

Lemma well_formed_insert db r :
  well_formed db -> well_formed (fst (insert db r)).
Proof.
  intros [Hasc Hseq]. unfold well_formed. simpl. split.
  - apply ascending_ids_snoc; [exact Hasc |].
    rewrite Forall_forall in Hseq |- *. intros x Hx. specialize (Hseq x Hx).
    simpl. lia.
  - apply Forall_app. split.
    + rewrite Forall_forall in Hseq |- *. intros x Hx. specialize (Hseq x Hx). lia.
    + constructor; [simpl; lia | constructor].
Qed.

Lemma well_formed_filter db f d :
  well_formed db ->
  rows d = filter f (rows db) -> sequence d = sequence db ->
  well_formed d.
Proof.
  intros [Hasc Hseq] Hr Hs. unfold well_formed. rewrite Hr, Hs. split.
  - apply ascending_ids_filter, Hasc.
  - rewrite Forall_forall in Hseq |- *. intros x Hx.
    apply filter_In in Hx. apply Hseq, Hx.
Qed.

Lemma well_formed_try (db : database) (body : Py.result database) :
  well_formed db ->
  (forall d, body = Py.Ok d -> well_formed d /\ sequence db <= sequence d) ->
  well_formed (Py.try_except body (fun _ => db))
  /\ sequence db <= sequence (Py.try_except body (fun _ => db)).
Proof.
  intros Hwf Hbody. destruct body as [d | e]; simpl.
  - apply Hbody. reflexivity.
  - split; [exact Hwf | lia].
Qed.

Lemma well_formed_insert_seq db r :
  well_formed db ->
  well_formed (fst (insert db r)) /\ sequence db <= sequence (fst (insert db r)).
Proof. intros Hwf. split; [apply well_formed_insert, Hwf | simpl; lia]. Qed.

Lemma well_formed_add_text_record db now text fmt :
  well_formed db ->
  well_formed (fst (ClipboardDatabase.add_text_record db now text fmt))
  /\ sequence db
     <= sequence (fst (ClipboardDatabase.add_text_record db now text fmt)).
Proof.
  intros Hwf. unfold ClipboardDatabase.add_text_record, cursor.
  destruct (Py.encode text); cbn [Py.bind Py.try_except fst];
    [| split; [exact Hwf | lia]].
  destruct (failing db); cbn [Py.bind Py.try_except fst];
    [split; [exact Hwf | lia] |].
  apply well_formed_insert_seq, Hwf.
Qed.

Lemma well_formed_add_image_record db now data thumb fmt w h hash :
  well_formed db ->
  well_formed
    (fst (ClipboardDatabase.add_image_record db now data thumb fmt w h hash))
  /\ sequence db
     <= sequence
          (fst (ClipboardDatabase.add_image_record db now data thumb fmt w h hash)).
Proof.
  intros Hwf. unfold ClipboardDatabase.add_image_record, cursor.
  destruct (failing db); cbn [Py.bind Py.try_except fst];
    [split; [exact Hwf | lia] |].
  apply well_formed_insert_seq, Hwf.
Qed.

Lemma well_formed_update_text_content db record_id text :
  well_formed db ->
  well_formed (ClipboardDatabase.update_text_content db record_id text)
  /\ sequence db
     <= sequence (ClipboardDatabase.update_text_content db record_id text).
Proof.
  intros Hwf. unfold ClipboardDatabase.update_text_content.
  apply well_formed_try; [exact Hwf |].
  unfold cursor, bind_text.
  destruct (failing db); simpl; [discriminate |].
  destruct (Py.encode text); simpl; [| discriminate].
  intros d [= <-]. destruct Hwf as [Hasc Hseq].
  split; [| simpl; lia]. split; simpl.
  - apply ascending_ids_set_content, Hasc.
  - rewrite Forall_forall in Hseq |- *. intros x Hx.
    apply in_map_iff in Hx. destruct Hx as [y [<- Hy]].
    specialize (Hseq y Hy). destruct (records.id y =? record_id); exact Hseq.
Qed.

Lemma well_formed_delete_record db record_id :
  well_formed db ->
  well_formed (ClipboardDatabase.delete_record db record_id)
  /\ sequence db <= sequence (ClipboardDatabase.delete_record db record_id).
Proof.
  intros Hwf. unfold ClipboardDatabase.delete_record.
  apply well_formed_try; [exact Hwf |].
  unfold cursor. destruct (failing db); simpl; [discriminate |].
  intros d [= <-]. split; [| simpl; lia].
  eapply well_formed_filter; [exact Hwf | reflexivity | reflexivity].
Qed.

Lemma well_formed_clear_all db :
  well_formed db ->
  well_formed (ClipboardDatabase.clear_all db)
  /\ sequence db <= sequence (ClipboardDatabase.clear_all db).
Proof.
  intros Hwf. unfold ClipboardDatabase.clear_all.
  apply well_formed_try; [exact Hwf |].
  unfold cursor. destruct (failing db); simpl; [discriminate |].
  intros d [= <-]. split; [| simpl; lia].
  split; simpl; constructor.
Qed.

Lemma well_formed_trim_to_limit db max_count :
  well_formed db ->
  well_formed (ClipboardDatabase.trim_to_limit db max_count)
  /\ sequence db <= sequence (ClipboardDatabase.trim_to_limit db max_count).
Proof.
  intros Hwf. unfold ClipboardDatabase.trim_to_limit.
  apply well_formed_try; [exact Hwf |].
  unfold cursor. destruct (failing db); simpl; [discriminate |].
  intros d [= <-]. split; [| simpl; lia].
  eapply well_formed_filter; [exact Hwf | reflexivity | reflexivity].
Qed.

Lemma well_formed_test_write db now :
  well_formed db ->
  well_formed (fst (ClipboardDatabase.test_write db now))
  /\ sequence db <= sequence (fst (ClipboardDatabase.test_write db now)).
Proof.
  intros Hwf. unfold ClipboardDatabase.test_write, cursor.
  destruct (failing db); cbn [Py.bind Py.try_except fst];
    [split; [exact Hwf | lia] |].
  match goal with
  | |- context [insert db ?r] => pose proof (well_formed_insert db r Hwf) as Hi
  end.
  unfold insert in *. cbn [fst] in *.
  split; [| simpl; lia].
  eapply well_formed_filter; [exact Hi | reflexivity | reflexivity].
Qed.

End StoreInvariant.

(** X1: every write of the store keeps the table as AUTOINCREMENT builds
    it: ids strictly increasing in row order and none above the counter,
    and the counter never goes down, so an id is never handed out twice,
    not even after deletes or [clear_all]. *)
Theorem store_writes_keep_ids_ascending
    (db : sqlite3.database) (now : Z) (text : Py.str) (fmt : string)
    (image_data thumb : Py.bytes) (w h : Z) (content_hash : string)
    (record_id max_count : Z) :
  sqlite3.well_formed db ->
  Forall (fun d => sqlite3.well_formed d /\ sqlite3.sequence db <= sqlite3.sequence d)
    [fst (ClipboardDatabase.add_text_record db now text fmt);
     fst (ClipboardDatabase.add_image_record db now image_data thumb fmt w h
            content_hash);
     ClipboardDatabase.update_text_content db record_id text;
     ClipboardDatabase.delete_record db record_id;
     ClipboardDatabase.clear_all db;
     ClipboardDatabase.trim_to_limit db max_count;
     fst (ClipboardDatabase.test_write db now)].
Proof.
  intros Hwf.
  repeat apply Forall_cons; try apply Forall_nil.
  - apply well_formed_add_text_record, Hwf.
  - apply well_formed_add_image_record, Hwf.
  - apply well_formed_update_text_content, Hwf.
  - apply well_formed_delete_record, Hwf.
  - apply well_formed_clear_all, Hwf.
  - apply well_formed_trim_to_limit, Hwf.
  - apply well_formed_test_write, Hwf.
Qed.

Lemma store_writes_keep_ids_ascending_witness :
  let db := Sample.store [Sample.text_row 1 5 "a"; Sample.text_row 4 2 "b"] 6 in
  sqlite3.well_formed db
  /\ sqlite3.well_formed (ClipboardDatabase.delete_record db 1).
Proof.
  intros db.
  assert (Hwf : sqlite3.well_formed db).
  { split; repeat constructor; simpl; lia. }
  split; [exact Hwf |].
  pose proof (store_writes_keep_ids_ascending db 0 [] "" [] [] 0 0 "" 1 0 Hwf)
    as H.
  rewrite Forall_forall in H. apply (H (ClipboardDatabase.delete_record db 1)).
  simpl. auto.
Defined.

Section TrimMore.
Import sqlite3.

Lemma limit_negative {A : Type} (n : Z) (l : list A) : n < 0 -> limit n l = l.
Proof.
  intros H. unfold limit.
  replace (n <? 0) with true by (symmetry; apply Z.ltb_lt, H). reflexivity.
Qed.

(** A negative limit is no limit: nothing is deleted. *)
Lemma delete_not_in_top_negative db max_count :
  max_count < 0 -> rows (delete_not_in_top db max_count) = rows db.
Proof.
  intros Hneg. unfold delete_not_in_top, select_top_ids. simpl.
  rewrite (limit_negative _ _ Hneg).
  apply forallb_filter_id. apply forallb_forall. intros r Hr.
  apply mem_In, in_map.
  eapply Permutation_in; [apply Permutation_sym, order_by_timestamp_desc_perm |].
  exact Hr.
Qed.

(** With more rows than the limit, exactly the limit is left. *)
Lemma delete_not_in_top_length db max_count :
  ascending_ids (rows db) ->
  0 <= max_count <= Z.of_nat (length (rows db)) ->
  Z.of_nat (length (rows (delete_not_in_top db max_count))) = max_count.
Proof.
  intros Hasc Hmax.
  set (sorted := order_by_timestamp_desc (rows db)).
  set (n := Z.to_nat max_count).
  assert (Hperm : Permutation sorted (rows db))
    by apply order_by_timestamp_desc_perm.
  assert (Hnd : NoDup sorted).
  { eapply Permutation_NoDup; [apply Permutation_sym, Hperm |].
    apply ascending_ids_NoDup, Hasc. }
  assert (Hp : Permutation (rows (delete_not_in_top db max_count))
                 (firstn n sorted)).
  { apply NoDup_Permutation.
    - apply NoDup_filter, ascending_ids_NoDup, Hasc.
    - rewrite <- (firstn_skipn n sorted) in Hnd.
      eapply NoDup_app_remove_r, Hnd.
    - intros r. rewrite (In_delete_not_in_top db max_count r Hasc).
      unfold limit.
      replace (max_count <? 0) with false by (symmetry; apply Z.ltb_ge; lia).
      reflexivity. }
  rewrite (Permutation_length Hp), firstn_length_le.
  - unfold n. lia.
  - rewrite (Permutation_length Hperm). unfold n. lia.
Qed.

Lemma length_filter_le {A : Type} (f : A -> bool) (l : list A) :
  (length (filter f l) <= length l)%nat.
Proof.
  induction l as [| x l IH]; simpl; [lia |].
  destruct (f x); simpl; lia.
Qed.

End TrimMore.

(** X2: on a healthy store whose ids ascend, [trim_to_limit] with a limit
    of at least 0 leaves the smaller of the row count and the limit: it
    deletes nothing when the history has room, and otherwise cuts the
    history down to exactly the limit. *)
Theorem trim_to_limit_count (db : sqlite3.database) (max_count : Z) :
  sqlite3.failing db = false ->
  sqlite3.ascending_ids (sqlite3.rows db) ->
  0 <= max_count ->
  ClipboardDatabase.get_count (ClipboardDatabase.trim_to_limit db max_count)
  = Z.min (ClipboardDatabase.get_count db) max_count
  /\ (ClipboardDatabase.get_count db <= max_count ->
      sqlite3.rows (ClipboardDatabase.trim_to_limit db max_count)
      = sqlite3.rows db).
Proof.
  intros Hf Hasc Hmax.
  unfold ClipboardDatabase.get_count, ClipboardDatabase.trim_to_limit.
  rewrite (cursor_ok db Hf). cbn [Py.bind Py.try_except].
  replace (sqlite3.cursor (sqlite3.delete_not_in_top db max_count))
    with (Py.Ok tt : Py.result unit)
    by (symmetry; apply cursor_ok; exact Hf).
  cbn [Py.bind Py.try_except].
  split.
  - destruct (Z_le_gt_dec (Z.of_nat (length (sqlite3.rows db))) max_count)
      as [Hle | Hgt].
    + rewrite (delete_not_in_top_room db max_count Hle). lia.
    + rewrite (delete_not_in_top_length db max_count Hasc); lia.
  - intros Hle. apply delete_not_in_top_room, Hle.
Qed.

Lemma trim_to_limit_count_witness :
  let db := Sample.store [Sample.text_row 1 5 "a"; Sample.text_row 2 9 "b";
                          Sample.text_row 3 7 "c"] 3 in
  (sqlite3.failing db = false /\ 0 <= 2)
  /\ ClipboardDatabase.get_count (ClipboardDatabase.trim_to_limit db 2)
     = Z.min (ClipboardDatabase.get_count db) 2.
Proof.
  intros db. split; [split; [reflexivity | lia] |].
  refine (proj1 (trim_to_limit_count db 2 eq_refl _ _)); [| lia].
  unfold sqlite3.ascending_ids.
  repeat (constructor; [| repeat constructor; reflexivity]); constructor.
Defined.

(** X3: trimming twice with the same limit deletes nothing the second
    time, whether the storage works or not. *)
Theorem trim_to_limit_idempotent (db : sqlite3.database) (max_count : Z) :
  sqlite3.ascending_ids (sqlite3.rows db) ->
  sqlite3.rows
    (ClipboardDatabase.trim_to_limit
       (ClipboardDatabase.trim_to_limit db max_count) max_count)
  = sqlite3.rows (ClipboardDatabase.trim_to_limit db max_count).
Proof.
  intros Hasc. unfold ClipboardDatabase.trim_to_limit, sqlite3.cursor.
  destruct (sqlite3.failing db) eqn:Hf; cbn [Py.bind Py.try_except];
    [rewrite Hf; reflexivity |].
  replace (sqlite3.failing (sqlite3.delete_not_in_top db max_count))
    with false by (symmetry; exact Hf).
  cbn [Py.bind Py.try_except].
  destruct (Z_lt_ge_dec max_count 0) as [Hneg | Hpos].
  { apply delete_not_in_top_negative, Hneg. }
  apply delete_not_in_top_room.
  destruct (Z_le_gt_dec (Z.of_nat (length (sqlite3.rows db))) max_count)
    as [Hle | Hgt].
  - rewrite (delete_not_in_top_room db max_count Hle). exact Hle.
  - rewrite (delete_not_in_top_length db max_count Hasc); lia.
Qed.

Lemma trim_to_limit_idempotent_witness :
  let db := Sample.store [Sample.text_row 1 5 "a"; Sample.text_row 2 9 "b";
                          Sample.text_row 3 7 "c"] 3 in
  sqlite3.rows
    (ClipboardDatabase.trim_to_limit (ClipboardDatabase.trim_to_limit db 2) 2)
  = sqlite3.rows (ClipboardDatabase.trim_to_limit db 2).
Proof.
  intros db. apply (trim_to_limit_idempotent db 2).
  unfold sqlite3.ascending_ids.
  repeat (constructor; [| repeat constructor; reflexivity]); constructor.
Defined.

(** ** Inserts, lookups and edits *)

(** X4: [add_text_record] returns 0 exactly when nothing was stored: the
    text has no UTF-8 encoding or the storage fails, and then the store is
    as before.  Otherwise it returns the next id, above every id in the
    table, and appends one row; with a counter that is not negative the id
    is positive, so 0 is never the id of a record. *)
Theorem add_text_record_zero_iff_nothing_stored
    (db : sqlite3.database) (now : Z) (text : Py.str) (fmt : string) :
  sqlite3.well_formed db ->
  0 <= sqlite3.sequence db ->
  let '(db', new_id) := ClipboardDatabase.add_text_record db now text fmt in
  (new_id = 0 <->
   sqlite3.failing db = true \/ Py.raises (Py.encode text) = true)
  /\ (new_id = 0 -> db' = db)
  /\ (new_id <> 0 ->
      new_id = sqlite3.sequence db + 1
      /\ Forall (fun r => records.id r < new_id) (sqlite3.rows db)
      /\ exists data,
           Py.encode text = Py.Ok data
           /\ sqlite3.rows db'
              = sqlite3.rows db
                ++ [ClipboardDatabase.new_text_row db now text fmt data]).
Proof.
  intros [Hasc Hseq] Hpos.
  unfold ClipboardDatabase.add_text_record, sqlite3.cursor.
  destruct (Py.encode text) as [data | e]; cbn [Py.bind Py.try_except Py.raises].
  2:{ repeat split; auto; intros; try tauto; try congruence. }
  destruct (sqlite3.failing db); cbn [Py.bind Py.try_except].
  { repeat split; auto; intros; try tauto; try congruence. }
  unfold sqlite3.insert. repeat split.
  - intros H. lia.
  - intros [H | H]; discriminate H.
  - intros H. lia.
  - rewrite Forall_forall in Hseq |- *. intros r Hr.
    specialize (Hseq r Hr). simpl in Hseq. lia.
  - exists data. split; reflexivity.
Qed.

Lemma add_text_record_zero_iff_nothing_stored_witness :
  (sqlite3.well_formed sqlite3.empty /\ 0 <= sqlite3.sequence sqlite3.empty)
  /\ snd (ClipboardDatabase.add_text_record sqlite3.empty 3 (Py.lit "A") "plain")
     = 1.
Proof.
  assert (Hwf : sqlite3.well_formed sqlite3.empty) by (split; constructor).
  assert (Hseq : 0 <= sqlite3.sequence sqlite3.empty) by (simpl; lia).
  split; [split; assumption |].
  pose proof (add_text_record_zero_iff_nothing_stored sqlite3.empty 3
                (Py.lit "A") "plain" Hwf Hseq) as H.
  destruct (ClipboardDatabase.add_text_record sqlite3.empty 3 (Py.lit "A")
              "plain") as [db' new_id] eqn:E.
  destruct H as (Hiff & _ & Hnz). simpl.
  destruct (Z.eq_dec new_id 0) as [H0 | H0].
  - apply Hiff in H0. destruct H0 as [H0 | H0]; discriminate H0.
  - apply Hnz in H0. destruct H0 as [H0 _]. exact H0.
Defined.

Section RoundTrip.
Import sqlite3.

Lemma find_snoc_fresh (l : list records.row) (r : records.row) :
  Forall (fun x => records.id x < records.id r) l ->
  find (fun x => records.id x =? records.id r) (l ++ [r]) = Some r.
Proof.
  induction 1 as [| x l Hx _ IH]; simpl.
  - rewrite Z.eqb_refl. reflexivity.
  - replace (records.id x =? records.id r) with false
      by (symmetry; apply Z.eqb_neq; lia).
    exact IH.
Qed.

Lemma existsb_hash_is_set_content h i s l :
  existsb (hash_is h)
    (map (fun r => if records.id r =? i then set_content s r else r) l)
  = existsb (hash_is h) l.
Proof.
  induction l as [| r l IH]; simpl; [reflexivity |].
  rewrite IH. f_equal. destruct (records.id r =? i); reflexivity.
Qed.

End RoundTrip.

(** X5: what a healthy store takes in, it gives back.  After a text
    insert, before any trim, [check_duplicate_hash] knows the MD5 of the
    text's UTF-8 bytes, the count is one higher, and [get_detail] for the
    returned id delivers a text record with that id, the text, its format
    and that hash. *)
Theorem text_insert_then_lookup
    (db : sqlite3.database) (now : Z) (text : Py.str) (fmt : string)
    (data : Py.bytes) :
  sqlite3.well_formed db ->
  sqlite3.failing db = false ->
  Py.encode text = Py.Ok data ->
  let '(db', new_id) := ClipboardDatabase.add_text_record db now text fmt in
  ClipboardDatabase.check_duplicate_hash db' (hashlib.md5 data) = true
  /\ ClipboardDatabase.get_count db' = ClipboardDatabase.get_count db + 1
  /\ DBWorker.run db' (DBWorker.get_detail new_id)
     = [result
          (DBWorker.Record_
             {| ClipboardRecord.id := new_id;
                ClipboardRecord.type := "text";
                ClipboardRecord.content := ClipboardRecord.Text (Some text);
                ClipboardRecord.timestamp := now;
                ClipboardRecord.thumbnail := None;
                ClipboardRecord.format := Some fmt;
                ClipboardRecord.content_hash := hashlib.md5 data |});
        finished].
Proof.
  intros [Hasc Hseq] Hf He.
  unfold ClipboardDatabase.add_text_record.
  rewrite He, (cursor_ok db Hf). cbn [Py.bind Py.try_except].
  unfold sqlite3.insert.
  unfold ClipboardDatabase.check_duplicate_hash, ClipboardDatabase.get_count,
    DBWorker.run, DBWorker.body, sqlite3.cursor.
  cbn [sqlite3.failing sqlite3.rows]. rewrite Hf. cbn [Py.bind Py.try_except].
  repeat split.
  - rewrite existsb_app. simpl. unfold sqlite3.hash_is. simpl.
    rewrite String.eqb_refl. apply orb_true_r.
  - rewrite length_app. simpl. lia.
  - match goal with
    | |- context [find _ (_ ++ [?r])] =>
        change (sqlite3.sequence db + 1) with (records.id r) at 1;
        rewrite (find_snoc_fresh (sqlite3.rows db) r)
    end.
    + reflexivity.
    + rewrite Forall_forall in Hseq |- *. intros x Hx.
      specialize (Hseq x Hx). simpl. lia.
Qed.

Lemma text_insert_then_lookup_witness :
  let db := Sample.store [Sample.text_row 1 5 "a"] 1 in
  (sqlite3.failing db = false
   /\ Py.encode (Py.lit "B") = Py.Ok ["B"%byte])
  /\ ClipboardDatabase.check_duplicate_hash
       (fst (ClipboardDatabase.add_text_record db 9 (Py.lit "B") "plain"))
       (hashlib.md5 ["B"%byte]) = true.
Proof.
  intros db. split; [split; reflexivity |].
  assert (Hwf : sqlite3.well_formed db).
  { split; repeat constructor; simpl; lia. }
  pose proof (text_insert_then_lookup db 9 (Py.lit "B") "plain" ["B"%byte]
                Hwf eq_refl eq_refl) as H.
  destruct (ClipboardDatabase.add_text_record db 9 (Py.lit "B") "plain")
    as [db' new_id].
  exact (proj1 H).
Defined.

(** X6: an edit rewrites the text and nothing else.  After
    [update_text_content] the row count is the same and every row keeps its
    id, timestamp, format and content hash; the hash is not recomputed, so
    [check_duplicate_hash] answers for every hash as it did before the
    edit: the old text still counts as stored, the new text does not. *)
Theorem update_text_content_keeps_hashes
    (db : sqlite3.database) (record_id : Z) (new_text : Py.str) :
  let db' := ClipboardDatabase.update_text_content db record_id new_text in
  (forall h, ClipboardDatabase.check_duplicate_hash db' h
             = ClipboardDatabase.check_duplicate_hash db h)
  /\ ClipboardDatabase.get_count db' = ClipboardDatabase.get_count db
  /\ map (fun r => (records.id r, records.timestamp r, records.format r,
                    records.content_hash r)) (sqlite3.rows db')
     = map (fun r => (records.id r, records.timestamp r, records.format r,
                      records.content_hash r)) (sqlite3.rows db)
  /\ (sqlite3.failing db = false ->
      Py.raises (Py.encode new_text) = false ->
      forall r, In r (sqlite3.rows db') -> records.id r = record_id ->
                records.content r = Some new_text).
Proof.
  unfold ClipboardDatabase.update_text_content, ClipboardDatabase.get_count,
    ClipboardDatabase.check_duplicate_hash, sqlite3.cursor, sqlite3.bind_text.
  destruct (sqlite3.failing db) eqn:Hf; cbn [Py.bind Py.try_except].
  { rewrite Hf. repeat split; intros; congruence. }
  destruct (Py.encode new_text) as [data | e]; cbn [Py.bind Py.try_except Py.raises].
  2:{ rewrite Hf. repeat split; intros; congruence. }
  cbn [sqlite3.failing sqlite3.update_content sqlite3.rows]. rewrite Hf.
  cbn [Py.bind Py.try_except].
  repeat split.
  - intros h. apply existsb_hash_is_set_content.
  - rewrite length_map. reflexivity.
  - rewrite map_map. apply map_ext. intros r.
    destruct (records.id r =? record_id); reflexivity.
  - intros _ _ r Hr Hid. apply in_map_iff in Hr. destruct Hr as [x [<- Hx]].
    destruct (records.id x =? record_id) eqn:E; [reflexivity |].
    apply Z.eqb_neq in E. contradiction.
Qed.

(** X7: [delete_record] on a healthy store removes the rows with that id
    and no other row; for an id that is not in the table the rows stay as
    they are. *)
Theorem delete_record_removes_only_that_id
    (db : sqlite3.database) (record_id : Z) :
  sqlite3.failing db = false ->
  let db' := ClipboardDatabase.delete_record db record_id in
  (forall r, In r (sqlite3.rows db') <->
             In r (sqlite3.rows db) /\ records.id r <> record_id)
  /\ ((forall r, In r (sqlite3.rows db) -> records.id r <> record_id) ->
      sqlite3.rows db' = sqlite3.rows db).
Proof.
  intros Hf. unfold ClipboardDatabase.delete_record.
  rewrite (cursor_ok db Hf). cbn [Py.bind Py.try_except sqlite3.delete_id
                                  sqlite3.rows].
  split.
  - intros r. rewrite filter_In, negb_true_iff, Z.eqb_neq. reflexivity.
  - intros Habs. apply forallb_filter_id, forallb_forall. intros r Hr.
    apply negb_true_iff, Z.eqb_neq, Habs, Hr.
Qed.

Lemma delete_record_removes_only_that_id_witness :
  let db := Sample.store [Sample.text_row 1 5 "a"; Sample.text_row 2 9 "b"] 2 in
  sqlite3.failing db = false
  /\ (In (Sample.text_row 2 9 "b")
        (sqlite3.rows (ClipboardDatabase.delete_record db 1))
      <-> In (Sample.text_row 2 9 "b") (sqlite3.rows db)
          /\ records.id (Sample.text_row 2 9 "b") <> 1).
Proof.
  intros db. split; [reflexivity |].
  exact (proj1 (delete_record_removes_only_that_id db 1 eq_refl)
           (Sample.text_row 2 9 "b")).
Defined.

(** X8: the storage probe leaves no trace in the history: [test_write]
    returns the rows as they were, reports True exactly on a working
    storage, and then has used up one id. *)
Theorem test_write_leaves_the_rows
    (db : sqlite3.database) (now : Z) :
  sqlite3.well_formed db ->
  let '(db', ok) := ClipboardDatabase.test_write db now in
  sqlite3.rows db' = sqlite3.rows db
  /\ ok = negb (sqlite3.failing db)
  /\ sqlite3.sequence db' = (if ok then sqlite3.sequence db + 1
                             else sqlite3.sequence db).
Proof.
  intros [Hasc Hseq]. unfold ClipboardDatabase.test_write, sqlite3.cursor.
  destruct (sqlite3.failing db); cbn [Py.bind Py.try_except]; [auto |].
  unfold sqlite3.insert, sqlite3.delete_id. cbn [sqlite3.rows sqlite3.sequence negb].
  repeat split.
  rewrite filter_app. simpl. rewrite Z.eqb_refl. simpl. rewrite app_nil_r.
  apply forallb_filter_id, forallb_forall. intros r Hr.
  rewrite Forall_forall in Hseq. specialize (Hseq r Hr).
  apply negb_true_iff, Z.eqb_neq. lia.
Qed.

Lemma test_write_leaves_the_rows_witness :
  let db := Sample.store [Sample.text_row 1 5 "a"] 1 in
  sqlite3.well_formed db
  /\ sqlite3.rows (fst (ClipboardDatabase.test_write db 7)) = sqlite3.rows db.
Proof.
  intros db.
  assert (Hwf : sqlite3.well_formed db).
  { split; repeat constructor; simpl; lia. }
  split; [exact Hwf |].
  pose proof (test_write_leaves_the_rows db 7 Hwf) as H.
  destruct (ClipboardDatabase.test_write db 7) as [db' ok].
  exact (proj1 H).
Defined.

Lemma update_text_content_keeps_hashes_witness :
  let db := Sample.store [Sample.text_row 1 5 "a"] 1 in
  (sqlite3.failing db = false /\ Py.raises (Py.encode (Py.lit "z")) = false)
  /\ forall r,
       In r (sqlite3.rows (ClipboardDatabase.update_text_content db 1 (Py.lit "z"))) ->
       records.id r = 1 -> records.content r = Some (Py.lit "z").
Proof.
  intros db. split; [split; reflexivity |].
  exact (proj2 (proj2 (proj2
           (update_text_content_keeps_hashes db 1 (Py.lit "z"))))
           eq_refl eq_refl).
Defined.

(** ** The history list *)

Section LoadAll.
Import sqlite3.

Lemma StronglySorted_app_l {A : Type} (R : A -> A -> Prop) (l1 l2 : list A) :
  StronglySorted R (l1 ++ l2) -> StronglySorted R l1.
Proof.
  induction l1 as [| x l1 IH]; simpl; intros H; [constructor |].
  apply StronglySorted_inv in H. destruct H as [Hs Hx].
  constructor; [apply IH, Hs |].
  apply Forall_app in Hx. apply Hx.
Qed.

Lemma StronglySorted_limit (R : records.row -> records.row -> Prop) n l :
  StronglySorted R l -> StronglySorted R (limit n l).
Proof.
  intros H. unfold limit. destruct (n <? 0); [exact H |].
  apply (StronglySorted_app_l R _ (skipn (Z.to_nat n) l)).
  rewrite firstn_skipn. exact H.
Qed.

Lemma StronglySorted_map_summary l :
  StronglySorted walked_before l ->
  StronglySorted
    (fun x y => ClipboardRecord.timestamp y <= ClipboardRecord.timestamp x)
    (map DBWorker.summary l).
Proof.
  induction 1 as [| r l Hl IH Hr]; simpl; constructor; [exact IH |].
  rewrite Forall_forall in Hr |- *. intros c Hc.
  apply in_map_iff in Hc. destruct Hc as [y [<- Hy]].
  specialize (Hr y Hy). unfold walked_before in Hr. simpl. lia.
Qed.

Lemma length_limit {A : Type} (n : Z) (l : list A) :
  0 <= n -> Z.of_nat (length (limit n l)) = Z.min (Z.of_nat (length l)) n.
Proof.
  intros Hn. unfold limit.
  replace (n <? 0) with false by (symmetry; apply Z.ltb_ge; lia).
  rewrite length_firstn. lia.
Qed.

End LoadAll.

(** X9: on a healthy store the list the history view loads holds the
    newest rows first: with a limit of at least 0, [load_all] delivers
    the smaller of the limit and the row count many records, in
    descending order of timestamp, each the summary of a row of the table;
    a record that is not a text carries no content (the image bytes stay
    in the store). *)
Theorem load_all_newest_first (db : sqlite3.database) (lim : Z) :
  sqlite3.failing db = false ->
  sqlite3.ascending_ids (sqlite3.rows db) ->
  0 <= lim ->
  exists l,
    DBWorker.run db (DBWorker.load_all lim)
    = [result (DBWorker.Records l); finished]
    /\ Z.of_nat (length l) = Z.min (ClipboardDatabase.get_count db) lim
    /\ StronglySorted
         (fun x y => ClipboardRecord.timestamp y <= ClipboardRecord.timestamp x) l
    /\ (forall c, In c l ->
                  exists r, In r (sqlite3.rows db) /\ c = DBWorker.summary r)
    /\ (forall c, In c l ->
                  ClipboardRecord.type c <> "text"%string ->
                  ClipboardRecord.content c = ClipboardRecord.NoContent).
Proof.
  intros Hf Hasc Hlim.
  unfold DBWorker.run, DBWorker.body, ClipboardDatabase.get_count.
  rewrite (cursor_ok db Hf). cbn [Py.bind Py.try_except].
  eexists. split; [reflexivity |].
  split.
  { rewrite length_map, length_limit by exact Hlim.
    rewrite (Permutation_length (order_by_timestamp_desc_perm _)). reflexivity. }
  split.
  { apply StronglySorted_map_summary, StronglySorted_limit,
      order_by_timestamp_desc_sorted, Hasc. }
  split.
  - intros c Hc. apply in_map_iff in Hc. destruct Hc as [r [<- Hr]].
    exists r. split; [| reflexivity].
    eapply Permutation_in; [apply order_by_timestamp_desc_perm |].
    eapply In_limit, Hr.
  - intros c Hc Hty. apply in_map_iff in Hc. destruct Hc as [r [<- Hr]].
    unfold DBWorker.summary in *. simpl in *.
    destruct (String.eqb (records.type r) "text") eqn:E; [| reflexivity].
    apply String.eqb_eq in E. contradiction.
Qed.

Lemma load_all_newest_first_witness :
  let db := Sample.store [Sample.text_row 1 5 "a"; Sample.text_row 2 9 "b";
                          Sample.text_row 3 7 "c"] 3 in
  (sqlite3.failing db = false /\ 0 <= 2)
  /\ exists l,
       DBWorker.run db (DBWorker.load_all 2)
       = [result (DBWorker.Records l); finished]
       /\ Z.of_nat (length l) = Z.min (ClipboardDatabase.get_count db) 2.
Proof.
  intros db. split; [split; [reflexivity | lia] |].
  assert (Hasc : sqlite3.ascending_ids (sqlite3.rows db)).
  { unfold sqlite3.ascending_ids.
    repeat (constructor; [| repeat constructor; reflexivity]); constructor. }
  destruct (load_all_newest_first db 2 eq_refl Hasc ltac:(lia))
    as [l [H1 [H2 _]]].
  exists l. split; assumption.
Defined.

(** ** Repeated and first notifications *)

Section Notifications.
Import sqlite3 ClipKeepApp.
Context {W : Qt.ImageWriter}.

Ltac project_app :=
  cbn [add_text_record add_image_record_async refresh_history_async start
       set_threadpool set_db set_last_clipboard_hash set_is_internal_copy
       settings is_internal_copy last_clipboard_hash].

(** Once a hash is the last captured one, the guard rejects it. *)
Lemma is_new_last_hash a h : last_clipboard_hash a = h -> is_new a h = false.
Proof.
  intros <-. unfold is_new. rewrite String.eqb_refl. reflexivity.
Qed.

Lemma same_clipboard_twice_tiers a now now2 clip a1 :
  is_internal_copy a = false ->
  tier_image a now clip = Py.Ok a1 ->
  tier_image a1 now2 clip = Py.Ok a1 /\ is_internal_copy a1 = false.
Proof.
  intros Hflag Hrun.
  unfold tier_image, tier_files, tier_html, tier_text in *.
  repeat match type of Hrun with
         | (if ?b then _ else _) = _ =>
             let E := fresh "E" in destruct b eqn:E
         | (match ?l with [] => _ | _ :: _ => _ end) = _ =>
             let E := fresh "E" in destruct l eqn:E
         | Py.bind ?m _ = _ =>
             let E := fresh "E" in destruct m eqn:E; cbn [Py.bind] in Hrun
         end;
    try discriminate Hrun;
    injection Hrun as <-;
    project_app;
    repeat match goal with
           | H : ?x = _ |- context [?x] => rewrite H
           end;
    cbn [Py.bind];
    rewrite ?is_new_last_hash by reflexivity;
    repeat match goal with
           | H : ?x = _ |- context [?x] => rewrite H
           end;
    split; try reflexivity; try exact Hflag.
Qed.

End Notifications.

(** X10: the same clipboard content notified twice in a row is captured at
    most once, in every tier: after a change that was handled, handling the
    same clipboard again leaves the application exactly as it is. *)
Theorem same_clipboard_twice {W : Qt.ImageWriter}
    (a a1 : ClipKeepApp.t) (now now2 : Z) (clip : Qt.QClipboard) :
  ClipKeepApp.is_internal_copy a = false ->
  ClipKeepApp.on_clipboard_change a now clip = Py.Ok a1 ->
  ClipKeepApp.on_clipboard_change a1 now2 clip = Py.Ok a1.
Proof.
  intros Hflag Hrun. unfold ClipKeepApp.on_clipboard_change in *.
  rewrite Hflag in Hrun.
  destruct (same_clipboard_twice_tiers a now now2 clip a1 Hflag Hrun)
    as [H1 H2].
  rewrite H2. exact H1.
Qed.

Lemma same_clipboard_twice_witness :
  exists a1,
    ClipKeepApp.on_clipboard_change (W := Sample.writer) ClipKeepApp.init 1
      (Sample.urls_clip [Sample.local_url "/tmp/a.txt"]) = Py.Ok a1
    /\ ClipKeepApp.on_clipboard_change (W := Sample.writer) a1 2
         (Sample.urls_clip [Sample.local_url "/tmp/a.txt"]) = Py.Ok a1.
Proof.
  eexists. split; [vm_compute; reflexivity |].
  apply (same_clipboard_twice (W := Sample.writer) ClipKeepApp.init _ 1 2
           (Sample.urls_clip [Sample.local_url "/tmp/a.txt"]) eq_refl).
  vm_compute. reflexivity.
Defined.

Section Md5Length.
Import hashlib.

Lemma length_le_bytes n x : length (le_bytes n x) = n.
Proof. unfold le_bytes. rewrite length_map. apply length_seq. Qed.

Lemma length_hex bs : String.length (hex bs) = (2 * length bs)%nat.
Proof.
  induction bs as [| b bs IH]; simpl; [reflexivity |]. rewrite IH. lia.
Qed.

(** A hex digest has 32 characters, whatever was hashed. *)
Lemma length_md5 data : String.length (md5 data) = 32%nat.
Proof.
  unfold md5, digest. rewrite length_hex.
  destruct (blocks _ _ _) as [[[a b] c] d].
  rewrite !length_app, !length_le_bytes. reflexivity.
Qed.

Lemma md5_not_empty data : md5 data <> EmptyString.
Proof.
  intros H. pose proof (length_md5 data) as Hl. rewrite H in Hl. discriminate Hl.
Qed.

End Md5Length.

(** X11: on an application that has captured nothing yet (no last hash)
    with an empty, healthy store and room for at least one record, every
    clipboard text that is not blank and has a UTF-8 encoding is stored:
    the table then holds exactly the row of the stripped text, and its
    hash is the last captured one. *)
Theorem first_text_is_stored {W : Qt.ImageWriter}
    (a : ClipKeepApp.t) (now : Z) (clip : Qt.QClipboard)
    (c : Z) (s : Py.str) (data : Py.bytes) :
  ClipKeepApp.is_internal_copy a = false ->
  ClipKeepApp.last_clipboard_hash a = EmptyString ->
  sqlite3.rows (ClipKeepApp.db a) = [] ->
  sqlite3.failing (ClipKeepApp.db a) = false ->
  1 <= ClipKeepApp.max_history a ->
  Qt.hasImage clip = false -> Qt.hasUrls clip = false ->
  Qt.hasHtml clip = false -> Qt.hasText clip = true ->
  Py.strip (Qt.text clip) = c :: s ->
  Py.encode (c :: s) = Py.Ok data ->
  exists a1,
    ClipKeepApp.on_clipboard_change a now clip = Py.Ok a1
    /\ sqlite3.rows (ClipKeepApp.db a1)
       = [ClipboardDatabase.new_text_row (ClipKeepApp.db a) now (c :: s)
            "plain" data]
    /\ ClipKeepApp.last_clipboard_hash a1 = hashlib.md5 data.
Proof.
  intros Hflag Hlast Hrows Hf Hmax Hi Hu Hh Ht Hs He.
  unfold ClipKeepApp.on_clipboard_change, ClipKeepApp.tier_image,
    ClipKeepApp.tier_files, ClipKeepApp.tier_html, ClipKeepApp.tier_text.
  rewrite Hflag, Hi, Hu, Hh, Ht, Hs, He, !andb_false_r.
  cbn [Py.bind].
  assert (Hnew : ClipKeepApp.is_new a (hashlib.md5 data) = true).
  { unfold ClipKeepApp.is_new, ClipboardDatabase.check_duplicate_hash.
    rewrite Hlast, (cursor_ok _ Hf), Hrows. cbn [Py.bind Py.try_except existsb].
    destruct (String.eqb (hashlib.md5 data) "") eqn:E; [| reflexivity].
    apply String.eqb_eq in E. exfalso. exact (md5_not_empty data E). }
  rewrite Hnew. eexists. split; [reflexivity |].
  split; [| reflexivity].
  rewrite (rows_add_text_record _ now (c :: s) "plain" data).
  - cbn [ClipKeepApp.db ClipKeepApp.set_last_clipboard_hash].
    rewrite Hrows. reflexivity.
  - exact Hf.
  - exact He.
  - cbn [ClipKeepApp.db ClipKeepApp.set_last_clipboard_hash
         ClipKeepApp.max_history].
    rewrite Hrows. simpl. lia.
Qed.

Lemma first_text_is_stored_witness :
  (1 <= ClipKeepApp.max_history ClipKeepApp.init
   /\ Py.strip (Qt.text (Sample.text_clip (Py.lit " hi "))) = [104; 105])
  /\ exists a1,
       ClipKeepApp.on_clipboard_change (W := Sample.writer) ClipKeepApp.init 4
         (Sample.text_clip (Py.lit " hi ")) = Py.Ok a1
       /\ sqlite3.rows (ClipKeepApp.db a1)
          = [ClipboardDatabase.new_text_row sqlite3.empty 4 [104; 105] "plain"
               ["h"%byte; "i"%byte]]
       /\ ClipKeepApp.last_clipboard_hash a1
          = hashlib.md5 ["h"%byte; "i"%byte].
Proof.
  split; [split; [discriminate | reflexivity] |].
  apply (first_text_is_stored (W := Sample.writer) ClipKeepApp.init 4
           (Sample.text_clip (Py.lit " hi ")) 104 [105] ["h"%byte; "i"%byte]);
    try reflexivity.
  discriminate.
Defined.

(** X12: clearing the history does not clear the last captured hash.
    When the clipboard text that was captured last is notified again after
    [clear_history] was confirmed, it is dropped, although the store is
    empty and [check_duplicate_hash] does not know the hash. *)
Theorem clear_history_keeps_the_last_hash {W : Qt.ImageWriter}
    (a : ClipKeepApp.t) (now : Z) (clip : Qt.QClipboard)
    (c : Z) (s : Py.str) (data : Py.bytes) :
  ClipKeepApp.is_internal_copy a = false ->
  sqlite3.failing (ClipKeepApp.db a) = false ->
  Qt.hasImage clip = false -> Qt.hasUrls clip = false ->
  Qt.hasHtml clip = false -> Qt.hasText clip = true ->
  Py.strip (Qt.text clip) = c :: s ->
  Py.encode (c :: s) = Py.Ok data ->
  ClipKeepApp.last_clipboard_hash a = hashlib.md5 data ->
  let a' := ClipKeepApp.clear_history a true in
  ClipboardDatabase.get_count (ClipKeepApp.db a') = 0
  /\ ClipboardDatabase.check_duplicate_hash (ClipKeepApp.db a')
       (hashlib.md5 data) = false
  /\ ClipKeepApp.on_clipboard_change a' now clip = Py.Ok a'.
Proof.
  intros Hflag Hf Hi Hu Hh Ht Hs He Hlast a'.
  assert (Hlast' : ClipKeepApp.last_clipboard_hash a' = hashlib.md5 data).
  { unfold a', ClipKeepApp.clear_history.
    destruct (ClipboardDatabase.get_count (ClipKeepApp.db a) =? 0);
      exact Hlast. }
  assert (Hflag' : ClipKeepApp.is_internal_copy a' = false).
  { unfold a', ClipKeepApp.clear_history.
    destruct (ClipboardDatabase.get_count (ClipKeepApp.db a) =? 0);
      exact Hflag. }
  assert (Hrows : sqlite3.rows (ClipKeepApp.db a') = []
                  /\ sqlite3.failing (ClipKeepApp.db a') = false).
  { unfold a', ClipKeepApp.clear_history, ClipboardDatabase.get_count,
      ClipboardDatabase.clear_all.
    rewrite (cursor_ok _ Hf). cbn [Py.bind Py.try_except].
    destruct (Z.of_nat (length (sqlite3.rows (ClipKeepApp.db a))) =? 0) eqn:E.
    - apply Z.eqb_eq in E. split; [| exact Hf].
      destruct (sqlite3.rows (ClipKeepApp.db a)); [reflexivity | discriminate E].
    - split; [reflexivity | exact Hf]. }
  destruct Hrows as [Hrows Hf'].
  split; [| split].
  - unfold ClipboardDatabase.get_count. rewrite (cursor_ok _ Hf'), Hrows.
    reflexivity.
  - unfold ClipboardDatabase.check_duplicate_hash.
    rewrite (cursor_ok _ Hf'), Hrows. reflexivity.
  - unfold ClipKeepApp.on_clipboard_change, ClipKeepApp.tier_image,
      ClipKeepApp.tier_files, ClipKeepApp.tier_html, ClipKeepApp.tier_text.
    rewrite Hflag', Hi, Hu, Hh, Ht, Hs, He, !andb_false_r.
    cbn [Py.bind]. rewrite (is_new_last_hash a' _ Hlast'). reflexivity.
Qed.

Lemma clear_history_keeps_the_last_hash_witness :
  let a := ClipKeepApp.add_text_record
             (ClipKeepApp.set_last_clipboard_hash (hashlib.md5 ["A"%byte])
                ClipKeepApp.init) 1 (Py.lit "A") "plain" in
  let a' := ClipKeepApp.clear_history a true in
  (sqlite3.failing (ClipKeepApp.db a) = false
   /\ ClipKeepApp.last_clipboard_hash a = hashlib.md5 ["A"%byte])
  /\ ClipboardDatabase.get_count (ClipKeepApp.db a') = 0
  /\ ClipboardDatabase.check_duplicate_hash (ClipKeepApp.db a')
       (hashlib.md5 ["A"%byte]) = false
  /\ ClipKeepApp.on_clipboard_change (W := Sample.writer) a' 2
       (Sample.text_clip (Py.lit "A")) = Py.Ok a'.
Proof.
  intros a a'.
  assert (Hf : sqlite3.failing (ClipKeepApp.db a) = false).
  { unfold a. rewrite failing_add_text_record. reflexivity. }
  split; [split; [exact Hf | reflexivity] |].
  apply (clear_history_keeps_the_last_hash (W := Sample.writer) a 2
           (Sample.text_clip (Py.lit "A")) 65 [] ["A"%byte]);
    try reflexivity; exact Hf.
Defined.

(** ** A capture and the trim that follows it *)

Section CaptureTrim.
Import sqlite3 ClipKeepApp.

Lemma sorted_head_is_newest (l : list records.row) (r : records.row) :
  ascending_ids l ->
  In r l ->
  (forall x, In x l -> x <> r -> records.timestamp x < records.timestamp r) ->
  exists tl, order_by_timestamp_desc l = r :: tl.
Proof.
  intros Hasc Hr Hnew.
  pose proof (order_by_timestamp_desc_sorted l Hasc) as Hs.
  pose proof (order_by_timestamp_desc_perm l) as Hp.
  destruct (order_by_timestamp_desc l) as [| y tl] eqn:E.
  - apply Permutation_nil in Hp. subst l. destruct Hr.
  - exists tl. f_equal.
    apply StronglySorted_inv in Hs. destruct Hs as [_ Hy].
    assert (Hyl : In y l) by (eapply Permutation_in; [exact Hp | left; reflexivity]).
    assert (Hrs : In r (y :: tl))
      by (eapply Permutation_in; [apply Permutation_sym, Hp | exact Hr]).
    destruct Hrs as [Heq | Hrt]; [exact Heq |].
    rewrite Forall_forall in Hy. specialize (Hy r Hrt).
    destruct (Z.eq_dec (records.id y) (records.id r)) as [Hid | Hid].
    + apply (ascending_ids_inj l y r Hasc Hyl Hr Hid).
    + assert (Hne : y <> r) by (intros ->; apply Hid; reflexivity).
      specialize (Hnew y Hyl Hne). unfold walked_before in Hy. lia.
Qed.

(** Inserting a row that is not newer than the last one of a list shaped
    [m ++ [r]] keeps [r] last. *)
Lemma insert_desc_keeps_last x m r :
  records.timestamp r <= records.timestamp x ->
  exists m', insert_desc x (m ++ [r]) = m' ++ [r] /\ Permutation m' (x :: m).
Proof.
  intros Hle. induction m as [| y m [m' [IH1 IH2]]]; simpl.
  - replace (records.timestamp r <=? records.timestamp x) with true
      by (symmetry; apply Z.leb_le, Hle).
    exists [x]. split; [reflexivity | apply Permutation_refl].
  - destruct (records.timestamp y <=? records.timestamp x).
    + exists (x :: y :: m). split; [reflexivity | apply Permutation_refl].
    + exists (y :: m'). rewrite IH1. split; [reflexivity |].
      eapply Permutation_trans; [apply perm_skip, IH2 | apply perm_swap].
Qed.

Lemma order_keeps_oldest_last l r :
  Forall (fun x => records.timestamp r <= records.timestamp x) l ->
  exists l', order_by_timestamp_desc (l ++ [r]) = l' ++ [r] /\ Permutation l' l.
Proof.
  induction 1 as [| x l Hx _ [l' [IH1 IH2]]]; simpl.
  - exists []. split; [reflexivity | apply Permutation_refl].
  - rewrite IH1.
    destruct (insert_desc_keeps_last x l' r Hx) as [m' [H1 H2]].
    exists m'. split; [exact H1 |].
    eapply Permutation_trans; [exact H2 | apply perm_skip, IH2].
Qed.

End CaptureTrim.

(** X13: a captured text survives the trim that follows it whenever the
    store is healthy, the history limit is at least 1 and the clock
    reading of the capture is later than every stored timestamp. *)
Theorem capture_survives_the_trim
    (a : ClipKeepApp.t) (now : Z) (text : Py.str) (fmt : string)
    (data : Py.bytes) :
  sqlite3.well_formed (ClipKeepApp.db a) ->
  sqlite3.failing (ClipKeepApp.db a) = false ->
  Py.encode text = Py.Ok data ->
  1 <= ClipKeepApp.max_history a ->
  Forall (fun r => records.timestamp r < now) (sqlite3.rows (ClipKeepApp.db a)) ->
  In (ClipboardDatabase.new_text_row (ClipKeepApp.db a) now text fmt data)
     (sqlite3.rows (ClipKeepApp.db (ClipKeepApp.add_text_record a now text fmt))).
Proof.
  intros [Hasc Hseq] Hf He Hmax Hts.
  set (r := ClipboardDatabase.new_text_row (ClipKeepApp.db a) now text fmt data).
  unfold ClipKeepApp.add_text_record, ClipboardDatabase.add_text_record,
    ClipboardDatabase.trim_to_limit.
  rewrite He, (cursor_ok _ Hf). cbn [Py.bind Py.try_except fst].
  unfold sqlite3.cursor at 1. cbn [sqlite3.insert fst sqlite3.failing].
  rewrite Hf. cbn [Py.bind Py.try_except].
  cbn [ClipKeepApp.refresh_history_async ClipKeepApp.start
       ClipKeepApp.set_threadpool ClipKeepApp.set_db ClipKeepApp.db
       ClipKeepApp.max_history].
  fold r.
  match goal with
  | |- In r (sqlite3.rows (sqlite3.delete_not_in_top ?d _)) => set (d1 := d)
  end.
  assert (Hrows1 : sqlite3.rows d1 = sqlite3.rows (ClipKeepApp.db a) ++ [r])
    by reflexivity.
  assert (Hasc1 : sqlite3.ascending_ids (sqlite3.rows d1)).
  { rewrite Hrows1. apply ascending_ids_snoc; [exact Hasc |].
    rewrite Forall_forall in Hseq |- *. intros x Hx. specialize (Hseq x Hx).
    simpl. lia. }
  apply (In_delete_not_in_top d1 _ r Hasc1).
  destruct (sorted_head_is_newest (sqlite3.rows d1) r Hasc1) as [tl Htl].
  - rewrite Hrows1. apply in_or_app. right. left. reflexivity.
  - intros x Hx Hne. rewrite Hrows1 in Hx. apply in_app_or in Hx.
    destruct Hx as [Hx | [Hx | []]]; [| congruence].
    rewrite Forall_forall in Hts. specialize (Hts x Hx). simpl. exact Hts.
  - rewrite Htl. unfold sqlite3.limit.
    replace (ClipKeepApp.max_history a <? 0) with false
      by (symmetry; apply Z.ltb_ge; lia).
    destruct (Z.to_nat (ClipKeepApp.max_history a)) as [| n] eqn:En; [lia |].
    left. reflexivity.
Qed.

Lemma capture_survives_the_trim_witness :
  let a := ClipKeepApp.set_db
             (Sample.store [Sample.text_row 1 5 "a"; Sample.text_row 2 9 "b"] 2)
             ClipKeepApp.init in
  Py.encode (Py.lit "c") = Py.Ok ["c"%byte]
  /\ In (ClipboardDatabase.new_text_row (ClipKeepApp.db a) 10 (Py.lit "c")
           "plain" ["c"%byte])
        (sqlite3.rows
           (ClipKeepApp.db (ClipKeepApp.add_text_record a 10 (Py.lit "c") "plain"))).
Proof.
  intros a. split; [reflexivity |].
  apply (capture_survives_the_trim a 10 (Py.lit "c") "plain" ["c"%byte]).
  - split; repeat constructor; simpl; lia.
  - reflexivity.
  - reflexivity.
  - discriminate.
  - repeat constructor.
Defined.

(** X14: a capture can be lost to its own trim.  When the history is full
    and the clock reading of the capture is not later than any stored
    timestamp (the clock stood still or was set back), the trim that
    follows the insert deletes the row just inserted: the table is as
    before, while the id was used up. *)
Theorem capture_with_a_stale_clock_is_trimmed
    (a : ClipKeepApp.t) (now : Z) (text : Py.str) (fmt : string)
    (data : Py.bytes) :
  sqlite3.well_formed (ClipKeepApp.db a) ->
  sqlite3.failing (ClipKeepApp.db a) = false ->
  Py.encode text = Py.Ok data ->
  Z.of_nat (length (sqlite3.rows (ClipKeepApp.db a))) = ClipKeepApp.max_history a ->
  Forall (fun r => now <= records.timestamp r) (sqlite3.rows (ClipKeepApp.db a)) ->
  let a' := ClipKeepApp.add_text_record a now text fmt in
  sqlite3.rows (ClipKeepApp.db a') = sqlite3.rows (ClipKeepApp.db a)
  /\ sqlite3.sequence (ClipKeepApp.db a') = sqlite3.sequence (ClipKeepApp.db a) + 1.
Proof.
  intros [Hasc Hseq] Hf He Hfull Hts.
  set (r := ClipboardDatabase.new_text_row (ClipKeepApp.db a) now text fmt data).
  unfold ClipKeepApp.add_text_record, ClipboardDatabase.add_text_record,
    ClipboardDatabase.trim_to_limit.
  rewrite He, (cursor_ok _ Hf). cbn [Py.bind Py.try_except fst].
  unfold sqlite3.cursor at 1. cbn [sqlite3.insert fst sqlite3.failing].
  rewrite Hf. cbn [Py.bind Py.try_except].
  cbn [ClipKeepApp.refresh_history_async ClipKeepApp.start
       ClipKeepApp.set_threadpool ClipKeepApp.set_db ClipKeepApp.db
       ClipKeepApp.max_history].
  split; [| reflexivity].
  change (filter
            (fun x => sqlite3.mem (records.id x)
                        (map records.id
                           (sqlite3.limit (ClipKeepApp.max_history a)
                              (sqlite3.order_by_timestamp_desc
                                 (sqlite3.rows (ClipKeepApp.db a) ++ [r])))))
            (sqlite3.rows (ClipKeepApp.db a) ++ [r])
          = sqlite3.rows (ClipKeepApp.db a)).
  destruct (order_keeps_oldest_last (sqlite3.rows (ClipKeepApp.db a)) r)
    as [l' [Hord Hperm]].
  { rewrite Forall_forall in Hts |- *. intros x Hx. simpl. apply Hts, Hx. }
  rewrite Hord. unfold sqlite3.limit.
  replace (ClipKeepApp.max_history a <? 0) with false
    by (symmetry; apply Z.ltb_ge; lia).
  replace (Z.to_nat (ClipKeepApp.max_history a)) with (length l' + 0)%nat.
  2:{ rewrite (Permutation_length Hperm). lia. }
  rewrite firstn_app_2. simpl. rewrite app_nil_r.
  rewrite filter_app. cbn [filter].
  replace (sqlite3.mem (records.id r) (map records.id l')) with false.
  2:{ symmetry. apply not_true_is_false. intros Hm.
      apply mem_In, in_map_iff in Hm. destruct Hm as [x [Hid Hx]].
      apply (Permutation_in _ Hperm) in Hx.
      rewrite Forall_forall in Hseq. specialize (Hseq x Hx).
      simpl in Hid. lia. }
  rewrite app_nil_r.
  apply forallb_filter_id, forallb_forall. intros x Hx.
  apply mem_In, in_map.
  eapply Permutation_in; [apply Permutation_sym, Hperm | exact Hx].
Qed.

Lemma capture_with_a_stale_clock_is_trimmed_witness :
  let a := Sample.app
             (Sample.store [Sample.text_row 1 5 "a"; Sample.text_row 2 5 "b"] 2)
             2 in
  (Py.encode (Py.lit "c") = Py.Ok ["c"%byte]
   /\ Z.of_nat (length (sqlite3.rows (ClipKeepApp.db a)))
      = ClipKeepApp.max_history a)
  /\ sqlite3.rows
       (ClipKeepApp.db (ClipKeepApp.add_text_record a 5 (Py.lit "c") "plain"))
     = sqlite3.rows (ClipKeepApp.db a).
Proof.
  intros a. split; [split; reflexivity |].
  refine (proj1 (capture_with_a_stale_clock_is_trimmed a 5 (Py.lit "c") "plain"
                   ["c"%byte] _ eq_refl eq_refl eq_refl _)).
  - split; repeat constructor; simpl; lia.
  - repeat constructor; discriminate.
Defined.

(** X15: the history stays within its limit.  After a text capture on a
    healthy store, with a limit of at least 0, the table holds at most
    [max_history] rows, also when it held more before. *)
Theorem history_within_limit_after_capture
    (a : ClipKeepApp.t) (now : Z) (text : Py.str) (fmt : string) :
  sqlite3.well_formed (ClipKeepApp.db a) ->
  sqlite3.failing (ClipKeepApp.db a) = false ->
  0 <= ClipKeepApp.max_history a ->
  ClipboardDatabase.get_count
    (ClipKeepApp.db (ClipKeepApp.add_text_record a now text fmt))
  <= ClipKeepApp.max_history a.
Proof.
  intros Hwf Hf Hmax.
  unfold ClipKeepApp.add_text_record.
  cbn [ClipKeepApp.refresh_history_async ClipKeepApp.start
       ClipKeepApp.set_threadpool ClipKeepApp.set_db ClipKeepApp.db
       ClipKeepApp.max_history].
  set (d1 := fst (ClipboardDatabase.add_text_record (ClipKeepApp.db a) now
                    text fmt)).
  assert (Hwf1 : sqlite3.well_formed d1)
    by apply (well_formed_add_text_record _ now text fmt Hwf).
  assert (Hf1 : sqlite3.failing d1 = false).
  { unfold d1, ClipboardDatabase.add_text_record, sqlite3.cursor.
    destruct (Py.encode text); cbn [Py.bind Py.try_except fst]; [| exact Hf].
    rewrite Hf. exact Hf. }
  unfold ClipboardDatabase.get_count, ClipboardDatabase.trim_to_limit.
  rewrite (cursor_ok d1 Hf1). cbn [Py.bind Py.try_except].
  replace (sqlite3.cursor (sqlite3.delete_not_in_top d1 (ClipKeepApp.max_history a)))
    with (Py.Ok tt : Py.result unit) by (symmetry; apply cursor_ok; exact Hf1).
  cbn [Py.bind Py.try_except].
  destruct (Z_le_gt_dec (Z.of_nat (length (sqlite3.rows d1)))
              (ClipKeepApp.max_history a)) as [Hle | Hgt].
  - rewrite (delete_not_in_top_room d1 _ Hle). exact Hle.
  - rewrite (delete_not_in_top_length d1 _ (proj1 Hwf1)); lia.
Qed.

Lemma history_within_limit_after_capture_witness :
  let a := ClipKeepApp.set_db
             (Sample.store [Sample.text_row 1 5 "a"; Sample.text_row 2 9 "b"] 2)
             ClipKeepApp.init in
  0 <= ClipKeepApp.max_history a
  /\ ClipboardDatabase.get_count
       (ClipKeepApp.db (ClipKeepApp.add_text_record a 10 (Py.lit "c") "plain"))
     <= ClipKeepApp.max_history a.
Proof.
  intros a. split; [discriminate |].
  apply (history_within_limit_after_capture a 10 (Py.lit "c") "plain").
  - split; repeat constructor; simpl; lia.
  - reflexivity.
  - discriminate.
Defined.

(** ** More on the debounced save *)

(** X16: the debouncer has one buffer.  Record [r1] is edited; before the
    700 ms are over the detail view loads record [r2], a text record with
    a usable id, and that one is edited too.  The timer then saves once,
    for [r2]: the edit of [r1] is replaced in the buffer and never reaches
    the store. *)
Theorem edit_of_another_record_replaces_the_pending_save
    (a : ClipKeepApp.t) (r1 r2 : ClipboardRecord.t) (t0 t1 t2 : Z)
    (p1 h1 p2 h2 : Py.str) :
  ClipKeepApp.current_record a = Some r1 ->
  ClipboardRecord.type r1 = "text"%string ->
  ClipboardRecord.type r2 = "text"%string ->
  ClipboardRecord.id r2 <> 0 ->
  ClipKeepApp._save_timer a = None ->
  t1 < t0 + SAVE_DEBOUNCE_MS ->
  t2 < t0 + SAVE_DEBOUNCE_MS ->
  let a' :=
    ClipKeepApp.idle
      (ClipKeepApp.event_loop a
         [(t0, ClipKeepApp.textChanged p1 h1);
          (t1, ClipKeepApp.detail_loaded (Some r2));
          (t2, ClipKeepApp.textChanged p2 h2)]) in
  ClipKeepApp.db a'
  = ClipboardDatabase.update_text_content (ClipKeepApp.db a)
      (ClipboardRecord.id r2) (ClipKeepApp.new_text r2 p2 h2)
  /\ ClipKeepApp._pending_save_id a' = None
  /\ ClipKeepApp._save_timer a' = None.
Proof.
  intros Hcur Hty1 Hty2 Hid Htm Ht1 Ht2.
  set (s1 := ClipKeepApp.set_save_timer (Some (t0 + SAVE_DEBOUNCE_MS))
               (ClipKeepApp.set_pending (Some (ClipboardRecord.id r1))
                  (Some (ClipKeepApp.new_text r1 p1 h1)) a)).
  set (s2 := ClipKeepApp.set_current_record (Some r2) s1).
  set (s3 := ClipKeepApp.set_save_timer (Some (t2 + SAVE_DEBOUNCE_MS))
               (ClipKeepApp.set_pending (Some (ClipboardRecord.id r2))
                  (Some (ClipKeepApp.new_text r2 p2 h2)) s2)).
  assert (E1 : ClipKeepApp.deliver a (t0, ClipKeepApp.textChanged p1 h1) = s1).
  { unfold ClipKeepApp.deliver, ClipKeepApp.handle, ClipKeepApp.fire_save_timer.
    rewrite Htm. unfold ClipKeepApp.on_text_edited.
    rewrite Hcur, Hty1. reflexivity. }
  assert (E2 : ClipKeepApp.deliver s1 (t1, ClipKeepApp.detail_loaded (Some r2))
               = s2).
  { unfold ClipKeepApp.deliver, ClipKeepApp.handle, ClipKeepApp.fire_save_timer.
    replace (ClipKeepApp._save_timer s1) with (Some (t0 + SAVE_DEBOUNCE_MS))
      by reflexivity.
    replace (t0 + SAVE_DEBOUNCE_MS <=? t1) with false
      by (symmetry; apply Z.leb_gt; exact Ht1).
    reflexivity. }
  assert (E3 : ClipKeepApp.deliver s2 (t2, ClipKeepApp.textChanged p2 h2) = s3).
  { unfold ClipKeepApp.deliver, ClipKeepApp.handle, ClipKeepApp.fire_save_timer.
    replace (ClipKeepApp._save_timer s2) with (Some (t0 + SAVE_DEBOUNCE_MS))
      by reflexivity.
    replace (t0 + SAVE_DEBOUNCE_MS <=? t2) with false
      by (symmetry; apply Z.leb_gt; exact Ht2).
    unfold ClipKeepApp.on_text_edited.
    replace (ClipKeepApp.current_record s2) with (Some r2) by reflexivity.
    rewrite Hty2. reflexivity. }
  unfold ClipKeepApp.event_loop. cbn [fold_left].
  rewrite E1, E2, E3.
  unfold ClipKeepApp.idle, ClipKeepApp.fire_save_timer.
  replace (ClipKeepApp._save_timer s3) with (Some (t2 + SAVE_DEBOUNCE_MS))
    by reflexivity.
  rewrite Z.leb_refl. unfold ClipKeepApp._do_save_pending.
  cbn [ClipKeepApp._pending_save_id ClipKeepApp._pending_save_text
       ClipKeepApp.set_save_timer s3 ClipKeepApp.set_pending].
  replace (ClipboardRecord.id r2 =? 0) with false
    by (symmetry; apply Z.eqb_neq; exact Hid).
  repeat split.
Qed.

Lemma edit_of_another_record_replaces_the_pending_save_witness :
  let r1 := Sample.text_record 5 "plain" in
  let r2 := Sample.text_record 6 "plain" in
  let a := ClipKeepApp.set_current_record (Some r1) ClipKeepApp.init in
  (ClipboardRecord.id r2 <> 0 /\ 300 < 0 + SAVE_DEBOUNCE_MS)
  /\ ClipKeepApp.db
       (ClipKeepApp.idle
          (ClipKeepApp.event_loop a
             [(0, ClipKeepApp.textChanged (Py.lit "one") []);
              (300, ClipKeepApp.detail_loaded (Some r2));
              (600, ClipKeepApp.textChanged (Py.lit "two") [])]))
     = ClipboardDatabase.update_text_content (ClipKeepApp.db a) 6 (Py.lit "two").
Proof.
  intros r1 r2 a.
  assert (Hid : ClipboardRecord.id r2 <> 0) by discriminate.
  assert (H1 : 300 < 0 + SAVE_DEBOUNCE_MS) by reflexivity.
  assert (H2 : 600 < 0 + SAVE_DEBOUNCE_MS) by reflexivity.
  split; [split; assumption |].
  exact (proj1 (edit_of_another_record_replaces_the_pending_save a r1 r2
                  0 300 600 (Py.lit "one") [] (Py.lit "two") []
                  eq_refl eq_refl eq_refl Hid eq_refl H1 H2)).
Defined.

(** ** The persisted image and its thumbnail *)

(** X17: the thumbnail of a persisted image that is not null fits the
    64 by 64 box and touches it: both sides are between 1 and 64, one of
    them is exactly 64 (a small image is scaled up), and the alpha channel
    is that of the image. *)
Theorem thumbnail_fits_the_box (persist : Qt.QImage) :
  Qt.isNull persist = false ->
  let thumb := Qt.scaled persist THUMBNAIL_SIZE THUMBNAIL_SIZE in
  1 <= Qt.width thumb <= THUMBNAIL_SIZE
  /\ 1 <= Qt.height thumb <= THUMBNAIL_SIZE
  /\ (Qt.width thumb = THUMBNAIL_SIZE \/ Qt.height thumb = THUMBNAIL_SIZE)
  /\ Qt.hasAlphaChannel thumb = Qt.hasAlphaChannel persist.
Proof.
  intros Hnull. unfold Qt.scaled, Qt.QSize_scaled, THUMBNAIL_SIZE.
  rewrite Hnull. change (64 <? 1) with false. cbn [orb].
  unfold Qt.isNull in Hnull. apply orb_false_iff in Hnull.
  destruct Hnull as [Hw Hh]. apply Z.leb_gt in Hw, Hh.
  set (w := Qt.width persist) in *. set (h := Qt.height persist) in *.
  replace (w =? 0) with false by (symmetry; apply Z.eqb_neq; lia).
  replace (h =? 0) with false by (symmetry; apply Z.eqb_neq; lia).
  cbn [orb].
  assert (Hrw : 0 <= 64 * w / h) by (apply Z.div_pos; lia).
  assert (Hrh : 0 <= 64 * h / w) by (apply Z.div_pos; lia).
  destruct (64 * w / h <=? 64) eqn:Hfit.
  - apply Z.leb_le in Hfit.
    destruct ((Z.max (64 * w / h) 1 =? w) && (Z.max 64 1 =? h)) eqn:Hsame.
    + apply andb_true_iff in Hsame. destruct Hsame as [Ha Hb].
      apply Z.eqb_eq in Ha, Hb. cbv zeta. fold w h.
      repeat split; try reflexivity; lia.
    + cbn [Qt.width Qt.height Qt.hasAlphaChannel].
      repeat split; try reflexivity; lia.
  - apply Z.leb_gt in Hfit.
    assert (Hlt : 64 * h / w < 64).
    { apply Z.div_lt_upper_bound; [lia |].
      assert (h * (64 * w / h) <= 64 * w) by (apply Z.mul_div_le; lia).
      nia. }
    destruct ((Z.max 64 1 =? w) && (Z.max (64 * h / w) 1 =? h)) eqn:Hsame.
    + apply andb_true_iff in Hsame. destruct Hsame as [Ha Hb].
      apply Z.eqb_eq in Ha, Hb. cbv zeta. fold w h.
      repeat split; try reflexivity; lia.
    + cbn [Qt.width Qt.height Qt.hasAlphaChannel].
      repeat split; try reflexivity; lia.
Qed.

Lemma thumbnail_fits_the_box_witness :
  Qt.isNull Sample.opaque_image = false
  /\ Qt.width (Qt.scaled Sample.opaque_image THUMBNAIL_SIZE THUMBNAIL_SIZE)
     = THUMBNAIL_SIZE.
Proof.
  split; [reflexivity |].
  pose proof (thumbnail_fits_the_box Sample.opaque_image eq_refl) as H.
  reflexivity.
Defined.


(** ** What the file and HTML tiers store *)

Section Formats.
Import sqlite3 ClipKeepApp.
Context {W : Qt.ImageWriter}.

Lemma rows_by_format a now clip a' x :
  on_clipboard_change a now clip = Py.Ok a' ->
  In x (rows (db a')) ->
  ~ In x (rows (db a)) ->
  (records.format x = Some "file"%string ->
   enable_file_paths (settings a) = true
   /\ local_files (Qt.urls clip) <> []
   /\ records.content x = Some (Py.join [10] (local_files (Qt.urls clip))))
  /\ (records.format x = Some "html"%string ->
      enable_rich_text (settings a) = true
      /\ 20 < Z.of_nat (length (Qt.html clip))
      /\ records.content x = Some (Qt.html clip)).
Proof.
  unfold on_clipboard_change, tier_image, tier_files, tier_html, tier_text.
  intros Hrun Hin Hold.
  repeat match type of Hrun with
         | (if ?b then _ else _) = _ =>
             let E := fresh "E" in destruct b eqn:E
         | (match ?l with [] => _ | _ :: _ => _ end) = _ =>
             let E := fresh "E" in destruct l eqn:E
         | Py.bind ?m _ = _ =>
             let E := fresh "E" in destruct m eqn:E; cbn [Py.bind] in Hrun
         end;
    try discriminate Hrun;
    injection Hrun as <-;
    try (exfalso; apply Hold; exact Hin);
    apply In_app_add_text_record in Hin;
    cbn [db set_last_clipboard_hash] in Hin;
    destruct Hin as [Hin | (_ & Hc & Hf & _)];
    try (exfalso; apply Hold; exact Hin);
    (split; intros Hfmt; rewrite Hfmt in Hf; try discriminate Hf);
    repeat match goal with
           | H : (_ && _) = true |- _ =>
               apply andb_true_iff in H; destruct H
           | H : (_ <? _) = true |- _ => apply Z.ltb_lt in H
           end;
    repeat split; try assumption; try discriminate.
Qed.

End Formats.

(** X19: every row of format file that a clipboard change adds holds the
    local paths among the clipboard's URLs, in clipboard order, joined by
    newlines, and is only added with [enable_file_paths] on; every row of
    format html holds the clipboard's HTML unchanged, which is longer than
    20 characters, and is only added with [enable_rich_text] on. *)
Theorem file_and_html_rows {W : Qt.ImageWriter}
    (a a' : ClipKeepApp.t) (now : Z) (clip : Qt.QClipboard) (x : records.row) :
  ClipKeepApp.on_clipboard_change a now clip = Py.Ok a' ->
  In x (sqlite3.rows (ClipKeepApp.db a')) ->
  ~ In x (sqlite3.rows (ClipKeepApp.db a)) ->
  (records.format x = Some "file"%string ->
   ClipKeepApp.enable_file_paths (ClipKeepApp.settings a) = true
   /\ ClipKeepApp.local_files (Qt.urls clip) <> []
   /\ records.content x
      = Some (Py.join [10]
                (map Qt.toLocalFile (filter Qt.isLocalFile (Qt.urls clip)))))
  /\ (records.format x = Some "html"%string ->
      ClipKeepApp.enable_rich_text (ClipKeepApp.settings a) = true
      /\ 20 < Z.of_nat (length (Qt.html clip))
      /\ records.content x = Some (Qt.html clip)).
Proof. apply rows_by_format. Qed.

Lemma file_and_html_rows_witness :
  let clip := Sample.urls_clip [Sample.local_url "/tmp/a.txt";
                                Sample.local_url "/tmp/b.txt"] in
  let a' := ClipKeepApp.add_text_record
              (ClipKeepApp.set_last_clipboard_hash
                 (hashlib.md5 (map Py.byte_of_Z (Py.lit "/tmp/a.txt" ++ [10]
                                                  ++ Py.lit "/tmp/b.txt")))
                 ClipKeepApp.init)
              3 (Py.lit "/tmp/a.txt" ++ [10] ++ Py.lit "/tmp/b.txt") "file" in
  ClipKeepApp.on_clipboard_change (W := Sample.writer) ClipKeepApp.init 3 clip
  = Py.Ok a'
  /\ forall x,
       In x (sqlite3.rows (ClipKeepApp.db a')) ->
       records.format x = Some "file"%string ->
       records.content x
       = Some (Py.lit "/tmp/a.txt" ++ [10] ++ Py.lit "/tmp/b.txt").
Proof.
  intros clip a'.
  assert (Hrun : ClipKeepApp.on_clipboard_change (W := Sample.writer)
                   ClipKeepApp.init 3 clip = Py.Ok a')
    by (vm_compute; reflexivity).
  split; [exact Hrun |].
  intros x Hx Hfmt.
  exact (proj2 (proj2 (proj1 (file_and_html_rows (W := Sample.writer)
                                ClipKeepApp.init a' 3 clip x Hrun Hx
                                (fun H => H)) Hfmt))).
Defined.

(** ** The application's own copies and stale detail loads *)

(** X20: the clipboard change caused by the application's own copy is not
    captured.  After [copy_selected_to_system] with a current record the
    next notification, whatever the clipboard holds, leaves the store, the
    thread pool and the last hash as they were and only takes the mark
    back; the notification after that is handled as if no copy had
    happened. *)
Theorem own_copy_is_not_captured {W : Qt.ImageWriter}
    (a : ClipKeepApp.t) (r : ClipboardRecord.t) (now : Z)
    (clip : Qt.QClipboard) :
  ClipKeepApp.current_record a = Some r ->
  ClipKeepApp.is_internal_copy a = false ->
  exists a',
    ClipKeepApp.on_clipboard_change (ClipKeepApp.copy_selected_to_system a)
      now clip = Py.Ok a'
    /\ ClipKeepApp.db a' = ClipKeepApp.db a
    /\ ClipKeepApp.threadpool a' = ClipKeepApp.threadpool a
    /\ ClipKeepApp.last_clipboard_hash a' = ClipKeepApp.last_clipboard_hash a
    /\ forall now2 clip2,
         ClipKeepApp.on_clipboard_change a' now2 clip2
         = ClipKeepApp.on_clipboard_change a now2 clip2.
Proof.
  intros Hcur Hflag.
  unfold ClipKeepApp.copy_selected_to_system. rewrite Hcur.
  unfold ClipKeepApp.on_clipboard_change at 1.
  cbn [ClipKeepApp.is_internal_copy ClipKeepApp.set_is_internal_copy].
  eexists. split; [reflexivity |].
  repeat split.
  intros now2 clip2. destruct a. simpl in Hflag. subst. reflexivity.
Qed.

Lemma own_copy_is_not_captured_witness :
  let a := ClipKeepApp.set_current_record (Some (Sample.text_record 5 "plain"))
             ClipKeepApp.init in
  ClipKeepApp.is_internal_copy a = false
  /\ exists a',
       ClipKeepApp.on_clipboard_change (W := Sample.writer)
         (ClipKeepApp.copy_selected_to_system a) 1
         (Sample.text_clip (Py.lit "copied")) = Py.Ok a'
       /\ ClipKeepApp.db a' = ClipKeepApp.db a.
Proof.
  intros a. split; [reflexivity |].
  destruct (own_copy_is_not_captured (W := Sample.writer) a
              (Sample.text_record 5 "plain") 1
              (Sample.text_clip (Py.lit "copied")) eq_refl eq_refl)
    as [a' [H1 [H2 _]]].
  exists a'. split; assumption.
Defined.

(** X21: a detail load that finishes after its record is gone changes
    nothing.  On a healthy store without a row of that id the worker
    delivers [None], and the application keeps its current record and
    everything else; only the worker leaves the pool. *)
Theorem stale_detail_load_is_ignored {W : Qt.ImageWriter}
    (a : ClipKeepApp.t) (record_id now : Z) (rest : list ClipKeepApp.runnable) :
  ClipKeepApp.threadpool a
  = ClipKeepApp.DBWorker_ (DBWorker.get_detail record_id) :: rest ->
  sqlite3.failing (ClipKeepApp.db a) = false ->
  (forall r, In r (sqlite3.rows (ClipKeepApp.db a)) -> records.id r <> record_id) ->
  DBWorker.run (ClipKeepApp.db a) (DBWorker.get_detail record_id)
  = [result DBWorker.None_; finished]
  /\ ClipKeepApp.run_worker a now = ClipKeepApp.set_threadpool rest a.
Proof.
  intros Hpool Hf Habs.
  assert (Hfind : find (fun r => records.id r =? record_id)
                    (sqlite3.rows (ClipKeepApp.db a)) = None).
  { destruct (find _ _) as [r |] eqn:E; [| reflexivity].
    apply find_some in E. destruct E as [Hin Heq].
    apply Z.eqb_eq in Heq. exfalso. exact (Habs r Hin Heq). }
  assert (Hrun : DBWorker.run (ClipKeepApp.db a) (DBWorker.get_detail record_id)
                 = [result DBWorker.None_; finished]).
  { unfold DBWorker.run, DBWorker.body. rewrite (cursor_ok _ Hf).
    cbn [Py.bind]. rewrite Hfind. reflexivity. }
  split; [exact Hrun |].
  unfold ClipKeepApp.run_worker. rewrite Hpool.
  cbn [ClipKeepApp.db ClipKeepApp.set_threadpool]. rewrite Hrun. reflexivity.
Qed.

Lemma stale_detail_load_is_ignored_witness :
  let a := ClipKeepApp.start
             (ClipKeepApp.DBWorker_ (DBWorker.get_detail 7))
             (Sample.app (Sample.store [Sample.text_row 1 5 "a"] 7) 100) in
  sqlite3.failing (ClipKeepApp.db a) = false
  /\ ClipKeepApp.run_worker (W := Sample.writer) a 9
     = ClipKeepApp.set_threadpool [] a.
Proof.
  intros a. split; [reflexivity |].
  refine (proj2 (stale_detail_load_is_ignored (W := Sample.writer) a 7 9 []
                   eq_refl eq_refl _)).
  intros r [<- | []]. discriminate.
Defined.

(** ** The image worker without a resize, and in double precision *)




(** ** The store lookup of the Dedup Guard *)


